(** * The points ledger of the CSC309 loyalty-program backend

    A shallow embedding of the ledger handlers of the Express/Prisma backend:
    purchase, adjustment, transfer, redemption request, redemption
    processing, event award, the suspicious toggle, and the two event
    handlers that write the point budget; and of the handlers around the
    ledger: the guest lists and the organizers of an event, the promotions,
    the role and the flags of a user, and the password reset tokens.

    The repository carries the backend twice:
    - [src/unnamed/part_003] (module [Part003] below);
    - the [index.js] listing that follows the migration inside
      [src/backend/prisma/createsu.js] (module [Backend] below).
    Handlers whose logic is the same in both listings are embedded once, in
    module [Shared], with both line ranges given.  The handlers around the
    ledger are in modules named after the listing and what they keep:
    [Part003_Guests], [Backend_Guests] and [Shared_Guests], and likewise for
    [Promotions], [Users] and [Auth].

    Modelling conventions.
    - The relational store is a record of tables.  A table with a primary
      key is a [gmap] from the key to the row; the [Transaction] table, which
      is only ever appended to, is a list whose 1-based positions are the
      autoincrement ids.
    - [prisma.$transaction] is a computation in an error/state monad: it
      commits when every statement succeeds and leaves the store untouched
      (the handler answers 500) when one throws.
    - A number read from a JSON body is an [option Q]: [None] is a field that
      is missing or is not a number, [Some q] a finite number.  JSON has no
      NaN; a literal too large for a double, which [JSON.parse] reads as
      [Infinity], is outside the model.  A rational stands for the double
      nearest to it.  Truncation, the test for an integer, comparisons and
      the division by 0.25 come out on the rationals as on the doubles for
      numbers written with at most fifteen significant digits, and are
      taken on the rationals; a product is rounded as a product of doubles
      is ([times]).  A product too large for a double is outside the model.
    - Integer columns are [Z]: the range of the client's [Int] is not
      modelled.  Ids in a URL are integers.
    - [now()] is an argument of the handler: one instant per request.  So
      are the key that the sequence of a table hands out to a new promotion,
      the token that [uuidv4()] returns and the hash that [bcrypt] returns.
    - A string is given by its UTF-8 bytes.
    - Requests are served one at a time. *)

From Stdlib Require Import ZArith QArith Qround Ascii String List Bool Lia.
From stdpp Require Import base option gmap strings list fin_maps sorting.
Import ListNotations.
Open Scope Z_scope.

(** ** JavaScript numbers *)

Definition Math_trunc (x : Q) : Z := Z.quot (Qnum x) (Z.pos (Qden x)).

(** [Math.round] rounds to the nearest integer, halves towards +infinity. *)
Definition Math_round (x : Q) : Z := Qfloor (x + (1 # 2))%Q.

Definition Number_isInteger (x : Q) : bool :=
  Z.rem (Qnum x) (Z.pos (Qden x)) =? 0.

(** [x < y] and [x <= y] on numbers. *)
Definition num_le (x y : Q) : bool := Qle_bool x y.
Definition num_lt (x y : Q) : bool := negb (Qle_bool y x).

(** An integer column used as a number. *)
Definition Number (z : Z) : Q := inject_Z z.

(** The integer nearest to [n / d] for [d > 0], a tie going to the even
    one. *)
Definition nearest_even (n d : Z) : Z :=
  let q := n / d in
  let r := n mod d in
  if 2 * r <? d then q
  else if d <? 2 * r then q + 1
  else if Z.even q then q else q + 1.

(** The exponent of the largest power of two that is at most [n / d], for
    [n > 0] and [d > 0]. *)
Definition exponent (n d : Z) : Z :=
  let k := Z.log2 n - Z.log2 d in
  if (if 0 <=? k then d * 2 ^ k <=? n else d <=? n * 2 ^ (- k))
  then k else k - 1.

(** The double that a number is: the binary64 value nearest to [x], a tie
    going to the even significand.  A normal double is [m * 2 ^ e] with
    [2 ^ 52 <= m < 2 ^ 53]; below [2 ^ (-1022)] the exponent stays at
    [-1074]. *)
Definition double_of (x : Q) : Q :=
  let n := Z.abs (Qnum x) in
  let d := Z.pos (Qden x) in
  if n =? 0 then 0%Q else
  let e := Z.max (exponent n d - 52) (- 1074) in
  let v :=
    if 0 <=? e then inject_Z (nearest_even n (d * 2 ^ e) * 2 ^ e)
    else (nearest_even (n * 2 ^ (- e)) d # Z.to_pos (2 ^ (- e)))%Q in
  if Qnum x <? 0 then (- v)%Q else v.

(** [x * y] on numbers. *)
Definition times (x y : Q) : Q := (double_of (double_of x * double_of y))%Q.

(** [const ceilInt = (x) => Math.trunc(x)] (part_003, line 64). *)
Definition ceilInt (x : Q) : Z := Math_trunc x.

(** [const basePoints = (spent) => Math.round(Number(spent) / 0.25)]
    (part_003 line 66, createsu.js line 248). *)
Definition basePoints (spent : Q) : Z := Math_round (spent / (1 # 4))%Q.

(** ** Roles and the authenticated caller *)

Inductive Role := regular | cashier | manager | superuser.

(** [const ORDER = { regular: 0, cashier: 1, manager: 2, superuser: 3 }]. *)
Definition ORDER (r : Role) : Z :=
  match r with regular => 0 | cashier => 1 | manager => 2 | superuser => 3 end.

(** [req.auth], the payload of the bearer token. *)
Record Auth := mkAuth { a_id : Z; a_utorid : string; a_role : Role }.

(** ** Rows *)

Record User := mkUser {
  u_utorid : string;
  u_role : Role;
  u_points : Z;
  u_verified : bool;
  u_suspicious : bool }.

(** The [data] of a [transaction.create].  [t_suspicious] is a nullable
    column without default in the migration; [t_spent] is the column the
    createsu.js listing writes for a purchase; [t_earned] is the field
    [earned] that part_003 puts in the data of a purchase, and which is no
    column of the table (createsu.js lines 92-107). *)
Record Transaction := mkTransaction {
  t_userId : Z;
  t_type : string;
  t_amount : Z;
  t_spent : option Q;
  t_earned : option Z;
  t_remark : string;
  t_suspicious : option bool;
  t_relatedId : option Z;
  t_createdById : Z;
  t_processedById : option Z }.

Record Promotion := mkPromotion {
  p_name : string;
  p_type : string;
  p_startTime : Z;
  p_endTime : Z;
  p_minSpending : option Q;
  p_rate : option Q;
  p_points : option Z }.

Record Event := mkEvent {
  e_name : string;
  e_description : string;
  e_location : string;
  e_startTime : Z;
  e_endTime : Z;
  e_capacity : option Q;
  e_published : bool;
  e_pointsTotal : Z;
  e_pointsRemain : Z;
  e_pointsAwarded : Z }.

(** ** The store *)

Record Store := mkStore {
  users : gmap Z User;
  transactions : list Transaction;
  promotions : gmap Z Promotion;
  transactionPromotions : gset (Z * Z);
  userPromotionUsage : gmap (Z * Z) (option Z);
  events : gmap Z Event;
  eventSeq : Z;
  eventOrganizers : gset (Z * Z);
  eventGuests : gset (Z * Z) }.

Definition set_users (f : gmap Z User -> gmap Z User) (s : Store) : Store :=
  mkStore (f (users s)) (transactions s) (promotions s)
    (transactionPromotions s) (userPromotionUsage s) (events s) (eventSeq s)
    (eventOrganizers s) (eventGuests s).

Definition set_transactions (f : list Transaction -> list Transaction)
    (s : Store) : Store :=
  mkStore (users s) (f (transactions s)) (promotions s)
    (transactionPromotions s) (userPromotionUsage s) (events s) (eventSeq s)
    (eventOrganizers s) (eventGuests s).

Definition set_transactionPromotions (f : gset (Z * Z) -> gset (Z * Z))
    (s : Store) : Store :=
  mkStore (users s) (transactions s) (promotions s)
    (f (transactionPromotions s)) (userPromotionUsage s) (events s)
    (eventSeq s) (eventOrganizers s) (eventGuests s).

Definition set_userPromotionUsage
    (f : gmap (Z * Z) (option Z) -> gmap (Z * Z) (option Z))
    (s : Store) : Store :=
  mkStore (users s) (transactions s) (promotions s)
    (transactionPromotions s) (f (userPromotionUsage s)) (events s)
    (eventSeq s) (eventOrganizers s) (eventGuests s).

Definition set_events (f : gmap Z Event -> gmap Z Event) (n : Z)
    (s : Store) : Store :=
  mkStore (users s) (transactions s) (promotions s)
    (transactionPromotions s) (userPromotionUsage s) (f (events s)) n
    (eventOrganizers s) (eventGuests s).

(** ** Replies *)

Inductive Status :=
  | OK | Created | BadRequest | Forbidden | NotFound | Gone
  | InternalServerError.

(** [json] is the transaction row the answer is built from, for the
    handlers that answer with a row or with a view of one. *)
Record Reply := mkReply { status : Status; json : option Transaction }.

Definition reply (st : Status) (s : Store) : Reply * Store :=
  (mkReply st None, s).

Notation "'when' c 'answer' r ;; k" := (if c then r else k)
  (at level 10, c at level 99, r at level 99, k at level 200,
   only parsing).

(** ** Statements inside [prisma.$transaction] *)

Definition Tx (A : Type) : Type := Store -> option (A * Store).

Definition tx_ret {A} (a : A) : Tx A := fun s => Some (a, s).

Definition tx_bind {A B} (c : Tx A) (k : A -> Tx B) : Tx B :=
  fun s => match c s with Some (a, s') => k a s' | None => None end.

Notation "x <- c ;;; k" := (tx_bind c (fun x => k))
  (at level 100, c at next level, right associativity).
Notation "c ;;; k" := (tx_bind c (fun _ => k))
  (at level 100, right associativity).

(** [for (const x of xs) { await body(x) }]. *)
Fixpoint tx_for {A} (xs : list A) (body : A -> Tx unit) : Tx unit :=
  match xs with
  | [] => tx_ret tt
  | x :: xs' => body x ;;; tx_for xs' body
  end.

(** [findUnique({ where: { id } })] on the transaction log. *)
Definition find_transaction (s : Store) (id : Z) : option Transaction :=
  if id <=? 0 then None else transactions s !! Z.to_nat (id - 1).

(** [transaction.create]: the new row takes the next id.  The client
    refuses data with a field that is no column of the table, [earned]: the
    statement throws. *)
Definition transaction_create (t : Transaction) : Tx Z :=
  fun s => match t_earned t with
           | Some _ => None
           | None =>
               Some (Z.of_nat (length (transactions s)) + 1,
                     set_transactions (fun l => l ++ [t]) s)
           end.

(** [transaction.update({ where: { id }, data })] throws when the row is
    missing. *)
Definition transaction_update (id : Z) (f : Transaction -> Transaction)
    : Tx Transaction :=
  fun s => match find_transaction s id with
           | Some t =>
               Some (f t, set_transactions
                            (fun l => <[Z.to_nat (id - 1) := f t]> l) s)
           | None => None
           end.

(** [user.update({ where: { id }, data: { points: { increment: d } } })]. *)
Definition increment_points (d : Z) (u : User) : User :=
  mkUser (u_utorid u) (u_role u) (u_points u + d) (u_verified u)
    (u_suspicious u).

Definition user_update_points (id : Z) (d : Z) : Tx unit :=
  fun s => match users s !! id with
           | Some u => Some (tt, set_users <[id := increment_points d u]> s)
           | None => None
           end.

(** [findUnique({ where: { utorid } })]: [utorid] carries a unique index. *)
Definition find_user_by_utorid (s : Store) (name : string)
    : option (Z * User) :=
  List.find (fun r => String.eqb (u_utorid (snd r)) name)
    (map_to_list (users s)).

Definition truthy_id (o : option Z) : bool :=
  match o with Some z => negb (z =? 0) | None => false end.

Definition set_processedById (by_ : Z) (t : Transaction) : Transaction :=
  mkTransaction (t_userId t) (t_type t) (t_amount t) (t_spent t) (t_earned t)
    (t_remark t) (t_suspicious t) (t_relatedId t) (t_createdById t)
    (Some by_).

Definition set_suspicious (b : bool) (t : Transaction) : Transaction :=
  mkTransaction (t_userId t) (t_type t) (t_amount t) (t_spent t) (t_earned t)
    (t_remark t) (Some b) (t_relatedId t) (t_createdById t)
    (t_processedById t).

(** [const needRole = (min) => (req, res, next) => ...]: the caller is
    authenticated by the time a handler runs. *)
Definition needRole (min : Role) (auth : Auth) : bool :=
  ORDER min <=? ORDER (a_role auth).

(** A body field that may be missing, [null], or carry a value. *)
Inductive Field (A : Type) := Absent | Null | Val (a : A).
Arguments Absent {A}.
Arguments Null {A}.
Arguments Val {A} a.

(** ** Events *)

(** The partial row [data] that [PATCH /events/:id] builds up.  A name,
    description or location may be set to [null] (inner [None]), which
    [event.update] refuses.  The capacity is the number of the body, a
    fraction if the body has one. *)
Record EventData := mkEventData {
  d_published : option bool;
  d_name : option (option string);
  d_description : option (option string);
  d_location : option (option string);
  d_startTime : option Z;
  d_endTime : option Z;
  d_capacity : option (option Q);
  d_pointsTotal : option Z;
  d_pointsRemain : option Z }.

Definition no_data : EventData :=
  mkEventData None None None None None None None None None.

(** [Object.keys(data).length === 0]. *)
Definition data_is_empty (d : EventData) : bool :=
  match d with
  | mkEventData None None None None None None None None None => true
  | _ => false
  end.

(** The client refuses [null] for a required text column. *)
Definition data_is_valid (d : EventData) : bool :=
  negb (bool_decide (d_name d = Some None))
  && negb (bool_decide (d_description d = Some None))
  && negb (bool_decide (d_location d = Some None)).

(** A number written to the integer column [capacity] is stored cut to its
    integer part. *)
Definition stored_capacity (capacity : option Q) : option Q :=
  match capacity with
  | Some c => Some (Number (Math_trunc c))
  | None => None
  end.

Definition apply_data (d : EventData) (e : Event) : Event :=
  mkEvent
    (match d_name d with Some (Some x) => x | _ => e_name e end)
    (match d_description d with Some (Some x) => x | _ => e_description e end)
    (match d_location d with Some (Some x) => x | _ => e_location e end)
    (default (e_startTime e) (d_startTime d))
    (default (e_endTime e) (d_endTime d))
    (match d_capacity d with
     | Some c => stored_capacity c
     | None => e_capacity e
     end)
    (default (e_published e) (d_published d))
    (default (e_pointsTotal e) (d_pointsTotal d))
    (default (e_pointsRemain e) (d_pointsRemain d))
    (e_pointsAwarded e).

(** [event.update({ where: { id }, data })]. *)
Definition event_update (id : Z) (d : EventData) : Tx Event :=
  fun s => match events s !! id with
           | Some e =>
               if data_is_valid d
               then Some (apply_data d e,
                          set_events <[id := apply_data d e]> (eventSeq s) s)
               else None
           | None => None
           end.

(** [data: { pointsRemain: { decrement: n }, pointsAwarded: { increment: n } }]. *)
Definition spend_budget (n : Z) (e : Event) : Event :=
  mkEvent (e_name e) (e_description e) (e_location e) (e_startTime e)
    (e_endTime e) (e_capacity e) (e_published e) (e_pointsTotal e)
    (e_pointsRemain e - n) (e_pointsAwarded e + n).

Definition event_update_budget (id : Z) (n : Z) : Tx unit :=
  fun s => match events s !! id with
           | Some e =>
               Some (tt, set_events <[id := spend_budget n e]> (eventSeq s) s)
           | None => None
           end.

(** [event.create]: the row takes the next value of the sequence, and a
    taken key makes the statement throw. *)
Definition stored_event (e : Event) : Event :=
  mkEvent (e_name e) (e_description e) (e_location e) (e_startTime e)
    (e_endTime e) (stored_capacity (e_capacity e)) (e_published e)
    (e_pointsTotal e) (e_pointsRemain e) (e_pointsAwarded e).

Definition event_create (e : Event) : Tx Z :=
  fun s => let id := eventSeq s + 1 in
           match events s !! id with
           | Some _ => None
           | None => Some (id, set_events <[id := stored_event e]> id s)
           end.

(** [eventGuest.findMany({ where: { eventId } })], as user ids. *)
Definition guests_of (s : Store) (eventId : Z) : list Z :=
  List.map snd
    (List.filter (fun g => fst g =? eventId) (elements (eventGuests s))).

Definition isManager (auth : Auth) : bool :=
  ORDER manager <=? ORDER (a_role auth).

Definition isOrganizer (s : Store) (eventId : Z) (auth : Auth) : bool :=
  bool_decide ((eventId, a_id auth) ∈ eventOrganizers s).

(** ** Promotions *)

(** [const isActivePromo = (p) => p.startTime <= now() && p.endTime >= now()]. *)
Definition isActivePromo (now : Z) (p : Promotion) : bool :=
  (p_startTime p <=? now) && (now <=? p_endTime p).

(** [usedSet.has(pid)], where [usedSet] collects the promotion ids of
    [userPromotionUsage.findMany({ where: { userId, usedAt: { not: null } } })]. *)
Definition usedSet_has (s : Store) (userId pid : Z) : bool :=
  match userPromotionUsage s !! (userId, pid) with
  | Some (Some _) => true
  | _ => false
  end.

(** [transactionPromotion.create]: the pair is the primary key. *)
Definition transactionPromotion_create (txId pid : Z) : Tx unit :=
  fun s => if bool_decide ((txId, pid) ∈ transactionPromotions s)
           then None
           else Some (tt, set_transactionPromotions
                            (fun g => {[ (txId, pid) ]} ∪ g) s).

(** [userPromotionUsage.upsert]: with [update] and [create] both setting
    [usedAt: now()]. *)
Definition userPromotionUsage_upsert (userId pid now : Z) : Tx unit :=
  fun s => Some (tt, set_userPromotionUsage <[(userId, pid) := Some now]> s).

(** The request-body loop that collects [chosenOneTime]; [None] is the
    early [400].  An entry of [promotionIds] is [None] when it is [null],
    the empty string or not an integer. *)
Fixpoint chooseOneTime (s : Store) (userId : Z)
    (oneTime : list (Z * Promotion)) (promotionIds : list (option Z))
    : option (list (Z * Promotion)) :=
  match promotionIds with
  | [] => Some []
  | None :: _ => None
  | Some pid :: rest =>
      if pid <=? 0 then None else
      match List.find (fun r => fst r =? pid) oneTime with
      | None => None
      | Some p =>
          if usedSet_has s userId pid then None else
          match chooseOneTime s userId oneTime rest with
          | Some ps => Some (p :: ps)
          | None => None
          end
      end
  end.

Definition active_promotions (s : Store) (now : Z) : list (Z * Promotion) :=
  List.filter (fun r => isActivePromo now (snd r))
    (map_to_list (promotions s)).

Definition automatic_of (active : list (Z * Promotion))
    : list (Z * Promotion) :=
  List.filter (fun r => String.eqb (p_type (snd r)) "automatic") active.

Definition onetime_of (active : list (Z * Promotion))
    : list (Z * Promotion) :=
  List.filter (fun r => String.eqb (p_type (snd r)) "onetime") active.

(** [p.minSpending != null && spent < Number(p.minSpending)]. *)
Definition below_minSpending (spent : Q) (p : Promotion) : bool :=
  match p_minSpending p with
  | Some m => num_lt spent m
  | None => false
  end.

(** The body of [PATCH /events/:id].  A time is [Val None] when
    [new Date(raw)] is invalid; a number is [Val None] when [Number(raw)] is
    not finite; [published] is [Val b] when the raw value stands for [b]. *)
Record EventBody := mkEventBody {
  b_published : Field bool;
  b_name : Field string;
  b_description : Field string;
  b_location : Field string;
  b_startTime : Field (option Z);
  b_endTime : Field (option Z);
  b_capacity : Field (option Q);
  b_points : Field (option Q) }.

Definition with_published (d : EventData) : EventData :=
  mkEventData (Some true) (d_name d) (d_description d) (d_location d)
    (d_startTime d) (d_endTime d) (d_capacity d) (d_pointsTotal d)
    (d_pointsRemain d).

Definition with_name (x : option string) (d : EventData) : EventData :=
  mkEventData (d_published d) (Some x) (d_description d) (d_location d)
    (d_startTime d) (d_endTime d) (d_capacity d) (d_pointsTotal d)
    (d_pointsRemain d).

Definition with_description (x : option string) (d : EventData) : EventData :=
  mkEventData (d_published d) (d_name d) (Some x) (d_location d)
    (d_startTime d) (d_endTime d) (d_capacity d) (d_pointsTotal d)
    (d_pointsRemain d).

Definition with_location (x : option string) (d : EventData) : EventData :=
  mkEventData (d_published d) (d_name d) (d_description d) (Some x)
    (d_startTime d) (d_endTime d) (d_capacity d) (d_pointsTotal d)
    (d_pointsRemain d).

Definition with_startTime (x : Z) (d : EventData) : EventData :=
  mkEventData (d_published d) (d_name d) (d_description d) (d_location d)
    (Some x) (d_endTime d) (d_capacity d) (d_pointsTotal d)
    (d_pointsRemain d).

Definition with_endTime (x : Z) (d : EventData) : EventData :=
  mkEventData (d_published d) (d_name d) (d_description d) (d_location d)
    (d_startTime d) (Some x) (d_capacity d) (d_pointsTotal d)
    (d_pointsRemain d).

Definition with_capacity (x : option Q) (d : EventData) : EventData :=
  mkEventData (d_published d) (d_name d) (d_description d) (d_location d)
    (d_startTime d) (d_endTime d) (Some x) (d_pointsTotal d)
    (d_pointsRemain d).

Definition with_points (total remain : Z) (d : EventData) : EventData :=
  mkEventData (d_published d) (d_name d) (d_description d) (d_location d)
    (d_startTime d) (d_endTime d) (d_capacity d) (Some total) (Some remain).

(** One [if ('field' in body) { ... }] block: it either answers at once or
    goes on with the extended [data]. *)
Inductive Step := Stop (st : Status) | Go (d : EventData).

Definition and_then (x : Step) (k : EventData -> Step) : Step :=
  match x with Stop st => Stop st | Go d => k d end.

(** The body of [POST /transactions].  [tb_spent] is [Number(spent)] when
    that is finite, [tb_amount] the amount when it is a number. *)
Record TransactionBody := mkTransactionBody {
  tb_type : string;
  tb_utorid : string;
  tb_spent : option Q;
  tb_amount : option Q;
  tb_remark : string;
  tb_promotionIds : list (option Z);
  tb_relatedId : option Z;
  tb_suspicious : bool }.

(** [p.type === 'onetime']. *)
Definition is_onetime (p : Promotion) : bool := String.eqb (p_type p) "onetime".

(** ** Handlers that read the same in both listings *)

Module Shared.

(** [POST /users/:userId/transactions]
    (part_003 lines 1512-1543; createsu.js lines 2386-2457). *)
Definition post_users_userId_transactions (auth : Auth) (recipientId : Z)
    (type : string) (amount : option Q) (remark : string) (s : Store)
    : Reply * Store :=
  match amount with
  | None => reply BadRequest s
  | Some amount =>
    when negb (String.eqb type "transfer") || num_le amount 0
      answer reply BadRequest s ;;
    when recipientId =? a_id auth answer reply BadRequest s ;;
    let sender := users s !! a_id auth in
    match users s !! recipientId with
    | None => reply NotFound s
    | Some recipient =>
      match sender with
      | None => reply InternalServerError s
      | Some sender =>
        when negb (u_verified sender) answer reply Forbidden s ;;
        let intAmount := Math_trunc amount in
        when u_points sender <? intAmount answer reply BadRequest s ;;
        let sender_id := a_id auth in
        let work : Tx unit :=
          transaction_create
            (mkTransaction sender_id "transfer" (- intAmount) None None
               remark None (Some recipientId) sender_id (Some sender_id)) ;;;
          transaction_create
            (mkTransaction recipientId "transfer" intAmount None None
               remark None (Some sender_id) sender_id (Some sender_id)) ;;;
          user_update_points sender_id (- intAmount) ;;;
          user_update_points recipientId intAmount in
        match work s with
        | Some (_, s') => reply Created s'
        | None => reply InternalServerError s
        end
      end
    end
  end.

(** [PATCH /transactions/:id/suspicious]
    (part_003 lines 1425-1444; createsu.js lines 2209-2269).  The second
    listing sends a formatted view of the same row.  The row is read again
    after the commit; it is there, since the update went through. *)
Definition patch_transactions_id_suspicious (auth : Auth) (id : Z)
    (suspicious : option bool) (s : Store) : Reply * Store :=
  when negb (needRole manager auth) answer reply Forbidden s ;;
  match suspicious with
  | None => reply BadRequest s
  | Some suspicious =>
    match find_transaction s id with
    | None => reply NotFound s
    | Some t =>
      when bool_decide (t_suspicious t = Some suspicious)
        answer (mkReply OK (Some t), s) ;;
      let work : Tx unit :=
        transaction_update id (set_suspicious suspicious) ;;;
        let delta := if suspicious then - t_amount t else t_amount t in
        user_update_points (t_userId t) delta in
      match work s with
      | Some (_, s') => (mkReply OK (find_transaction s' id), s')
      | None => reply InternalServerError s
      end
    end
  end.

(** [POST /events]
    (part_003 lines 672-728; createsu.js lines 1096-1152). *)
Definition post_events (auth : Auth) (name description location : string)
    (startTime endTime : option Z) (capacity : Field (option Q))
    (points : option Q) (s : Store) : Reply * Store :=
  when negb (needRole manager auth) answer reply Forbidden s ;;
  match startTime, endTime, points with
  | Some st, Some et, Some points =>
    when String.eqb name "" || String.eqb description ""
         || String.eqb location "" || negb (Number_isInteger points)
         || num_le points 0
      answer reply BadRequest s ;;
    when negb (st <? et) answer reply BadRequest s ;;
    let cap : option (option Q) :=
      match capacity with
      | Absent | Null => Some None
      | Val None => None
      | Val (Some capNum) => if num_le capNum 0 then None else Some (Some capNum)
      end in
    match cap with
    | None => reply BadRequest s
    | Some cap =>
      match event_create
              (mkEvent name description location st et cap false
                 (Math_trunc points) (Math_trunc points) 0) s with
      | Some (_, s') => reply Created s'
      | None => reply InternalServerError s
      end
    end
  | _, _, _ => reply BadRequest s
  end.

End Shared.

(** ** The handlers of [src/unnamed/part_003] *)

Module Part003.

(** [PATCH /events/:id], lines 858-939. *)
Definition patch_published (isM : bool) (body : EventBody) (d : EventData)
    : Step :=
  match b_published body with
  | Absent => Go d
  | Null => if negb isM then Stop Forbidden else Stop BadRequest
  | Val pv =>
      if negb isM then Stop Forbidden
      else if negb pv then Stop BadRequest
      else Go (with_published d)
  end.

Definition patch_text (afterStart : bool) (raw : Field string)
    (set : option string -> EventData -> EventData) (d : EventData) : Step :=
  match raw with
  | Absent => Go d
  | Null => if afterStart then Stop BadRequest else Go (set None d)
  | Val x => if afterStart then Stop BadRequest else Go (set (Some x) d)
  end.

(** [new Date(null)] is the epoch. *)
Definition new_Date (raw : Field (option Z)) : option Z :=
  match raw with
  | Absent => None
  | Null => Some 0
  | Val t => t
  end.

Definition patch_startTime (now : Z) (afterStart : bool) (body : EventBody)
    (d : EventData) : Step :=
  match b_startTime body with
  | Absent => Go d
  | raw =>
      if afterStart then Stop BadRequest
      else match new_Date raw with
           | Some st =>
               if negb (now <? st) then Stop BadRequest
               else Go (with_startTime st d)
           | None => Stop BadRequest
           end
  end.

Definition patch_endTime (afterEnd : bool) (e : Event) (body : EventBody)
    (d : EventData) : Step :=
  match b_endTime body with
  | Absent => Go d
  | raw =>
      if afterEnd then Stop BadRequest
      else match new_Date raw with
           | Some et =>
               let stBase := default (e_startTime e) (d_startTime d) in
               if negb (stBase <? et) then Stop BadRequest
               else Go (with_endTime et d)
           | None => Stop BadRequest
           end
  end.

Definition patch_capacity (afterStart : bool) (numGuests : Z) (e : Event)
    (body : EventBody) (d : EventData) : Step :=
  let check (newCap : option (option Q)) : Step :=
    (* [newCap]: [None] is [null], [Some None] a number that is not finite *)
    if afterStart then Stop BadRequest
    else match newCap with
         | Some None => Stop BadRequest
         | Some (Some c) =>
             if num_le c 0 then Stop BadRequest
             else if num_lt c (Number numGuests) then Stop BadRequest
             else Go (with_capacity (Some c) d)
         | None =>
             match e_capacity e with
             | Some _ => Stop BadRequest
             | None => Go (with_capacity None d)
             end
         end in
  match b_capacity body with
  | Absent => Go d
  | Null => check None
  | Val c => check (Some c)
  end.

Definition patch_points (isM : bool) (e : Event) (body : EventBody)
    (d : EventData) : Step :=
  let check (newTotal : option Q) : Step :=
    if negb isM then Stop Forbidden
    else match newTotal with
         | None => Stop BadRequest
         | Some n =>
             if negb (Number_isInteger n) || num_le n 0 then Stop BadRequest
             else
               let newTotal := Math_trunc n in
               let delta := newTotal - e_pointsTotal e in
               if e_pointsRemain e + delta <? 0 then Stop BadRequest
               else Go (with_points newTotal (e_pointsRemain e + delta) d)
         end in
  match b_points body with
  | Absent => Go d
  | Null => check (Some 0%Q)
  | Val n => check n
  end.

Definition patch_events_id (now : Z) (auth : Auth) (id : Z)
    (body : EventBody) (s : Store) : Reply * Store :=
  match events s !! id with
  | None => reply NotFound s
  | Some e =>
    let isM := isManager auth in
    when negb isM && negb (isOrganizer s id auth) answer reply Forbidden s ;;
    let afterStart := e_startTime e <=? now in
    let afterEnd := e_endTime e <? now in
    let numGuests := Z.of_nat (length (guests_of s id)) in
    let steps :=
      and_then (patch_published isM body no_data) (fun d =>
      and_then (patch_text afterStart (b_name body) with_name d) (fun d =>
      and_then (patch_text afterStart (b_description body) with_description d)
        (fun d =>
      and_then (patch_text afterStart (b_location body) with_location d)
        (fun d =>
      and_then (patch_startTime now afterStart body d) (fun d =>
      and_then (patch_endTime afterEnd e body d) (fun d =>
      and_then (patch_capacity afterStart numGuests e body d) (fun d =>
      patch_points isM e body d))))))) in
    match steps with
    | Stop st => reply st s
    | Go data =>
      when data_is_empty data answer reply BadRequest s ;;
      match event_update id data s with
      | Some (_, s') => reply OK s'
      | None => reply InternalServerError s
      end
    end
  end.

(** [POST /events/:id/transactions], lines 1092-1149. *)
Definition award_row (auth : Auth) (eventId userId amount : Z)
    (remark : string) : Transaction :=
  mkTransaction userId "event" amount None None remark None (Some eventId)
    (a_id auth) (Some (a_id auth)).

Definition post_events_id_transactions (auth : Auth) (eventId : Z)
    (utorid : string) (allGuests : bool) (amount : option Q)
    (remark : string) (s : Store) : Reply * Store :=
  match amount with
  | None => reply BadRequest s
  | Some amount =>
    when num_le amount 0 answer reply BadRequest s ;;
    match events s !! eventId with
    | None => reply NotFound s
    | Some e =>
      when negb (isManager auth) && negb (isOrganizer s eventId auth)
        answer reply Forbidden s ;;
      if allGuests then
        let guests := guests_of s eventId in
        let needed := ceilInt amount * Z.of_nat (length guests) in
        when e_pointsRemain e <? needed answer reply BadRequest s ;;
        let work : Tx unit :=
          tx_for guests (fun g =>
            transaction_create
              (award_row auth eventId g (ceilInt amount) remark) ;;;
            user_update_points g (ceilInt amount)) ;;;
          event_update_budget eventId needed in
        match work s with
        | Some (_, s') => reply OK s'
        | None => reply InternalServerError s
        end
      else
        when String.eqb utorid "" answer reply BadRequest s ;;
        match find_user_by_utorid s utorid with
        | None => reply NotFound s
        | Some (u_id, _) =>
          when negb (bool_decide ((eventId, u_id) ∈ eventGuests s))
            answer reply BadRequest s ;;
          when e_pointsRemain e <? ceilInt amount
            answer reply BadRequest s ;;
          let work : Tx unit :=
            transaction_create
              (award_row auth eventId u_id (ceilInt amount) remark) ;;;
            user_update_points u_id (ceilInt amount) ;;;
            event_update_budget eventId (ceilInt amount) in
          match work s with
          | Some (_, s') => reply OK s'
          | None => reply InternalServerError s
          end
        end
    end
  end.

(** [POST /transactions], lines 1151-1335: the purchase branch.  The data of
    its create names [earned] (line 1230), so that [transaction_create]
    throws and the statements after it are not reached. *)

(** One turn of the loops of lines 1212-1221. *)
Definition add_bonus (base : Z) (spent : Q) (extra : Z)
    (p : Z * Promotion) : Z :=
  if below_minSpending spent (snd p) then extra else
  let extra :=
    match p_rate (snd p) with
    | Some rate => extra + Math_round (times (Number base) rate)
    | None => extra
    end in
  match p_points (snd p) with
  | Some points => extra + points
  | None => extra
  end.

Definition earned_points (spent : Q) (automatic chosenOneTime
    : list (Z * Promotion)) : Z :=
  let base := basePoints spent in
  let extra := 0 in
  let extra := List.fold_left (add_bonus base spent) automatic extra in
  let extra := List.fold_left (add_bonus base spent) chosenOneTime extra in
  base + extra.

Definition purchase (now : Z) (auth : Auth) (body : TransactionBody)
    (s : Store) : Reply * Store :=
  when ORDER (a_role auth) <? ORDER cashier answer reply Forbidden s ;;
  match tb_spent body with
  | None => reply BadRequest s
  | Some spent =>
    when String.eqb (tb_utorid body) "" answer reply BadRequest s ;;
    when num_lt spent 0 answer reply BadRequest s ;;
    match find_user_by_utorid s (tb_utorid body) with
    | None => reply NotFound s
    | Some (user_id, _) =>
      let active := active_promotions s now in
      let automatic := automatic_of active in
      match chooseOneTime s user_id (onetime_of active)
              (tb_promotionIds body) with
      | None => reply BadRequest s
      | Some chosenOneTime =>
        let earned := earned_points spent automatic chosenOneTime in
        let work : Tx Z :=
          tx <- transaction_create
                  (mkTransaction user_id "purchase" (Math_trunc spent) None
                     (Some earned) (tb_remark body)
                     (Some (tb_suspicious body)) None (a_id auth) None) ;;;
          tx_for (automatic ++ chosenOneTime) (fun p =>
            transactionPromotion_create tx (fst p) ;;;
            if is_onetime (snd p)
            then userPromotionUsage_upsert user_id (fst p) now
            else tx_ret tt) ;;;
          user_update_points user_id earned ;;;
          transaction_update tx (set_processedById (a_id auth)) ;;;
          tx_ret tx in
        match work s with
        | Some (_, s') =>
            reply (if tb_suspicious body then Created else OK) s'
        | None => reply InternalServerError s
        end
      end
    end
  end.

(** The adjustment branch, lines 1275-1329. *)
Definition adjustment (auth : Auth) (body : TransactionBody) (s : Store)
    : Reply * Store :=
  when ORDER (a_role auth) <? ORDER manager answer reply Forbidden s ;;
  match tb_amount body with
  | None => reply BadRequest s
  | Some amount =>
    when String.eqb (tb_utorid body) "" answer reply BadRequest s ;;
    match find_user_by_utorid s (tb_utorid body) with
    | None => reply NotFound s
    | Some (user_id, _) =>
      let work : Tx Z :=
        created <- transaction_create
                     (mkTransaction user_id "adjustment" (Math_trunc amount)
                        None None (tb_remark body)
                        (Some (tb_suspicious body)) (tb_relatedId body)
                        (a_id auth) None) ;;;
        transaction_update created (set_processedById (a_id auth)) ;;;
        user_update_points user_id (Math_trunc amount) ;;;
        tx_ret created in
      match work s with
      | Some (_, s') => reply Created s'
      | None => reply InternalServerError s
      end
    end
  end.

Definition post_transactions (now : Z) (auth : Auth)
    (body : TransactionBody) (s : Store) : Reply * Store :=
  if String.eqb (tb_type body) "purchase" then purchase now auth body s
  else if String.eqb (tb_type body) "adjustment" then adjustment auth body s
  else reply BadRequest s.

(** [POST /users/me/transactions], lines 1446-1468. *)
Definition post_users_me_transactions (auth : Auth) (type : string)
    (amount : option Q) (remark : string) (s : Store) : Reply * Store :=
  match amount with
  | None => reply BadRequest s
  | Some amount =>
    when negb (String.eqb type "redemption") || num_le amount 0
      answer reply BadRequest s ;;
    match users s !! a_id auth with
    | None => reply InternalServerError s
    | Some me =>
      when negb (u_verified me) answer reply Forbidden s ;;
      when u_points me <? Math_trunc amount answer reply BadRequest s ;;
      let t := mkTransaction (a_id auth) "redemption" (- Math_trunc amount)
                 None None remark None None (a_id auth) None in
      match transaction_create t s with
      | Some (_, s') => (mkReply Created (Some t), s')
      | None => reply InternalServerError s
      end
    end
  end.

(** [PATCH /transactions/:id/processed], lines 1493-1510. *)
Definition patch_transactions_id_processed (auth : Auth) (id : Z)
    (s : Store) : Reply * Store :=
  when negb (needRole cashier auth) answer reply Forbidden s ;;
  match find_transaction s id with
  | None => reply NotFound s
  | Some t =>
    when negb (String.eqb (t_type t) "redemption")
         || truthy_id (t_processedById t)
      answer reply BadRequest s ;;
    match users s !! t_userId t with
    | None => reply InternalServerError s
    | Some u =>
      when u_points u <? - t_amount t answer reply BadRequest s ;;
      let work : Tx Transaction :=
        user_update_points (t_userId t) (- (- t_amount t)) ;;;
        transaction_update id (set_processedById (a_id auth)) in
      match work s with
      | Some (_, s') => (mkReply OK (find_transaction s' id), s')
      | None => reply InternalServerError s
      end
    end
  end.

(** The requests of this listing that the model covers, and the server
    taking them one at a time. *)
Inductive Request :=
  | PostEvents (auth : Auth) (name description location : string)
      (startTime endTime : option Z) (capacity : Field (option Q))
      (points : option Q)
  | PatchEvent (now : Z) (auth : Auth) (id : Z) (body : EventBody)
  | PostEventTransaction (auth : Auth) (eventId : Z) (utorid : string)
      (allGuests : bool) (amount : option Q) (remark : string)
  | PostTransaction (now : Z) (auth : Auth) (body : TransactionBody)
  | PatchSuspicious (auth : Auth) (id : Z) (suspicious : option bool)
  | PostRedemption (auth : Auth) (type : string) (amount : option Q)
      (remark : string)
  | PatchProcessed (auth : Auth) (id : Z)
  | PostTransfer (auth : Auth) (recipientId : Z) (type : string)
      (amount : option Q) (remark : string).

Definition handle (q : Request) (s : Store) : Reply * Store :=
  match q with
  | PostEvents auth name description location startTime endTime capacity
      points =>
      Shared.post_events auth name description location startTime endTime
        capacity points s
  | PatchEvent now auth id body => patch_events_id now auth id body s
  | PostEventTransaction auth eventId utorid allGuests amount remark =>
      post_events_id_transactions auth eventId utorid allGuests amount
        remark s
  | PostTransaction now auth body => post_transactions now auth body s
  | PatchSuspicious auth id suspicious =>
      Shared.patch_transactions_id_suspicious auth id suspicious s
  | PostRedemption auth type amount remark =>
      post_users_me_transactions auth type amount remark s
  | PatchProcessed auth id => patch_transactions_id_processed auth id s
  | PostTransfer auth recipientId type amount remark =>
      Shared.post_users_userId_transactions auth recipientId type amount
        remark s
  end.

Definition run (qs : list Request) (s : Store) : Store :=
  List.fold_left (fun s q => snd (handle q s)) qs s.

End Part003.

(** ** The handlers of the [index.js] listing in
    [src/backend/prisma/createsu.js] *)

Module Backend.

(** [PATCH /events/:id], lines 1327-1478.  A field that is [null] is passed
    over like a missing one. *)
Definition patch_published (isM : bool) (body : EventBody) (d : EventData)
    : Step :=
  match b_published body with
  | Absent | Null => Go d
  | Val pv =>
      if negb isM then Stop Forbidden
      else if negb pv then Stop BadRequest
      else Go (with_published d)
  end.

Definition patch_text (afterStart : bool) (allow_empty : bool)
    (raw : Field string) (set : option string -> EventData -> EventData)
    (d : EventData) : Step :=
  match raw with
  | Absent | Null => Go d
  | Val x =>
      if afterStart then Stop BadRequest
      else if negb allow_empty && String.eqb x "" then Stop BadRequest
      else Go (set (Some x) d)
  end.

Definition patch_startTime (now : Z) (afterStart : bool) (body : EventBody)
    (d : EventData) : Step :=
  match b_startTime body with
  | Absent | Null => Go d
  | Val raw =>
      if afterStart then Stop BadRequest
      else match raw with
           | Some st =>
               if negb (now <? st) then Stop BadRequest
               else Go (with_startTime st d)
           | None => Stop BadRequest
           end
  end.

Definition patch_endTime (afterEnd : bool) (e : Event) (body : EventBody)
    (d : EventData) : Step :=
  match b_endTime body with
  | Absent | Null => Go d
  | Val raw =>
      if afterEnd then Stop BadRequest
      else match raw with
           | Some et =>
               let stBase := default (e_startTime e) (d_startTime d) in
               if negb (stBase <? et) then Stop BadRequest
               else Go (with_endTime et d)
           | None => Stop BadRequest
           end
  end.

Definition patch_capacity (afterStart : bool) (numGuests : Z)
    (body : EventBody) (d : EventData) : Step :=
  match b_capacity body with
  | Absent | Null => Go d
  | Val raw =>
      if afterStart then Stop BadRequest
      else match raw with
           | None => Stop BadRequest
           | Some newCap =>
               if num_le newCap 0 then Stop BadRequest
               else if num_lt newCap (Number numGuests) then Stop BadRequest
               else Go (with_capacity (Some newCap) d)
           end
  end.

Definition patch_points (isM : bool) (e : Event) (body : EventBody)
    (d : EventData) : Step :=
  match b_points body with
  | Absent | Null => Go d
  | Val raw =>
      if negb isM then Stop Forbidden
      else match raw with
           | None => Stop BadRequest
           | Some n =>
               if negb (Number_isInteger n) || num_le n 0
               then Stop BadRequest
               else
                 let newTotal := Math_trunc n in
                 let delta := newTotal - e_pointsTotal e in
                 if e_pointsRemain e + delta <? 0 then Stop BadRequest
                 else Go (with_points newTotal (e_pointsRemain e + delta) d)
           end
  end.

Definition patch_events_id (now : Z) (auth : Auth) (id : Z)
    (body : EventBody) (s : Store) : Reply * Store :=
  when id <=? 0 answer reply NotFound s ;;
  match events s !! id with
  | None => reply NotFound s
  | Some e =>
    let isM := isManager auth in
    when negb isM && negb (isOrganizer s id auth) answer reply Forbidden s ;;
    let afterStart := e_startTime e <=? now in
    let afterEnd := e_endTime e <? now in
    let numGuests := Z.of_nat (length (guests_of s id)) in
    let steps :=
      and_then (patch_published isM body no_data) (fun d =>
      and_then (patch_text afterStart false (b_name body) with_name d)
        (fun d =>
      and_then (patch_text afterStart true (b_description body)
                  with_description d) (fun d =>
      and_then (patch_text afterStart false (b_location body)
                  with_location d) (fun d =>
      and_then (patch_startTime now afterStart body d) (fun d =>
      and_then (patch_endTime afterEnd e body d) (fun d =>
      and_then (patch_capacity afterStart numGuests body d) (fun d =>
      patch_points isM e body d))))))) in
    match steps with
    | Stop st => reply st s
    | Go data =>
      when data_is_empty data answer reply BadRequest s ;;
      match event_update id data s with
      | Some (_, s') => reply OK s'
      | None => reply InternalServerError s
      end
    end
  end.

(** [POST /events/:id/transactions], lines 1727-1876.  [amount] is
    [Number(amount)]. *)
Definition award_row (auth : Auth) (eventId userId award : Z)
    (remark : string) : Transaction :=
  mkTransaction userId "event" award None None remark None (Some eventId)
    (a_id auth) (Some (a_id auth)).

Definition post_events_id_transactions (auth : Auth) (eventId : Z)
    (type utorid : string) (amount : option Q) (remark : string)
    (s : Store) : Reply * Store :=
  when eventId <=? 0 answer reply NotFound s ;;
  when negb (String.eqb type "event") answer reply BadRequest s ;;
  match amount with
  | None => reply BadRequest s
  | Some amount =>
    when negb (Number_isInteger amount) || num_le amount 0
      answer reply BadRequest s ;;
    let award := Math_trunc amount in
    match events s !! eventId with
    | None => reply NotFound s
    | Some e =>
      when negb (isManager auth) && negb (isOrganizer s eventId auth)
        answer reply Forbidden s ;;
      let hasUtorid := negb (String.eqb utorid "") in
      if negb hasUtorid then
        let guests := guests_of s eventId in
        let needed := award * Z.of_nat (length guests) in
        when e_pointsRemain e <? needed answer reply BadRequest s ;;
        when Nat.eqb (length guests) 0 answer reply OK s ;;
        let work : Tx unit :=
          tx_for guests (fun g =>
            transaction_create (award_row auth eventId g award remark) ;;;
            user_update_points g award) ;;;
          event_update_budget eventId needed in
        match work s with
        | Some (_, s') => reply OK s'
        | None => reply InternalServerError s
        end
      else
        match find_user_by_utorid s utorid with
        | None => reply NotFound s
        | Some (user_id, _) =>
          when negb (bool_decide ((eventId, user_id) ∈ eventGuests s))
            answer reply BadRequest s ;;
          when e_pointsRemain e <? award answer reply BadRequest s ;;
          let t := award_row auth eventId user_id award remark in
          let work : Tx unit :=
            transaction_create t ;;;
            user_update_points user_id award ;;;
            event_update_budget eventId award in
          match work s with
          | Some (_, s') => (mkReply Created (Some t), s')
          | None => reply InternalServerError s
          end
        end
    end
  end.

(** [POST /transactions], lines 1879-2116. *)

(** [cashier?.suspicious === true || suspicious === true]. *)
Definition effectiveSuspicious (auth : Auth) (body : TransactionBody)
    (s : Store) : bool :=
  let cashierSuspicious :=
    match users s !! a_id auth with
    | Some cashier_row => u_suspicious cashier_row
    | None => false
    end in
  let bodySuspicious := tb_suspicious body in
  cashierSuspicious || bodySuspicious.

(** One turn of the loops of lines 1957-1966. *)
Definition add_bonus (spentNum : Q) (extra : Z) (p : Z * Promotion) : Z :=
  if below_minSpending spentNum (snd p) then extra else
  let extra :=
    match p_rate (snd p) with
    | Some rate => extra + Math_round (times (times spentNum 100) rate)
    | None => extra
    end in
  match p_points (snd p) with
  | Some points => extra + points
  | None => extra
  end.

Definition earned_points (spentNum : Q) (automatic chosenOneTime
    : list (Z * Promotion)) : Z :=
  let base := basePoints spentNum in
  let extra := 0 in
  let extra := List.fold_left (add_bonus spentNum) automatic extra in
  let extra := List.fold_left (add_bonus spentNum) chosenOneTime extra in
  base + extra.

Definition purchase (now : Z) (auth : Auth) (body : TransactionBody)
    (s : Store) : Reply * Store :=
  when ORDER (a_role auth) <? ORDER cashier answer reply Forbidden s ;;
  match tb_spent body with
  | None => reply BadRequest s
  | Some spentNum =>
    when String.eqb (tb_utorid body) "" answer reply BadRequest s ;;
    when num_lt spentNum 0 answer reply BadRequest s ;;
    match find_user_by_utorid s (tb_utorid body) with
    | None => reply NotFound s
    | Some (user_id, _) =>
      let effectiveSuspicious := effectiveSuspicious auth body s in
      let active := active_promotions s now in
      let automatic := automatic_of active in
      match chooseOneTime s user_id (onetime_of active)
              (tb_promotionIds body) with
      | None => reply BadRequest s
      | Some chosenOneTime =>
        let earned := earned_points spentNum automatic chosenOneTime in
        let allPromos := automatic ++ chosenOneTime in
        let t := mkTransaction user_id "purchase" earned (Some spentNum)
                   None (tb_remark body) (Some effectiveSuspicious) None
                   (a_id auth) (Some (a_id auth)) in
        let work : Tx unit :=
          tx <- transaction_create t ;;;
          tx_for allPromos (fun p =>
            transactionPromotion_create tx (fst p)) ;;;
          tx_for chosenOneTime (fun p =>
            if is_onetime (snd p)
            then userPromotionUsage_upsert user_id (fst p) now
            else tx_ret tt) ;;;
          if negb effectiveSuspicious && negb (earned =? 0)
          then user_update_points user_id earned
          else tx_ret tt in
        match work s with
        | Some (_, s') => (mkReply Created (Some t), s')
        | None => reply InternalServerError s
        end
      end
    end
  end.

Definition adjustment (auth : Auth) (body : TransactionBody) (s : Store)
    : Reply * Store :=
  when ORDER (a_role auth) <? ORDER manager answer reply Forbidden s ;;
  match tb_amount body with
  | None => reply BadRequest s
  | Some amount =>
    when String.eqb (tb_utorid body) "" answer reply BadRequest s ;;
    match find_user_by_utorid s (tb_utorid body) with
    | None => reply NotFound s
    | Some (user_id, _) =>
      let effectiveSuspicious := effectiveSuspicious auth body s in
      let intAmount := Math_trunc amount in
      let relIdNum := tb_relatedId body in
      let related_ok :=
        match relIdNum with
        | Some rel =>
            match find_transaction s rel with
            | Some relTx => t_userId relTx =? user_id
            | None => false
            end
        | None => true
        end in
      when negb related_ok answer reply NotFound s ;;
      let t := mkTransaction user_id "adjustment" intAmount None None
                 (tb_remark body) (Some effectiveSuspicious) relIdNum
                 (a_id auth) None in
      let work : Tx unit :=
        created <- transaction_create t ;;;
        transaction_update created (set_processedById (a_id auth)) ;;;
        if negb effectiveSuspicious && negb (intAmount =? 0)
        then user_update_points user_id intAmount
        else tx_ret tt in
      match work s with
      | Some (_, s') => (mkReply Created (Some t), s')
      | None => reply InternalServerError s
      end
    end
  end.

Definition post_transactions (now : Z) (auth : Auth)
    (body : TransactionBody) (s : Store) : Reply * Store :=
  if String.eqb (tb_type body) "purchase" then purchase now auth body s
  else if String.eqb (tb_type body) "adjustment" then adjustment auth body s
  else reply BadRequest s.

(** [POST /users/me/transactions], lines 2271-2309. *)
Definition post_users_me_transactions (auth : Auth) (type : string)
    (amount : option Q) (remark : string) (s : Store) : Reply * Store :=
  match amount with
  | None => reply BadRequest s
  | Some amount =>
    when negb (String.eqb type "redemption") || num_le amount 0
      answer reply BadRequest s ;;
    match users s !! a_id auth with
    | None => reply InternalServerError s
    | Some me =>
      when negb (u_verified me) answer reply Forbidden s ;;
      let intAmount := Math_trunc amount in
      when u_points me <? intAmount answer reply BadRequest s ;;
      let t := mkTransaction (a_id auth) "redemption" intAmount None None
                 remark None None (a_id auth) None in
      match transaction_create t s with
      | Some (_, s') => (mkReply Created (Some t), s')
      | None => reply InternalServerError s
      end
    end
  end.

(** [PATCH /transactions/:id/processed], lines 2334-2383. *)
Definition patch_transactions_id_processed (auth : Auth) (id : Z)
    (s : Store) : Reply * Store :=
  when negb (needRole cashier auth) answer reply Forbidden s ;;
  match find_transaction s id with
  | None => reply NotFound s
  | Some t =>
    when negb (String.eqb (t_type t) "redemption")
         || truthy_id (t_processedById t)
      answer reply BadRequest s ;;
    match users s !! t_userId t with
    | None => reply InternalServerError s
    | Some u =>
      when u_points u <? t_amount t answer reply BadRequest s ;;
      let work : Tx Transaction :=
        user_update_points (t_userId t) (- t_amount t) ;;;
        transaction_update id (set_processedById (a_id auth)) in
      match work s with
      | Some (updated, s') => (mkReply OK (Some updated), s')
      | None => reply InternalServerError s
      end
    end
  end.

(** The requests of this listing that the model covers, and the server
    taking them one at a time. *)
Inductive Request :=
  | PostEvents (auth : Auth) (name description location : string)
      (startTime endTime : option Z) (capacity : Field (option Q))
      (points : option Q)
  | PatchEvent (now : Z) (auth : Auth) (id : Z) (body : EventBody)
  | PostEventTransaction (auth : Auth) (eventId : Z) (type utorid : string)
      (amount : option Q) (remark : string)
  | PostTransaction (now : Z) (auth : Auth) (body : TransactionBody)
  | PatchSuspicious (auth : Auth) (id : Z) (suspicious : option bool)
  | PostRedemption (auth : Auth) (type : string) (amount : option Q)
      (remark : string)
  | PatchProcessed (auth : Auth) (id : Z)
  | PostTransfer (auth : Auth) (recipientId : Z) (type : string)
      (amount : option Q) (remark : string).

Definition handle (q : Request) (s : Store) : Reply * Store :=
  match q with
  | PostEvents auth name description location startTime endTime capacity
      points =>
      Shared.post_events auth name description location startTime endTime
        capacity points s
  | PatchEvent now auth id body => patch_events_id now auth id body s
  | PostEventTransaction auth eventId type utorid amount remark =>
      post_events_id_transactions auth eventId type utorid amount remark s
  | PostTransaction now auth body => post_transactions now auth body s
  | PatchSuspicious auth id suspicious =>
      Shared.patch_transactions_id_suspicious auth id suspicious s
  | PostRedemption auth type amount remark =>
      post_users_me_transactions auth type amount remark s
  | PatchProcessed auth id => patch_transactions_id_processed auth id s
  | PostTransfer auth recipientId type amount remark =>
      Shared.post_users_userId_transactions auth recipientId type amount
        remark s
  end.

Definition run (qs : list Request) (s : Store) : Store :=
  List.fold_left (fun s q => snd (handle q s)) qs s.

End Backend.


(** * Vocabulary of the statements *)

(** A request went through when the answer is 200 or 201. *)
Definition succeeded (r : Reply) : bool :=
  match status r with OK | Created => true | _ => false end.

(** The two rows of a transfer of [n] points and the store it leaves. *)
Definition debit_row (auth : Auth) (rid n : Z) (remark : string)
    : Transaction :=
  mkTransaction (a_id auth) "transfer" (- n) None None remark None (Some rid)
    (a_id auth) (Some (a_id auth)).

Definition credit_row (auth : Auth) (rid n : Z) (remark : string)
    : Transaction :=
  mkTransaction rid "transfer" n None None remark None (Some (a_id auth))
    (a_id auth) (Some (a_id auth)).

Definition transferred (auth : Auth) (rid n : Z) (remark : string)
    (sender recipient : User) (s : Store) : Store :=
  mkStore
    (<[rid := increment_points n recipient]>
       (<[a_id auth := increment_points (- n) sender]> (users s)))
    (transactions s
       ++ [debit_row auth rid n remark; credit_row auth rid n remark])
    (promotions s) (transactionPromotions s) (userPromotionUsage s)
    (events s) (eventSeq s) (eventOrganizers s) (eventGuests s).

(** The budget equation of one event, and of every event of a store. *)
Definition budget_balanced (e : Event) : Prop :=
  e_pointsRemain e + e_pointsAwarded e = e_pointsTotal e.

Definition budget_ok (s : Store) : Prop :=
  forall id e, events s !! id = Some e -> budget_balanced e.

(** The stores a listing passes through while it serves [qs]. *)
Fixpoint trace {Request : Type} (handle : Request -> Store -> Reply * Store)
    (qs : list Request) (s : Store) : list Store :=
  match qs with
  | [] => []
  | q :: qs' => snd (handle q s) :: trace handle qs' (snd (handle q s))
  end.

(** The earned points as section 4.2 of the specification words them: the
    base, plus the bonus of every applicable promotion that is not skipped. *)
Definition spec_skipped (spend : Q) (p : Promotion) : bool :=
  match p_minSpending p with
  | Some m => num_lt spend m
  | None => false
  end.

Definition spec_bonus (spend : Q) (p : Promotion) : Z :=
  match p_rate p with
  | Some rate => Math_round (spend * (100 # 1) * rate)%Q
  | None => 0
  end
  + match p_points p with Some points => points | None => 0 end.

Definition spec_earned (spend : Q) (applicable : list Promotion) : Z :=
  Math_round (spend / (1 # 4))%Q
  + List.fold_right Z.add 0
      (List.map (spec_bonus spend)
         (List.filter (fun p => negb (spec_skipped spend p)) applicable)).

(** The same sum as the second listing takes it: the product of a rate
    bonus is a product of doubles. *)
Definition double_bonus (spend : Q) (p : Promotion) : Z :=
  match p_rate p with
  | Some rate => Math_round (times (times spend 100) rate)
  | None => 0
  end
  + match p_points p with Some points => points | None => 0 end.

Definition double_earned (spend : Q) (applicable : list Promotion) : Z :=
  Math_round (spend / (1 # 4))%Q
  + List.fold_right Z.add 0
      (List.map (double_bonus spend)
         (List.filter (fun p => negb (spec_skipped spend p)) applicable)).

(** The product of doubles for a rate bonus is the product itself. *)
Definition exact_product (spend rate : Q) : Prop :=
  (times (times spend 100) rate == spend * (100 # 1) * rate)%Q.

(** ** A small store to run the handlers on *)

Definition boss : Auth := mkAuth 1 "boss0001" manager.
Definition alice : Auth := mkAuth 2 "alice001" regular.
Definition bob : Auth := mkAuth 3 "bob00001" regular.
Definition carol : Auth := mkAuth 4 "carol001" regular.
Definition mallory : Auth := mkAuth 5 "mallory1" cashier.
Definition trent : Auth := mkAuth 6 "trent001" cashier.

Definition demo_users : gmap Z User :=
  <[1 := mkUser "boss0001" manager 0 true false]>
  (<[2 := mkUser "alice001" regular 100 true false]>
  (<[3 := mkUser "bob00001" regular 10 true false]>
  (<[4 := mkUser "carol001" regular 50 false false]>
  (<[5 := mkUser "mallory1" cashier 0 true true]>
  (<[6 := mkUser "trent001" cashier 0 true false]> ∅))))).

(** Promotion 1 is automatic with rate 0.05; promotion 2 is one-time, worth
    30 points on a spend of at least 50.  Both run from 0 to 1000. *)
Definition demo_promotions : gmap Z Promotion :=
  <[1 := mkPromotion "spring" "automatic" 0 1000 None (Some (1 # 20)) None]>
  (<[2 := mkPromotion "welcome" "onetime" 0 1000 (Some (50 # 1)) None
            (Some 30)]> ∅).

(** Event 1 ran from 10 to 20, was never published, has 100 points to give;
    alice organizes it, bob and carol are its guests. *)
Definition demo_events : gmap Z Event :=
  <[1 := mkEvent "meetup" "a meetup" "BA1130" 10 20 None false 100 100 0]> ∅.

Definition demo : Store :=
  mkStore demo_users [] demo_promotions ∅ ∅ demo_events 1
    {[ (1, 2) ]} {[ (1, 3); (1, 4) ]}.
(** ** Invariants of the statements of a transaction *)

(** [c] keeps [P]: when [c] runs to the end from a store with [P], the store
    it leaves has [P]. *)
Definition tx_preserves {A} (P : Store -> Prop) (c : Tx A) : Prop :=
  forall s a s', c s = Some (a, s') -> P s -> P s'.

(** [P] does not look at the table that [set] writes. *)
Definition ignores {T} (set : (T -> T) -> Store -> Store)
    (P : Store -> Prop) : Prop :=
  forall f s, P s -> P (set f s).

Definition ignores_events (P : Store -> Prop) : Prop :=
  forall f n s, P s -> P (set_events f n s).

(** [P] looks at no table but the events and the promotion usage. *)
Definition stable (P : Store -> Prop) : Prop :=
  ignores set_transactions P /\ ignores set_users P
  /\ ignores set_transactionPromotions P.

(** The user [userId] is recorded as having used promotion [pid]. *)
Definition used (userId pid : Z) (s : Store) : Prop :=
  usedSet_has s userId pid = true.

(** What the [data] of a [PATCH /events/:id] may say about the budget:
    nothing, or a new total together with the remainder moved by the same
    difference. *)
Definition no_points (d : EventData) : Prop :=
  d_pointsTotal d = None /\ d_pointsRemain d = None.

Definition points_moved (e : Event) (d : EventData) : Prop :=
  no_points d
  \/ exists newTotal,
       d_pointsTotal d = Some newTotal
       /\ d_pointsRemain d
          = Some (e_pointsRemain e + (newTotal - e_pointsTotal e)).


(** The facts about the store that a purchase adds to and never takes away:
    a promotion linked to a transaction, a promotion marked used at [now]. *)
Definition linked (txId pid : Z) (s : Store) : Prop :=
  (txId, pid) ∈ transactionPromotions s.

Definition used_at (userId pid now : Z) (s : Store) : Prop :=
  userPromotionUsage s !! (userId, pid) = Some (Some now).



(** ** Request sequences to run *)

(** A sequence for part_003: boss creates an event with 60 points and
    raises its budget to 80; alice, who organizes event 1, gives bob 15 of
    its 100 points and then 10 to each of its two guests. *)
Definition budget_requests : list Part003.Request :=
  [ Part003.PostEvents boss "gala" "a gala" "hall" (Some 30) (Some 40) Absent
      (Some (60 # 1));
    Part003.PatchEvent 5 boss 2
      (mkEventBody Absent Absent Absent Absent Absent Absent Absent
         (Val (Some (80 # 1))));
    Part003.PostEventTransaction alice 1 "bob00001" false (Some (15 # 1)) "";
    Part003.PostEventTransaction alice 1 "" true (Some (10 # 1)) "" ].


(** The same requests as the second listing takes them. *)
Definition backend_budget_requests : list Backend.Request :=
  [ Backend.PostEvents boss "gala" "a gala" "hall" (Some 30) (Some 40) Absent
      (Some (60 # 1));
    Backend.PatchEvent 5 boss 2
      (mkEventBody Absent Absent Absent Absent Absent Absent Absent
         (Val (Some (80 # 1))));
    Backend.PostEventTransaction alice 1 "event" "bob00001" (Some (15 # 1)) "";
    Backend.PostEventTransaction alice 1 "event" "" (Some (10 # 1)) "" ].


(** A later purchase of 60 that names promotion 2 again. *)
Definition second_purchase : TransactionBody :=
  mkTransactionBody "purchase" "alice001" (Some (60 # 1)) None "" [Some 2]
    None false.

(** Scenario B of the specification: a purchase of 100 while promotion 1
    (automatic, rate 0.05) runs. *)
Definition scenario_B : TransactionBody :=
  mkTransactionBody "purchase" "alice001" (Some (100 # 1)) None "" [] None
    false.

(** A purchase of 1.15, and the store in which promotion 1 has the rate
    0.5. *)
Definition small_change : TransactionBody :=
  mkTransactionBody "purchase" "alice001" (Some (115 # 100)) None "" [] None
    false.

Definition half_rate : Store :=
  mkStore demo_users []
    (<[1 := mkPromotion "spring" "automatic" 0 1000 None (Some (1 # 2)) None]>
       demo_promotions)
    ∅ ∅ demo_events 1 {[ (1, 2) ]} {[ (1, 3); (1, 4) ]}.

(** A purchase of 40 and an adjustment of 25 whose bodies set the
    suspicious flag. *)
Definition flagged_purchase : TransactionBody :=
  mkTransactionBody "purchase" "alice001" (Some (40 # 1)) None "" [] None
    true.

Definition flagged_adjustment : TransactionBody :=
  mkTransactionBody "adjustment" "alice001" None (Some (25 # 1)) "" [] None
    true.

(** * The handlers around the ledger *)

(** The handlers below keep the guest lists and the organizers of an event,
    the promotions, the roles of the users and their reset tokens.  They
    answer with views that carry no transaction row; of an answer only the
    status is kept. *)

(** [Json st] is [res.status(st).json(...)] for a status that the ledger
    uses as well; the others are 202, 204, which [res.status(204).end()]
    sends without a body, and 401. *)
Inductive Answer := Json (st : Status) | Accepted | NoContent | Unauthorized.

Definition set_promotions (f : gmap Z Promotion -> gmap Z Promotion)
    (s : Store) : Store :=
  mkStore (users s) (transactions s) (f (promotions s))
    (transactionPromotions s) (userPromotionUsage s) (events s) (eventSeq s)
    (eventOrganizers s) (eventGuests s).

Definition set_eventOrganizers (f : gset (Z * Z) -> gset (Z * Z))
    (s : Store) : Store :=
  mkStore (users s) (transactions s) (promotions s)
    (transactionPromotions s) (userPromotionUsage s) (events s) (eventSeq s)
    (f (eventOrganizers s)) (eventGuests s).

Definition set_eventGuests (f : gset (Z * Z) -> gset (Z * Z))
    (s : Store) : Store :=
  mkStore (users s) (transactions s) (promotions s)
    (transactionPromotions s) (userPromotionUsage s) (events s) (eventSeq s)
    (eventOrganizers s) (f (eventGuests s)).

(** ** Guests and organizers *)

(** The migration (createsu.js lines 159-176) makes [(eventId, userId)] the
    primary key of [EventOrganizer] and of [EventGuest] and ties both
    columns to existing rows with [ON DELETE RESTRICT]. *)
Definition references_exist (eventId userId : Z) (s : Store) : bool :=
  bool_decide (is_Some (events s !! eventId))
  && bool_decide (is_Some (users s !! userId)).

(** [eventGuest.create({ data: { eventId, userId } })]. *)
Definition eventGuest_create (eventId userId : Z) : Tx unit :=
  fun s => if bool_decide ((eventId, userId) ∈ eventGuests s) then None
           else if references_exist eventId userId s
           then Some (tt, set_eventGuests
                            (fun g => {[ (eventId, userId) ]} ∪ g) s)
           else None.

(** [eventGuest.delete({ where: { eventId_userId } })]. *)
Definition eventGuest_delete (eventId userId : Z) : Tx unit :=
  fun s => if bool_decide ((eventId, userId) ∈ eventGuests s)
           then Some (tt, set_eventGuests
                            (fun g => g ∖ {[ (eventId, userId) ]}) s)
           else None.

(** [eventOrganizer.upsert({ where, update: {}, create: { eventId, userId } })]. *)
Definition eventOrganizer_upsert (eventId userId : Z) : Tx unit :=
  fun s => if bool_decide ((eventId, userId) ∈ eventOrganizers s)
           then Some (tt, s)
           else if references_exist eventId userId s
           then Some (tt, set_eventOrganizers
                            (fun g => {[ (eventId, userId) ]} ∪ g) s)
           else None.

(** [eventOrganizer.delete({ where: { eventId_userId } })]. *)
Definition eventOrganizer_delete (eventId userId : Z) : Tx unit :=
  fun s => if bool_decide ((eventId, userId) ∈ eventOrganizers s)
           then Some (tt, set_eventOrganizers
                            (fun g => g ∖ {[ (eventId, userId) ]}) s)
           else None.

(** [eventGuest.count({ where: { eventId } })]. *)
Definition eventGuest_count (s : Store) (eventId : Z) : Z :=
  Z.of_nat (length (guests_of s eventId)).

(** [e.capacity != null && cnt >= e.capacity]. *)
Definition is_full (s : Store) (eventId : Z) (e : Event) : bool :=
  match e_capacity e with
  | Some c => num_le c (Number (eventGuest_count s eventId))
  | None => false
  end.

(** [event.delete({ where: { id } })]: refused while an organizer or guest
    row refers to the event.  The sequence of the table keeps its value. *)
Definition event_delete (id : Z) : Tx unit :=
  fun s => match events s !! id with
           | None => None
           | Some _ =>
               if existsb (fun p => fst p =? id) (elements (eventOrganizers s))
                  || existsb (fun p => fst p =? id) (elements (eventGuests s))
               then None
               else Some (tt, set_events (delete id) (eventSeq s) s)
           end.

(** The outcome of the one write of a handler: the answer [st] when it goes
    through, 500 when it throws. *)
Definition commit (st : Answer) (w : Tx unit) (s : Store) : Answer * Store :=
  match w s with
  | Some (_, s') => (st, s')
  | None => (Json InternalServerError, s)
  end.

Module Shared_Guests.

(** [DELETE /events/:id/organizers/:userId]
    (part_003 lines 991-1000; createsu.js lines 1558-1567). *)
Definition delete_events_id_organizers_userId (auth : Auth)
    (eventId userId : Z) (s : Store) : Answer * Store :=
  when negb (needRole manager auth) answer (Json Forbidden, s) ;;
  when negb (bool_decide ((eventId, userId) ∈ eventOrganizers s))
    answer (Json NotFound, s) ;;
  commit NoContent (eventOrganizer_delete eventId userId) s.

(** [DELETE /events/:id/guests/:userId]
    (part_003 lines 1048-1057; createsu.js lines 1656-1665). *)
Definition delete_events_id_guests_userId (auth : Auth)
    (eventId userId : Z) (s : Store) : Answer * Store :=
  when negb (needRole manager auth) answer (Json Forbidden, s) ;;
  when negb (bool_decide ((eventId, userId) ∈ eventGuests s))
    answer (Json NotFound, s) ;;
  commit NoContent (eventGuest_delete eventId userId) s.

End Shared_Guests.

Module Part003_Guests.

(** [DELETE /events/:id], lines 941-950. *)
Definition delete_events_id (auth : Auth) (id : Z) (s : Store)
    : Answer * Store :=
  when negb (needRole manager auth) answer (Json Forbidden, s) ;;
  match events s !! id with
  | None => (Json NotFound, s)
  | Some e =>
    when e_published e answer (Json BadRequest, s) ;;
    commit NoContent (event_delete id) s
  end.

(** [POST /events/:id/guests/me], lines 1060-1080. *)
Definition post_events_id_guests_me (now : Z) (auth : Auth) (eventId : Z)
    (s : Store) : Answer * Store :=
  match events s !! eventId with
  | None => (Json NotFound, s)
  | Some e =>
    when negb (e_published e) answer (Json NotFound, s) ;;
    when e_endTime e <? now answer (Json Gone, s) ;;
    when bool_decide ((eventId, a_id auth) ∈ eventGuests s)
      answer (Json BadRequest, s) ;;
    when is_full s eventId e answer (Json Gone, s) ;;
    when bool_decide ((eventId, a_id auth) ∈ eventOrganizers s)
      answer (Json BadRequest, s) ;;
    commit (Json Created) (eventGuest_create eventId (a_id auth)) s
  end.

(** [DELETE /events/:id/guests/me].  The route of lines 1082-1090 is
    registered after [DELETE /events/:id/guests/:userId] (line 1048), whose
    path the request matches with [userId = 'me']: the handler of lines
    1048-1057 answers it.  Past [needRole('manager')], [Number('me')] is no
    key that the client takes: the lookup throws, and its [.catch] makes it
    a miss. *)
Definition delete_events_id_guests_me (auth : Auth) (eventId : Z)
    (s : Store) : Answer * Store :=
  when negb (needRole manager auth) answer (Json Forbidden, s) ;;
  (Json NotFound, s).

(** The requests of part_003 that write the guest lists, the organizers or
    the set of events, next to the ledger requests. *)
Inductive Request :=
  | Ledger (q : Part003.Request)
  | DeleteEvent (auth : Auth) (id : Z)
  | DeleteOrganizer (auth : Auth) (eventId userId : Z)
  | DeleteGuest (auth : Auth) (eventId userId : Z)
  | PostGuestMe (now : Z) (auth : Auth) (eventId : Z)
  | DeleteGuestMe (auth : Auth) (eventId : Z).

Definition handle (q : Request) (s : Store) : Store :=
  match q with
  | Ledger q => snd (Part003.handle q s)
  | DeleteEvent auth id => snd (delete_events_id auth id s)
  | DeleteOrganizer auth eventId userId =>
      snd (Shared_Guests.delete_events_id_organizers_userId auth eventId
             userId s)
  | DeleteGuest auth eventId userId =>
      snd (Shared_Guests.delete_events_id_guests_userId auth eventId userId s)
  | PostGuestMe now auth eventId =>
      snd (post_events_id_guests_me now auth eventId s)
  | DeleteGuestMe auth eventId =>
      snd (delete_events_id_guests_me auth eventId s)
  end.

Definition run (qs : list Request) (s : Store) : Store :=
  fold_left (fun s q => handle q s) qs s.

End Part003_Guests.

Module Backend_Guests.

(** [POST /events/:id/organizers], lines 1515-1555. *)
Definition post_events_id_organizers (now : Z) (auth : Auth) (eventId : Z)
    (utorid : string) (s : Store) : Answer * Store :=
  when negb (needRole manager auth) answer (Json Forbidden, s) ;;
  when String.eqb utorid "" answer (Json BadRequest, s) ;;
  match events s !! eventId with
  | None => (Json NotFound, s)
  | Some e =>
    when e_endTime e <? now answer (Json Gone, s) ;;
    match find_user_by_utorid s utorid with
    | None => (Json NotFound, s)
    | Some (u_id, _) =>
      when bool_decide ((eventId, u_id) ∈ eventGuests s)
        answer (Json BadRequest, s) ;;
      commit (Json Created) (eventOrganizer_upsert eventId u_id) s
    end
  end.

(** [POST /events/:id/guests], lines 1570-1620. *)
Definition post_events_id_guests (now : Z) (auth : Auth) (eventId : Z)
    (utorid : string) (s : Store) : Answer * Store :=
  when String.eqb utorid "" answer (Json BadRequest, s) ;;
  match events s !! eventId with
  | None => (Json NotFound, s)
  | Some e =>
    when negb (isManager auth) && negb (isOrganizer s eventId auth)
      answer (Json Forbidden, s) ;;
    when isOrganizer s eventId auth && negb (e_published e)
      answer (Json NotFound, s) ;;
    when e_endTime e <? now answer (Json Gone, s) ;;
    match find_user_by_utorid s utorid with
    | None => (Json NotFound, s)
    | Some (u_id, _) =>
      when bool_decide ((eventId, u_id) ∈ eventOrganizers s)
        answer (Json BadRequest, s) ;;
      when bool_decide ((eventId, u_id) ∈ eventGuests s)
        answer (Json BadRequest, s) ;;
      when is_full s eventId e answer (Json Gone, s) ;;
      commit (Json Created) (eventGuest_create eventId u_id) s
    end
  end.

(** [DELETE /events/:id/guests/me], lines 1623-1653. *)
Definition delete_events_id_guests_me (now : Z) (auth : Auth) (eventId : Z)
    (s : Store) : Answer * Store :=
  match events s !! eventId with
  | None => (Json NotFound, s)
  | Some e =>
    when e_endTime e <? now answer (Json Gone, s) ;;
    when negb (bool_decide ((eventId, a_id auth) ∈ eventGuests s))
      answer (Json NotFound, s) ;;
    commit NoContent (eventGuest_delete eventId (a_id auth)) s
  end.

(** [POST /events/:id/guests/me], lines 1668-1724.  The caller's row is read
    before the write; the answer, which is built from it, is reached only
    when the write went through, and the write asks for the same row. *)
Definition post_events_id_guests_me (now : Z) (auth : Auth) (eventId : Z)
    (s : Store) : Answer * Store :=
  when eventId <=? 0 answer (Json NotFound, s) ;;
  match events s !! eventId with
  | None => (Json NotFound, s)
  | Some e =>
    when negb (e_published e) answer (Json NotFound, s) ;;
    when e_endTime e <? now answer (Json Gone, s) ;;
    when bool_decide ((eventId, a_id auth) ∈ eventOrganizers s)
      answer (Json BadRequest, s) ;;
    when bool_decide ((eventId, a_id auth) ∈ eventGuests s)
      answer (Json BadRequest, s) ;;
    when is_full s eventId e answer (Json Gone, s) ;;
    commit (Json Created) (eventGuest_create eventId (a_id auth)) s
  end.

(** The requests of the second listing that write the guest lists or the
    organizers, next to the ledger requests. *)
Inductive Request :=
  | Ledger (q : Backend.Request)
  | PostOrganizer (now : Z) (auth : Auth) (eventId : Z) (utorid : string)
  | DeleteOrganizer (auth : Auth) (eventId userId : Z)
  | PostGuest (now : Z) (auth : Auth) (eventId : Z) (utorid : string)
  | DeleteGuest (auth : Auth) (eventId userId : Z)
  | PostGuestMe (now : Z) (auth : Auth) (eventId : Z)
  | DeleteGuestMe (now : Z) (auth : Auth) (eventId : Z).

Definition handle (q : Request) (s : Store) : Store :=
  match q with
  | Ledger q => snd (Backend.handle q s)
  | PostOrganizer now auth eventId utorid =>
      snd (post_events_id_organizers now auth eventId utorid s)
  | DeleteOrganizer auth eventId userId =>
      snd (Shared_Guests.delete_events_id_organizers_userId auth eventId
             userId s)
  | PostGuest now auth eventId utorid =>
      snd (post_events_id_guests now auth eventId utorid s)
  | DeleteGuest auth eventId userId =>
      snd (Shared_Guests.delete_events_id_guests_userId auth eventId userId s)
  | PostGuestMe now auth eventId =>
      snd (post_events_id_guests_me now auth eventId s)
  | DeleteGuestMe now auth eventId =>
      snd (delete_events_id_guests_me now auth eventId s)
  end.

Definition run (qs : list Request) (s : Store) : Store :=
  fold_left (fun s q => handle q s) qs s.

End Backend_Guests.

(** Every event holds at most as many guests as its capacity, and every
    guest row refers to an event of the store. *)
Definition within_capacity (s : Store) : Prop :=
  forall id e c,
    events s !! id = Some e -> e_capacity e = Some c ->
    (Number (eventGuest_count s id) <= c)%Q.

Definition guests_have_events (s : Store) : Prop :=
  forall eventId userId,
    (eventId, userId) ∈ eventGuests s -> is_Some (events s !! eventId).

(** [capacity] is an integer column. *)
Definition capacities_are_integers (s : Store) : Prop :=
  forall id e c,
    events s !! id = Some e -> e_capacity e = Some c ->
    Number_isInteger c = true.

Definition guest_lists_ok (s : Store) : Prop :=
  within_capacity s /\ guests_have_events s /\ capacities_are_integers s.

(** What the [data] of a [PATCH /events/:id] may say about the capacity
    of an event with [n] guests. *)
Definition capacity_fits (n : Z) (d : EventData) : Prop :=
  match d_capacity d with
  | Some (Some c) => (Number n <= c)%Q
  | _ => True
  end.

(** Nobody is both an organizer and a guest of the same event. *)
Definition roles_apart (s : Store) : Prop :=
  forall p, p ∈ eventOrganizers s -> p ∉ eventGuests s.

(** An event that is in the store and published. *)
Definition published_event (id : Z) (s : Store) : Prop :=
  exists e, events s !! id = Some e /\ e_published e = true.

(** ** Guest requests to run *)

Definition publish : EventBody :=
  mkEventBody (Val true) Absent Absent Absent Absent Absent Absent Absent.

(** In the second listing: boss creates event 2 with the capacity 1.5,
    which is stored as room for one guest, and publishes it; bob takes the
    place and carol finds the event full; boss cannot make bob, a guest, an
    organizer, makes carol one, and cannot add her as a guest afterwards. *)
Definition backend_guest_requests : list Backend_Guests.Request :=
  [ Backend_Guests.Ledger
      (Backend.PostEvents boss "gala" "a gala" "hall" (Some 30) (Some 40)
         (Val (Some (3 # 2))) (Some (60 # 1)));
    Backend_Guests.Ledger (Backend.PatchEvent 5 boss 2 publish);
    Backend_Guests.PostGuestMe 6 bob 2;
    Backend_Guests.PostGuestMe 7 carol 2;
    Backend_Guests.PostOrganizer 8 boss 2 "bob00001";
    Backend_Guests.PostOrganizer 8 boss 2 "carol001";
    Backend_Guests.PostGuest 9 boss 2 "carol001" ].

(** In part_003: the same event; bob takes the place and carol finds the
    event full; bob, who is no manager, cannot give the place up, and carol
    finds the event full again; boss cannot delete the published event. *)
Definition part003_guest_requests : list Part003_Guests.Request :=
  [ Part003_Guests.Ledger
      (Part003.PostEvents boss "gala" "a gala" "hall" (Some 30) (Some 40)
         (Val (Some (3 # 2))) (Some (60 # 1)));
    Part003_Guests.Ledger (Part003.PatchEvent 5 boss 2 publish);
    Part003_Guests.PostGuestMe 6 bob 2;
    Part003_Guests.PostGuestMe 7 carol 2;
    Part003_Guests.DeleteGuestMe bob 2;
    Part003_Guests.PostGuestMe 8 carol 2;
    Part003_Guests.DeleteEvent boss 2 ].

(** ** The promotions and their handlers *)

(** [String.prototype.toLowerCase], on the ASCII letters: the handlers
    compare the result with ASCII words only, and no other character is
    lowered to an ASCII letter of these words. *)
Definition toLowerCase_char (c : ascii) : ascii :=
  let n := nat_of_ascii c in
  if ((65 <=? n) && (n <=? 90))%nat then ascii_of_nat (n + 32) else c.

Fixpoint toLowerCase (s : string) : string :=
  match s with
  | EmptyString => EmptyString
  | String c r => String (toLowerCase_char c) (toLowerCase r)
  end.

(** One white-space character of [String.prototype.trim], taken off the
    head of a string given by its UTF-8 bytes. *)
Definition strip_space (s : string) : option string :=
  let code (c : ascii) := Z.of_nat (nat_of_ascii c) in
  match s with
  | String c1 r1 =>
      if ((9 <=? code c1) && (code c1 <=? 13)) || (code c1 =? 32)
      then Some r1
      else
        match r1 with
        | String c2 r2 =>
            if (code c1 =? 194) && (code c2 =? 160) then Some r2
            else
              match r2 with
              | String c3 r3 =>
                  let three a b c :=
                    (code c1 =? a) && (code c2 =? b) && (code c3 =? c) in
                  if three 225 154 128
                     || ((code c1 =? 226) && (code c2 =? 128)
                         && (128 <=? code c3) && (code c3 <=? 138))
                     || three 226 128 168 || three 226 128 169
                     || three 226 128 175 || three 226 129 159
                     || three 227 128 128 || three 239 187 191
                  then Some r3
                  else None
              | EmptyString => None
              end
        | EmptyString => None
        end
  | EmptyString => None
  end.

Fixpoint only_spaces (fuel : nat) (s : string) : bool :=
  match s, fuel with
  | EmptyString, _ => true
  | _, O => false
  | _, S fuel' =>
      match strip_space s with
      | Some r => only_spaces fuel' r
      | None => false
      end
  end.

(** [raw.trim() === '']. *)
Definition is_blank (s : string) : bool := only_spaces (String.length s) s.

(** [Number.isFinite(Number(x)) && Number(x) > 0]; the argument is
    [Number(x)] when that is finite. *)
Definition isPositiveNum (x : option Q) : bool :=
  match x with Some q => num_lt 0 q | None => false end.

(** The [type] that a view shows: [p.type === 'onetime' ? 'one-time' : p.type]. *)
Definition present_type (t : string) : string :=
  if String.eqb t "onetime" then "one-time"%string else t.

(** [presentPromo], as a row. *)
Definition presentPromo (p : Promotion) : Promotion :=
  mkPromotion (p_name p) (present_type (p_type p)) (p_startTime p)
    (p_endTime p) (p_minSpending p) (p_rate p) (p_points p).

(** The body of [POST /promotions] and of [PATCH /promotions/:id].  A text
    field carries a string; a time is [Val None] when [new Date(raw)] is
    invalid; a number is [Val None] when [Number(raw)] is not finite. *)
Record PromotionBody := mkPromotionBody {
  pb_name : Field string;
  pb_description : Field string;
  pb_type : Field string;
  pb_startTime : Field (option Z);
  pb_endTime : Field (option Z);
  pb_minSpending : Field (option Q);
  pb_rate : Field (option Q);
  pb_points : Field (option Q) }.

(** A text field read by destructuring and tested with [!field]: the empty
    string stands for a missing, [null] or empty field. *)
Definition text_of (raw : Field string) : string :=
  match raw with Val x => x | _ => ""%string end.

(** A time read by destructuring, tested with [!field] and given to
    [new Date]: [None] when the field is missing, [null] or not a date. *)
Definition date_of (raw : Field (option Z)) : option Z :=
  match raw with Val t => t | _ => None end.

(** One assignment [data.key = value] of a [PATCH /promotions/:id]; [data]
    is the list of its assignments.  The [description] column is not part
    of the row; a [null] name or description is refused by the client. *)
Inductive PromotionField :=
  | Name (x : option string)
  | Description (x : option string)
  | Type_ (x : string)
  | StartTime (x : Z)
  | EndTime (x : Z)
  | MinSpending (x : option Q)
  | Rate (x : option Q)
  | Points (x : option Z).

Definition set_field (p : Promotion) (f : PromotionField) : Promotion :=
  match f with
  | Name (Some x) =>
      mkPromotion x (p_type p) (p_startTime p) (p_endTime p)
        (p_minSpending p) (p_rate p) (p_points p)
  | Name None | Description _ => p
  | Type_ x =>
      mkPromotion (p_name p) x (p_startTime p) (p_endTime p)
        (p_minSpending p) (p_rate p) (p_points p)
  | StartTime x =>
      mkPromotion (p_name p) (p_type p) x (p_endTime p) (p_minSpending p)
        (p_rate p) (p_points p)
  | EndTime x =>
      mkPromotion (p_name p) (p_type p) (p_startTime p) x (p_minSpending p)
        (p_rate p) (p_points p)
  | MinSpending x =>
      mkPromotion (p_name p) (p_type p) (p_startTime p) (p_endTime p) x
        (p_rate p) (p_points p)
  | Rate x =>
      mkPromotion (p_name p) (p_type p) (p_startTime p) (p_endTime p)
        (p_minSpending p) x (p_points p)
  | Points x =>
      mkPromotion (p_name p) (p_type p) (p_startTime p) (p_endTime p)
        (p_minSpending p) (p_rate p) x
  end.

Definition field_is_valid (f : PromotionField) : bool :=
  match f with
  | Name None | Description None => false
  | _ => true
  end.

(** [data.startTime], when [data] has one. *)
Fixpoint data_startTime (data : list PromotionField) : option Z :=
  match data with
  | [] => None
  | StartTime x :: _ => Some x
  | _ :: rest => data_startTime rest
  end.

(** [promotion.create]: [id] is the key that the sequence of the table
    hands out ([AUTOINCREMENT], createsu.js line 111). *)
Definition promotion_create (id : Z) (p : Promotion) : Tx unit :=
  fun s => match promotions s !! id with
           | Some _ => None
           | None => Some (tt, set_promotions <[id := p]> s)
           end.

(** [promotion.update({ where: { id }, data })]. *)
Definition promotion_update (id : Z) (data : list PromotionField)
    : Tx unit :=
  fun s => match promotions s !! id with
           | Some p =>
               if forallb field_is_valid data
               then Some (tt, set_promotions
                                <[id := fold_left set_field data p]> s)
               else None
           | None => None
           end.

(** [promotion.delete({ where: { id } })]: refused while a
    [TransactionPromotion] or [UserPromotionUsage] row refers to the
    promotion ([ON DELETE RESTRICT], createsu.js lines 123-141). *)
Definition promotion_delete (id : Z) : Tx unit :=
  fun s => match promotions s !! id with
           | None => None
           | Some _ =>
               if existsb (fun r => snd r =? id)
                    (elements (transactionPromotions s))
                  || existsb (fun r => snd (fst r) =? id)
                       (map_to_list (userPromotionUsage s))
               then None
               else Some (tt, set_promotions (delete id) s)
           end.

(** A block of a handler that either answers at once or goes on. *)
Inductive Checked (A : Type) := Refused (st : Status) | Passed (a : A).
Arguments Refused {A} st.
Arguments Passed {A} a.

Definition check_then {A B} (x : Checked A) (k : A -> Checked B)
    : Checked B :=
  match x with Refused st => Refused st | Passed a => k a end.

(** [Array.prototype.slice(start, stop)]. *)
Definition Array_slice {A} (start stop : Z) (l : list A) : list A :=
  let len := Z.of_nat (length l) in
  let k := if start <? 0 then Z.max (len + start) 0 else Z.min start len in
  let final := if stop <? 0 then Z.max (len + stop) 0 else Z.min stop len in
  firstn (Z.to_nat (final - k)) (skipn (Z.to_nat k) l).

(** [promotion.findMany({ orderBy: { id: 'asc' } })]. *)
Definition id_le (a b : Z * Promotion) : Prop := fst a <= fst b.

#[global] Instance id_le_dec : RelDecision id_le :=
  fun a b => decide (fst a <= fst b).

Definition promotions_by_id (s : Store) : list (Z * Promotion) :=
  merge_sort id_le (map_to_list (promotions s)).

Module Shared_Promotions.

(** [DELETE /promotions/:id]
    (part_003 lines 658-669; createsu.js lines 1082-1093). *)
Definition delete_promotions_id (now : Z) (auth : Auth) (id : Z)
    (s : Store) : Answer * Store :=
  when negb (needRole manager auth) answer (Json Forbidden, s) ;;
  match promotions s !! id with
  | None => (Json NotFound, s)
  | Some p =>
    when p_startTime p <=? now answer (Json Forbidden, s) ;;
    commit NoContent (promotion_delete id) s
  end.

(** The blocks of [PATCH /promotions/:id] for [minSpending], [rate] and
    [points], the same in every branch of both listings. *)
Definition patch_number (raw : Field (option Q))
    (mk : option Q -> PromotionField) (data : list PromotionField)
    : Checked (list PromotionField) :=
  match raw with
  | Absent => Passed data
  | Null => Passed (data ++ [mk None])
  | Val x =>
      if isPositiveNum x then Passed (data ++ [mk x])
      else Refused BadRequest
  end.

Definition patch_points (isPositiveInt : option Q -> bool)
    (raw : Field (option Q)) (data : list PromotionField)
    : Checked (list PromotionField) :=
  match raw with
  | Absent => Passed data
  | Null => Passed (data ++ [Points None])
  | Val x =>
      if isPositiveInt x
      then Passed (data ++ [Points (Math_trunc <$> x)])
      else Refused BadRequest
  end.

Definition patch_rewards (isPositiveInt : option Q -> bool)
    (body : PromotionBody) (data : list PromotionField)
    : Checked (list PromotionField) :=
  check_then (patch_number (pb_minSpending body) MinSpending data)
    (fun data =>
  check_then (patch_number (pb_rate body) Rate data) (fun data =>
  patch_points isPositiveInt (pb_points body) data)).

(** The block for [endTime] of a promotion that has started. *)
Definition patch_endTime_started (now : Z) (p : Promotion)
    (body : PromotionBody) (data : list PromotionField)
    : Checked (list PromotionField) :=
  match pb_endTime body with
  | Absent => Passed data
  | raw =>
      match Part003.new_Date raw with
      | Some et =>
          if (now <? et) && (p_startTime p <? et)
          then Passed (data ++ [EndTime et])
          else Refused BadRequest
      | None => Refused BadRequest
      end
  end.

(** The end of the handler: [Object.keys(data).length === 0], then the
    update. *)
Definition patch_commit (id : Z) (data : Checked (list PromotionField))
    (s : Store) : Answer * Store :=
  match data with
  | Refused st => (Json st, s)
  | Passed [] => (Json BadRequest, s)
  | Passed data => commit (Json OK) (promotion_update id data) s
  end.

End Shared_Promotions.

Module Part003_Promotions.

(** [normPromoTypeIn], lines 450-455; the argument is [String(s || '')]. *)
Definition normPromoTypeIn (s : string) : option string :=
  let t := toLowerCase s in
  if String.eqb t "one-time" || String.eqb t "onetime"
  then Some "onetime"%string
  else if String.eqb t "automatic" then Some "automatic"%string
  else None.

(** [isPositiveInt], line 467. *)
Definition isPositiveInt (x : option Q) : bool :=
  match x with
  | Some q => Number_isInteger q && num_lt 0 q
  | None => false
  end.

(** The checks of [POST /promotions] on [minSpending], [rate] and [points]:
    a field that is there, [null] included, has to be positive. *)
Definition post_number (check : option Q -> bool) (raw : Field (option Q))
    : Checked (option Q) :=
  match raw with
  | Absent => Passed None
  | Null => Refused BadRequest
  | Val x => if check x then Passed x else Refused BadRequest
  end.

(** [POST /promotions], lines 470-503. *)
Definition post_promotions (now : Z) (auth : Auth) (id : Z)
    (body : PromotionBody) (s : Store) : Answer * Store :=
  when negb (needRole manager auth) answer (Json Forbidden, s) ;;
  when String.eqb (text_of (pb_name body)) ""
       || String.eqb (text_of (pb_description body)) ""
       || String.eqb (text_of (pb_type body)) ""
    answer (Json BadRequest, s) ;;
  match date_of (pb_startTime body), date_of (pb_endTime body) with
  | Some st, Some et =>
    match normPromoTypeIn (text_of (pb_type body)) with
    | None => (Json BadRequest, s)
    | Some normType =>
      when negb ((now <? st) && (st <? et)) answer (Json BadRequest, s) ;;
      match
        check_then (post_number isPositiveNum (pb_minSpending body))
          (fun minSpending =>
        check_then (post_number isPositiveNum (pb_rate body)) (fun rate =>
        check_then (post_number isPositiveInt (pb_points body))
          (fun points =>
        Passed (mkPromotion (text_of (pb_name body)) normType st et
                  minSpending rate (Math_trunc <$> points)))))
      with
      | Refused st => (Json st, s)
      | Passed p => commit (Json Created) (promotion_create id p) s
      end
    end
  | _, _ => (Json BadRequest, s)
  end.

(** [PATCH /promotions/:id], lines 582-656. *)
Definition patch_text (raw : Field string)
    (mk : option string -> PromotionField) (data : list PromotionField)
    : list PromotionField :=
  match raw with
  | Absent => data
  | Null => data ++ [mk None]
  | Val x => data ++ [mk (Some x)]
  end.

Definition patch_type (body : PromotionBody) (data : list PromotionField)
    : Checked (list PromotionField) :=
  match pb_type body with
  | Absent => Passed data
  | raw =>
      match normPromoTypeIn (text_of raw) with
      | Some t => Passed (data ++ [Type_ t])
      | None => Refused BadRequest
      end
  end.

Definition patch_startTime (now : Z) (body : PromotionBody)
    (data : list PromotionField) : Checked (list PromotionField) :=
  match pb_startTime body with
  | Absent => Passed data
  | raw =>
      match Part003.new_Date raw with
      | Some st =>
          if now <? st then Passed (data ++ [StartTime st])
          else Refused BadRequest
      | None => Refused BadRequest
      end
  end.

Definition patch_endTime (p : Promotion) (body : PromotionBody)
    (data : list PromotionField) : Checked (list PromotionField) :=
  match pb_endTime body with
  | Absent => Passed data
  | raw =>
      match Part003.new_Date raw with
      | Some et =>
          let stBase := default (p_startTime p) (data_startTime data) in
          if stBase <? et then Passed (data ++ [EndTime et])
          else Refused BadRequest
      | None => Refused BadRequest
      end
  end.

(** The [data] of the update, or the answer that a block gives at once. *)
Definition patch_data (now : Z) (p : Promotion) (body : PromotionBody)
    : Checked (list PromotionField) :=
  let afterStart := p_startTime p <=? now in
  let afterEnd := p_endTime p <? now in
  let data :=
    patch_text (pb_description body) Description
      (patch_text (pb_name body) Name []) in
  if afterEnd then Passed data
  else if afterStart then
    match pb_type body, pb_startTime body with
    | Absent, Absent =>
        check_then (Shared_Promotions.patch_endTime_started now p body data)
          (Shared_Promotions.patch_rewards isPositiveInt body)
    | _, _ => Refused BadRequest
    end
  else
    check_then (patch_type body data) (fun data =>
    check_then (patch_startTime now body data) (fun data =>
    check_then (patch_endTime p body data)
      (Shared_Promotions.patch_rewards isPositiveInt body))).

Definition patch_promotions_id (now : Z) (auth : Auth) (id : Z)
    (body : PromotionBody) (s : Store) : Answer * Store :=
  when negb (needRole manager auth) answer (Json Forbidden, s) ;;
  match promotions s !! id with
  | None => (Json NotFound, s)
  | Some p => Shared_Promotions.patch_commit id (patch_data now p body) s
  end.

(** [GET /promotions], lines 505-564.  [page] and [limit] are
    [Number(req.query.page ?? '1')] and [Number(req.query.limit ?? '10')];
    [active], [started] and [ended] say whether the query parameter is the
    string [true].  The answer carries [count] and the rows of [results]. *)
Definition usable_by (s : Store) (userId : Z) (r : Z * Promotion) : bool :=
  String.eqb (p_type (snd r)) "automatic"
  || (String.eqb (p_type (snd r)) "onetime"
      && negb (usedSet_has s userId (fst r))).

Definition get_promotions (now : Z) (auth : Auth) (page limit : option Q)
    (active started ended : bool) (s : Store)
    : Status * option (Z * list (Z * Promotion)) :=
  when negb (isPositiveInt page) || negb (isPositiveInt limit)
    answer (BadRequest, None) ;;
  let take := default 0 (Math_trunc <$> limit) in
  let skip := (default 0 (Math_trunc <$> page) - 1) * take in
  if ORDER (a_role auth) =? ORDER regular then
    let rows := promotions_by_id s in
    let usable :=
      List.filter (usable_by s (a_id auth))
        (List.filter (fun r => isActivePromo now (snd r)) rows) in
    (OK, Some (Z.of_nat (length usable),
               Array_slice skip (skip + take) usable))
  else
    when started && ended answer (BadRequest, None) ;;
    let where_ (r : Z * Promotion) : bool :=
      if active
      then (p_startTime (snd r) <=? now) && (now <=? p_endTime (snd r))
      else if started then p_startTime (snd r) <=? now
      else if ended then p_endTime (snd r) <? now
      else true in
    let rows := List.filter where_ (promotions_by_id s) in
    (OK, Some (Z.of_nat (length rows),
               firstn (Z.to_nat take) (skipn (Z.to_nat skip) rows))).

(** The requests of part_003 that write the promotions, next to the
    ledger requests. *)
Inductive Request :=
  | Ledger (q : Part003.Request)
  | PostPromotion (now : Z) (auth : Auth) (id : Z) (body : PromotionBody)
  | PatchPromotion (now : Z) (auth : Auth) (id : Z) (body : PromotionBody)
  | DeletePromotion (now : Z) (auth : Auth) (id : Z).

Definition handle (q : Request) (s : Store) : Store :=
  match q with
  | Ledger q => snd (Part003.handle q s)
  | PostPromotion now auth id body => snd (post_promotions now auth id body s)
  | PatchPromotion now auth id body =>
      snd (patch_promotions_id now auth id body s)
  | DeletePromotion now auth id =>
      snd (Shared_Promotions.delete_promotions_id now auth id s)
  end.

Definition run (qs : list Request) (s : Store) : Store :=
  fold_left (fun s q => handle q s) qs s.

(** The promotion requests of [qs] come at [t0] or later. *)
Definition not_before (t0 : Z) (q : Request) : Prop :=
  match q with
  | Ledger _ => True
  | PostPromotion now _ _ _ | PatchPromotion now _ _ _
  | DeletePromotion now _ _ => t0 <= now
  end.

End Part003_Promotions.

Module Backend_Promotions.

(** [normPromoTypeIn], lines 722-726. *)
Definition normPromoTypeIn (s : string) : option string :=
  if String.eqb s "automatic" then Some "automatic"%string
  else if String.eqb s "one-time" then Some "onetime"%string
  else None.

(** [isPositiveInt], line 739: zero passes. *)
Definition isPositiveInt (x : option Q) : bool :=
  match x with
  | Some q => Number_isInteger q && num_le 0 q
  | None => false
  end.

(** The checks of [POST /promotions] on [minSpending], [rate] and [points]:
    [null] is passed over like a missing field. *)
Definition post_number (check : option Q -> bool) (raw : Field (option Q))
    : Checked (option Q) :=
  match raw with
  | Absent | Null => Passed None
  | Val x => if check x then Passed x else Refused BadRequest
  end.

(** [POST /promotions], lines 743-782. *)
Definition post_promotions (now : Z) (auth : Auth) (id : Z)
    (body : PromotionBody) (s : Store) : Answer * Store :=
  when negb (needRole manager auth) answer (Json Forbidden, s) ;;
  when String.eqb (text_of (pb_name body)) ""
       || String.eqb (text_of (pb_description body)) ""
       || String.eqb (text_of (pb_type body)) ""
    answer (Json BadRequest, s) ;;
  match date_of (pb_startTime body), date_of (pb_endTime body) with
  | Some st, Some et =>
    match normPromoTypeIn (text_of (pb_type body)) with
    | None => (Json BadRequest, s)
    | Some normType =>
      when negb ((now <? st) && (st <? et)) answer (Json BadRequest, s) ;;
      match
        check_then (post_number isPositiveNum (pb_minSpending body))
          (fun minSpending =>
        check_then (post_number isPositiveNum (pb_rate body)) (fun rate =>
        check_then (post_number isPositiveInt (pb_points body))
          (fun points =>
        Passed (mkPromotion (text_of (pb_name body)) normType st et
                  minSpending rate (Math_trunc <$> points)))))
      with
      | Refused st => (Json st, s)
      | Passed p => commit (Json Created) (promotion_create id p) s
      end
    end
  | _, _ => (Json BadRequest, s)
  end.

(** [PATCH /promotions/:id], lines 935-1079.  A [null] name, description,
    type, start or end is passed over like a missing one. *)
Definition patch_text (raw : Field string)
    (mk : option string -> PromotionField) (data : list PromotionField)
    : Checked (list PromotionField) :=
  match raw with
  | Absent | Null => Passed data
  | Val x =>
      if is_blank x then Refused BadRequest
      else Passed (data ++ [mk (Some x)])
  end.

Definition patch_type (body : PromotionBody) (data : list PromotionField)
    : Checked (list PromotionField) :=
  match pb_type body with
  | Absent | Null => Passed data
  | Val raw =>
      match normPromoTypeIn raw with
      | Some t => Passed (data ++ [Type_ t])
      | None => Refused BadRequest
      end
  end.

Definition patch_startTime (now : Z) (body : PromotionBody)
    (data : list PromotionField) : Checked (list PromotionField) :=
  match pb_startTime body with
  | Absent | Null => Passed data
  | Val (Some st) =>
      if now <? st then Passed (data ++ [StartTime st])
      else Refused BadRequest
  | Val None => Refused BadRequest
  end.

Definition patch_endTime (now : Z) (p : Promotion) (body : PromotionBody)
    (data : list PromotionField) : Checked (list PromotionField) :=
  match pb_endTime body with
  | Absent | Null => Passed data
  | Val (Some et) =>
      let stBase := default (p_startTime p) (data_startTime data) in
      if (now <=? et) && (stBase <? et) then Passed (data ++ [EndTime et])
      else Refused BadRequest
  | Val None => Refused BadRequest
  end.

Definition patch_data (now : Z) (p : Promotion) (body : PromotionBody)
    : Checked (list PromotionField) :=
  let afterStart := p_startTime p <=? now in
  let afterEnd := p_endTime p <? now in
  check_then (patch_text (pb_name body) Name []) (fun data =>
  check_then (patch_text (pb_description body) Description data)
    (fun data =>
  if afterEnd then Passed data
  else if afterStart then
    match pb_type body, pb_startTime body with
    | Absent, Absent =>
        check_then (Shared_Promotions.patch_endTime_started now p body data)
          (Shared_Promotions.patch_rewards isPositiveInt body)
    | _, _ => Refused BadRequest
    end
  else
    check_then (patch_type body data) (fun data =>
    check_then (patch_startTime now body data) (fun data =>
    check_then (patch_endTime now p body data)
      (Shared_Promotions.patch_rewards isPositiveInt body))))).

Definition patch_promotions_id (now : Z) (auth : Auth) (id : Z)
    (body : PromotionBody) (s : Store) : Answer * Store :=
  when negb (needRole manager auth) answer (Json Forbidden, s) ;;
  match promotions s !! id with
  | None => (Json NotFound, s)
  | Some p => Shared_Promotions.patch_commit id (patch_data now p body) s
  end.

(** The requests of the second listing that write the promotions, next to
    the ledger requests. *)
Inductive Request :=
  | Ledger (q : Backend.Request)
  | PostPromotion (now : Z) (auth : Auth) (id : Z) (body : PromotionBody)
  | PatchPromotion (now : Z) (auth : Auth) (id : Z) (body : PromotionBody)
  | DeletePromotion (now : Z) (auth : Auth) (id : Z).

Definition handle (q : Request) (s : Store) : Store :=
  match q with
  | Ledger q => snd (Backend.handle q s)
  | PostPromotion now auth id body => snd (post_promotions now auth id body s)
  | PatchPromotion now auth id body =>
      snd (patch_promotions_id now auth id body s)
  | DeletePromotion now auth id =>
      snd (Shared_Promotions.delete_promotions_id now auth id s)
  end.

Definition run (qs : list Request) (s : Store) : Store :=
  fold_left (fun s q => handle q s) qs s.

Definition not_before (t0 : Z) (q : Request) : Prop :=
  match q with
  | Ledger _ => True
  | PostPromotion now _ _ _ | PatchPromotion now _ _ _
  | DeletePromotion now _ _ => t0 <= now
  end.

End Backend_Promotions.

(** ** What the statements about promotions speak of *)

Definition type_is_normal (t : string) : Prop :=
  t = "onetime"%string \/ t = "automatic"%string.

(** A promotion whose type is one of the two stored words and whose
    minimum spend, rate and points, where it has them, are positive
    (points: not negative). *)
Definition promotion_well_formed (p : Promotion) : Prop :=
  type_is_normal (p_type p)
  /\ (forall m, p_minSpending p = Some m -> (0 < m)%Q)
  /\ (forall r, p_rate p = Some r -> (0 < r)%Q)
  /\ (forall n, p_points p = Some n -> 0 <= n).

Definition promotions_well_formed (s : Store) : Prop :=
  forall id p, promotions s !! id = Some p -> promotion_well_formed p.

Definition field_well_formed (f : PromotionField) : Prop :=
  match f with
  | Type_ t => type_is_normal t
  | MinSpending (Some m) | Rate (Some m) => (0 < m)%Q
  | Points (Some n) => 0 <= n
  | _ => True
  end.

(** An assignment that leaves the type and the start alone; one that
    writes a text column. *)
Definition keeps_type_and_start (f : PromotionField) : Prop :=
  match f with Type_ _ | StartTime _ => False | _ => True end.

Definition text_field (f : PromotionField) : Prop :=
  match f with Name _ | Description _ => True | _ => False end.

(** [data'] is [data] with assignments added that all have [Q]. *)
Definition extends (Q : PromotionField -> Prop)
    (data data' : list PromotionField) : Prop :=
  exists extra, data' = data ++ extra /\ Forall Q extra.

(** The promotion [id] is in the store with type [t] and start [st]. *)
Definition promotion_started_as (id : Z) (t : string) (st : Z) (s : Store)
    : Prop :=
  exists p, promotions s !! id = Some p /\ p_type p = t /\ p_startTime p = st.

(** The promotion [id] is in the store and is [p] but for its name. *)
Definition same_but_name (p q : Promotion) : Prop :=
  p_type q = p_type p /\ p_startTime q = p_startTime p
  /\ p_endTime q = p_endTime p /\ p_minSpending q = p_minSpending p
  /\ p_rate q = p_rate p /\ p_points q = p_points p.

Definition promotion_frozen_as (id : Z) (p : Promotion) (s : Store) : Prop :=
  exists q, promotions s !! id = Some q /\ same_but_name p q.

(** ** Promotion requests to run *)

Definition no_fields : PromotionBody :=
  mkPromotionBody Absent Absent Absent Absent Absent Absent Absent Absent.

(** A one-time promotion worth 10 points, to run from 600 to 700. *)
Definition summer (type : string) : PromotionBody :=
  mkPromotionBody (Val "summer"%string) (Val "a summer offer"%string)
    (Val type) (Val (Some 600)) (Val (Some 700)) Absent Absent
    (Val (Some (10 # 1))).

Definition retype : PromotionBody :=
  mkPromotionBody Absent Absent (Val "one-time"%string) Absent Absent Absent
    Absent Absent.

Definition extend_and_raise : PromotionBody :=
  mkPromotionBody Absent Absent Absent Absent (Val (Some 2000)) Absent
    (Val (Some (1 # 10))) Absent.

Definition rename_and_extend : PromotionBody :=
  mkPromotionBody (Val "goodbye"%string) Absent Absent Absent
    (Val (Some 5000)) Absent Absent (Val (Some (99 # 1))).

(** At 500 boss creates promotion 3; at 510 boss tries to change the type
    of promotion 1, which runs since 0, then extends it to 2000 and raises
    its rate to 0.1; at 520 boss tries to delete promotion 1 and deletes
    promotion 3, which has not started. *)
Definition part003_promotion_requests : list Part003_Promotions.Request :=
  [ Part003_Promotions.PostPromotion 500 boss 3 (summer "One-Time");
    Part003_Promotions.PatchPromotion 510 boss 1 retype;
    Part003_Promotions.PatchPromotion 510 boss 1 extend_and_raise;
    Part003_Promotions.DeletePromotion 520 boss 1;
    Part003_Promotions.DeletePromotion 520 boss 3 ].

Definition backend_promotion_requests : list Backend_Promotions.Request :=
  [ Backend_Promotions.PostPromotion 500 boss 3 (summer "one-time");
    Backend_Promotions.PatchPromotion 510 boss 1 retype;
    Backend_Promotions.PatchPromotion 510 boss 1 extend_and_raise;
    Backend_Promotions.DeletePromotion 520 boss 1;
    Backend_Promotions.DeletePromotion 520 boss 3 ].

(** After 1000, when promotion 2 has ended: boss renames it and asks for a
    later end and more points, then tries to delete it. *)
Definition part003_late_requests : list Part003_Promotions.Request :=
  [ Part003_Promotions.PatchPromotion 1001 boss 2 rename_and_extend;
    Part003_Promotions.DeletePromotion 1002 boss 2 ].

Definition backend_late_requests : list Backend_Promotions.Request :=
  [ Backend_Promotions.PatchPromotion 1001 boss 2 rename_and_extend;
    Backend_Promotions.DeletePromotion 1002 boss 2 ].

(** ** Users *)

(** The body of [PATCH /users/:userId], each field being the first key of
    the body that spells its name in any case.  [up_role] is [Val (Some r)]
    when the raw value, trimmed and lower-cased, is the name of [r], and
    [Val None] for any other value that is not [null]; [up_verified] and
    [up_suspicious] are [Val (Some b)] when the raw value stands for [b];
    [up_email] says whether [uoftEmail] accepts the raw value.  The email
    and the other columns of a user that no handler of the ledger reads are
    not part of the row. *)
Record UserPatch := mkUserPatch {
  up_role : Field (option Role);
  up_email : Field bool;
  up_verified : Field (option bool);
  up_suspicious : Field (option bool) }.

(** The [data] of the update; [ud_email] and [ud_verified] say whether the
    key is there ([verified] is only ever set to [true]). *)
Record UserData := mkUserData {
  ud_role : option Role;
  ud_email : bool;
  ud_verified : bool;
  ud_suspicious : option bool }.

(** [updatedKeys.length === 0]. *)
Definition no_keys (d : UserData) : bool :=
  match d with
  | mkUserData None false false None => true
  | _ => false
  end.

Definition apply_user_data (d : UserData) (u : User) : User :=
  mkUser (u_utorid u) (default (u_role u) (ud_role d)) (u_points u)
    (ud_verified d || u_verified u)
    (default (u_suspicious u) (ud_suspicious d)).

(** [user.update({ where: { id }, data })]. *)
Definition user_update (id : Z) (d : UserData) : Tx unit :=
  fun s => match users s !! id with
           | Some u => Some (tt, set_users <[id := apply_user_data d u]> s)
           | None => None
           end.

(** The end of the handler.  [email_is_free] says whether the unique index
    on the email lets the write through; when it does not, the client
    throws [P2002], which the handler answers 400. *)
Definition patch_user_commit (email_is_free : bool) (id : Z)
    (data : Checked UserData) (s : Store) : Answer * Store :=
  match data with
  | Refused st => (Json st, s)
  | Passed d =>
    when no_keys d answer (Json BadRequest, s) ;;
    when ud_email d && negb email_is_free answer (Json BadRequest, s) ;;
    commit (Json OK) (user_update id d) s
  end.

(** [String(req.auth.role || '').toLowerCase() === 'superuser']. *)
Definition amSuperuser (auth : Auth) : bool :=
  ORDER (a_role auth) =? ORDER superuser.

(** [!['regular', 'cashier'].includes(to)]. *)
Definition above_cashier (to : Role) : bool :=
  match to with regular | cashier => false | _ => true end.

Definition is_cashier (to : Role) : bool :=
  match to with cashier => true | _ => false end.

Module Part003_Users.

(** [PATCH /users/:userId], lines 357-432. *)
Definition patch_role (auth : Auth) (target : User) (body : UserPatch)
    : Checked (option Role) :=
  match up_role body with
  | Val (Some to) =>
      if negb (amSuperuser auth) && above_cashier to then Refused Forbidden
      else
        let finalSuspicious :=
          match up_suspicious body with
          | Val (Some b) => b
          | _ => u_suspicious target
          end in
        if is_cashier to && finalSuspicious then Refused BadRequest
        else Passed (Some to)
  | _ => Passed None
  end.

Definition patch_email (body : UserPatch) : Checked bool :=
  match up_email body with
  | Absent => Passed false
  | Null | Val false => Refused BadRequest
  | Val true => Passed true
  end.

Definition patch_verified (body : UserPatch) : bool :=
  match up_verified body with Val (Some true) => true | _ => false end.

Definition patch_suspicious (body : UserPatch) : option bool :=
  match up_suspicious body with Val (Some b) => Some b | _ => None end.

Definition patch_data (auth : Auth) (target : User) (body : UserPatch)
    : Checked UserData :=
  check_then (patch_role auth target body) (fun role =>
  check_then (patch_email body) (fun email =>
  Passed (mkUserData role email (patch_verified body)
            (patch_suspicious body)))).

Definition patch_users_userId (email_is_free : bool) (auth : Auth) (id : Z)
    (body : UserPatch) (s : Store) : Answer * Store :=
  when negb (needRole manager auth) answer (Json Forbidden, s) ;;
  when id <=? 0 answer (Json NotFound, s) ;;
  match users s !! id with
  | None => (Json NotFound, s)
  | Some target =>
      patch_user_commit email_is_free id (patch_data auth target body) s
  end.

End Part003_Users.

Module Backend_Users.

(** [PATCH /users/:userId], lines 575-705.  A field that is [null] is
    passed over like a missing one; a value of the wrong type is
    refused. *)
Definition patch_role (auth : Auth) (target : User) (body : UserPatch)
    : Checked (option Role) :=
  match up_role body with
  | Absent | Null => Passed None
  | Val None => Refused BadRequest
  | Val (Some to) =>
      if negb (amSuperuser auth) && above_cashier to then Refused Forbidden
      else if is_cashier to && u_suspicious target then Refused BadRequest
      else Passed (Some to)
  end.

Definition patch_email (body : UserPatch) : Checked bool :=
  match up_email body with
  | Absent | Null => Passed false
  | Val false => Refused BadRequest
  | Val true => Passed true
  end.

Definition patch_verified (body : UserPatch) : Checked bool :=
  match up_verified body with
  | Absent | Null => Passed false
  | Val (Some true) => Passed true
  | Val _ => Refused BadRequest
  end.

Definition patch_suspicious (body : UserPatch) : Checked (option bool) :=
  match up_suspicious body with
  | Absent | Null => Passed None
  | Val (Some b) => Passed (Some b)
  | Val None => Refused BadRequest
  end.

Definition patch_data (auth : Auth) (target : User) (body : UserPatch)
    : Checked UserData :=
  check_then (patch_role auth target body) (fun role =>
  check_then (patch_email body) (fun email =>
  check_then (patch_verified body) (fun verified =>
  check_then (patch_suspicious body) (fun suspicious =>
  Passed (mkUserData role email verified suspicious))))).

Definition patch_users_userId (email_is_free : bool) (auth : Auth) (id : Z)
    (body : UserPatch) (s : Store) : Answer * Store :=
  when negb (needRole manager auth) answer (Json Forbidden, s) ;;
  when id <=? 0 answer (Json NotFound, s) ;;
  match users s !! id with
  | None => (Json NotFound, s)
  | Some target =>
      patch_user_commit email_is_free id (patch_data auth target body) s
  end.

End Backend_Users.

(** What a [PATCH /users/:userId] may make of the row of a user: the
    utorid and the points stay, a verified user stays verified. *)
Definition same_account (u u' : User) : Prop :=
  u_utorid u' = u_utorid u /\ u_points u' = u_points u
  /\ (u_verified u = true -> u_verified u' = true).

(** [s'] is [s] but for the row of user [id]. *)
Definition only_user_changed (id : Z) (s s' : Store) : Prop :=
  s' = set_users (fun _ => users s') s
  /\ (forall id', id' <> id -> users s' !! id' = users s !! id')
  /\ (is_Some (users s' !! id) <-> is_Some (users s !! id)).

(** boss makes bob a cashier and marks him verified. *)
Definition promote_bob : UserPatch :=
  mkUserPatch (Val (Some cashier)) Absent (Val (Some true)) Absent.

(** boss tries to make bob a manager. *)
Definition crown_bob : UserPatch :=
  mkUserPatch (Val (Some manager)) Absent Absent Absent.

(** boss makes bob a cashier and flags him in the same request. *)
Definition promote_and_flag_bob : UserPatch :=
  mkUserPatch (Val (Some cashier)) Absent Absent (Val (Some true)).

Module Shared_Users.

(** [pickAvailableOneTimePromos(userId)]
    (part_003 lines 80-91; createsu.js lines 251-262), as rows. *)
Definition pickAvailableOneTimePromos (now : Z) (s : Store) (userId : Z)
    : list (Z * Promotion) :=
  List.filter (fun r => negb (usedSet_has s userId (fst r)))
    (onetime_of (active_promotions s now)).

(** [GET /users/:userId]
    (part_003 lines 332-354; createsu.js lines 549-572): the row and the
    promotions that the answer is built from.  The view of a manager and
    the view of a cashier differ in the columns of the row they show. *)
Definition get_users_userId (now : Z) (auth : Auth) (id : Z) (s : Store)
    : Status * option (User * list (Z * Promotion)) :=
  when negb (needRole cashier auth) answer (Forbidden, None) ;;
  when id <=? 0 answer (NotFound, None) ;;
  match users s !! id with
  | None => (NotFound, None)
  | Some u => (OK, Some (u, pickAvailableOneTimePromos now s id))
  end.

End Shared_Users.

(** ** Password resets *)

(** A row of [ResetToken] (createsu.js lines 82-89); the token is the key. *)
Record ResetToken := mkResetToken {
  rt_userId : Z;
  rt_expiresAt : Z;
  rt_consumed : bool }.

(** The [ResetToken] table and the [passwordHash] column of [User], which
    the ledger never reads, next to the store. *)
Record Accounts := mkAccounts {
  resetTokens : gmap string ResetToken;
  passwordHashes : gmap Z string }.

(** [resetToken.deleteMany({ where: { userId } })]. *)
Definition resetToken_deleteMany (userId : Z) (a : Accounts) : Accounts :=
  mkAccounts
    (filter (fun r => rt_userId (snd r) <> userId) (resetTokens a))
    (passwordHashes a).

(** [resetToken.create]: refused when the key is taken. *)
Definition resetToken_create (key : string) (t : ResetToken) (a : Accounts)
    : option Accounts :=
  match resetTokens a !! key with
  | Some _ => None
  | None => Some (mkAccounts (<[key := t]> (resetTokens a))
                    (passwordHashes a))
  end.

Module Shared_Auth.

(** [POST /auth/resets]
    (part_003 lines 107-128; createsu.js lines 280-301).  [resetToken] is
    what [uuidv4()] returns.  The two writes are not in one transaction:
    when the second throws, the first stays. *)
Definition post_auth_resets (now : Z) (resetToken : string)
    (utorid : string) (s : Store) (a : Accounts) : Answer * Accounts :=
  when String.eqb utorid "" answer (Json BadRequest, a) ;;
  match find_user_by_utorid s utorid with
  | None => (Json NotFound, a)
  | Some (u_id, _) =>
    let a1 := resetToken_deleteMany u_id a in
    match resetToken_create resetToken
            (mkResetToken u_id (now + 3600000) false) a1 with
    | Some a2 => (Accepted, a2)
    | None => (Json InternalServerError, a1)
    end
  end.

(** [POST /auth/resets/:resetToken]
    (part_003 lines 130-157; createsu.js lines 304-331).  [password] is
    [None] when the body has none or an empty one, and otherwise says
    whether [passwordRegex] accepts it; [passwordHash] is what
    [bcrypt.hash] returns. *)
Definition post_auth_resets_resetToken (now : Z) (resetToken : string)
    (utorid : string) (password : option bool) (passwordHash : string)
    (s : Store) (a : Accounts) : Answer * Accounts :=
  match resetTokens a !! resetToken with
  | None => (Json NotFound, a)
  | Some t =>
    when rt_consumed t answer (Json NotFound, a) ;;
    when rt_expiresAt t <=? now answer (Json Gone, a) ;;
    match users s !! rt_userId t with
    | None => (Json NotFound, a)
    | Some u =>
      when String.eqb utorid "" || bool_decide (password = None)
        answer (Json BadRequest, a) ;;
      when negb (String.eqb (u_utorid u) utorid) answer (Unauthorized, a) ;;
      when negb (default false password) answer (Json BadRequest, a) ;;
      (Json OK,
       mkAccounts (delete resetToken (resetTokens a))
         (<[rt_userId t := passwordHash]> (passwordHashes a)))
    end
  end.

End Shared_Auth.

(** alice holds the token [old-token], good until 4000. *)
Definition demo_accounts : Accounts :=
  mkAccounts {[ "old-token"%string := mkResetToken 2 4000 false ]} ∅.

(** * Properties *)

(** ** Numbers *)

Lemma num_le_spec (x y : Q) : num_le x y = true <-> (x <= y)%Q.
Proof. unfold num_le. apply Qle_bool_iff. Qed.

Lemma num_lt_spec (x y : Q) : num_lt x y = true <-> (x < y)%Q.
Proof.
  unfold num_lt. rewrite negb_true_iff.
  split.
  - intros H. apply Qnot_le_lt. intros Hle.
    apply Qle_bool_iff in Hle. congruence.
  - intros H. destruct (Qle_bool y x) eqn:E; [|reflexivity].
    apply Qle_bool_iff in E. exfalso. exact (Qlt_not_le _ _ H E).
Qed.

(** A positive amount truncates to a non-negative integer. *)
Lemma Math_trunc_nonneg (x : Q) : num_le x 0 = false -> 0 <= Math_trunc x.
Proof.
  intros H. unfold Math_trunc.
  apply Z.quot_pos; [|lia].
  destruct (Z_lt_le_dec (Qnum x) 0) as [Hneg|]; [|assumption].
  exfalso. assert (num_le x 0 = true); [|congruence].
  apply num_le_spec. unfold Qle. simpl. lia.
Qed.

(** ** The transfer handler *)

Lemma transfer_Created auth rid type amount remark s r s' :
  Shared.post_users_userId_transactions auth rid type amount remark s
  = (r, s') ->
  status r = Created ->
  exists a sender recipient,
    amount = Some a /\ type = "transfer"%string /\ num_le a 0 = false
    /\ rid <> a_id auth
    /\ users s !! a_id auth = Some sender
    /\ users s !! rid = Some recipient
    /\ u_verified sender = true
    /\ Math_trunc a <= u_points sender
    /\ s' = transferred auth rid (Math_trunc a) remark sender recipient s.
Proof.
  unfold Shared.post_users_userId_transactions, reply.
  intros H Hst.
  repeat case_match; simplify_eq/=; try discriminate.
  match goal with H : (_ ;;; _) s = Some _ |- _ => rename H into Hw end.
  match goal with H : _ || _ = false |- _ =>
    apply orb_false_iff in H as [Hty Hpos] end.
  apply negb_false_iff, String.eqb_eq in Hty.
  match goal with H : (_ =? _) = false |- _ => apply Z.eqb_neq in H end.
  match goal with H : negb _ = false |- _ => apply negb_false_iff in H end.
  match goal with H : (_ <? _) = false |- _ => apply Z.ltb_ge in H end.
  unfold tx_bind, transaction_create, user_update_points in Hw. simpl in Hw.
  match goal with H : users s !! a_id auth = Some _ |- _ =>
    rewrite H in Hw end.
  simpl in Hw. rewrite lookup_insert_ne in Hw by congruence.
  match goal with H : users s !! rid = Some _ |- _ => rewrite H in Hw end.
  injection Hw as Hs. subst s'.
  eexists _, _, _. repeat split; eauto.
  unfold transferred, set_users, set_transactions. simpl.
  f_equal. rewrite <- (assoc_L (++)). reflexivity.
Qed.

(** Under the five preconditions the transfer goes through. *)
Lemma transfer_goes_through auth rid a remark s sender recipient :
  num_le a 0 = false ->
  rid <> a_id auth ->
  users s !! a_id auth = Some sender ->
  users s !! rid = Some recipient ->
  u_verified sender = true ->
  Math_trunc a <= u_points sender ->
  Shared.post_users_userId_transactions auth rid "transfer" (Some a) remark s
  = reply Created
      (transferred auth rid (Math_trunc a) remark sender recipient s).
Proof.
  intros Hpos Hne Hs Hr Hv Hb.
  unfold Shared.post_users_userId_transactions.
  rewrite Hpos. simpl.
  apply Z.eqb_neq in Hne. rewrite Hne, Hr, Hs, Hv. simpl.
  apply Z.ltb_ge in Hb. rewrite Hb.
  unfold tx_bind, transaction_create, user_update_points. simpl.
  rewrite Hs. simpl. apply Z.eqb_neq in Hne.
  rewrite lookup_insert_ne by congruence. rewrite Hr.
  unfold reply, transferred, set_users, set_transactions. simpl.
  do 2 f_equal. rewrite <- (assoc_L (++)). reflexivity.
Qed.

(** A transfer that is not answered 201 leaves the store as it was. *)
Lemma transfer_rejected_unchanged auth rid type amount remark s r s' :
  Shared.post_users_userId_transactions auth rid type amount remark s
  = (r, s') ->
  status r <> Created -> s' = s.
Proof.
  unfold Shared.post_users_userId_transactions, reply.
  intros H Hst.
  repeat case_match; simplify_eq/=; done.
Qed.

(** C5.  A transfer that is answered 201 appends exactly two rows to the
    transaction log in the one store transition of the request: the first
    is owned by the sender, carries minus the transferred amount and the
    recipient's id as [relatedId]; the second is owned by the recipient,
    carries the amount and the sender's id.  The sender's balance falls by
    the amount, the recipient's rises by it, nobody else's moves, and the
    two balance changes add up to zero.  A transfer that is not answered
    201 leaves the store as it was.  The amount is the request's amount
    cut to an integer. *)
Theorem transfer_writes_a_linked_pair auth rid type amount remark s r s' :
  Shared.post_users_userId_transactions auth rid type amount remark s
  = (r, s') ->
  (status r = Created ->
   exists a sender recipient sender' recipient' debit credit,
     amount = Some a
     /\ users s !! a_id auth = Some sender
     /\ users s !! rid = Some recipient
     /\ transactions s' = transactions s ++ [debit; credit]
     /\ t_type debit = "transfer"%string
     /\ t_userId debit = a_id auth
     /\ t_amount debit = - Math_trunc a
     /\ t_relatedId debit = Some rid
     /\ t_type credit = "transfer"%string
     /\ t_userId credit = rid
     /\ t_amount credit = Math_trunc a
     /\ t_relatedId credit = Some (a_id auth)
     /\ users s' !! a_id auth = Some sender'
     /\ users s' !! rid = Some recipient'
     /\ u_points sender' = u_points sender - Math_trunc a
     /\ u_points recipient' = u_points recipient + Math_trunc a
     /\ (u_points sender' - u_points sender)
        + (u_points recipient' - u_points recipient) = 0
     /\ (forall k, k <> a_id auth -> k <> rid ->
         users s' !! k = users s !! k))
  /\ (status r <> Created -> s' = s).
Proof.
  intros H. split.
  - intros Hst.
    destruct (transfer_Created _ _ _ _ _ _ _ _ H Hst)
      as (a & sender & recipient & -> & _ & _ & Hne & Hs & Hr & _ & _ & ->).
    exists a, sender, recipient,
      (increment_points (- Math_trunc a) sender),
      (increment_points (Math_trunc a) recipient),
      (debit_row auth rid (Math_trunc a) remark),
      (credit_row auth rid (Math_trunc a) remark).
    simpl. repeat split; try assumption; try reflexivity; try lia.
    + rewrite lookup_insert_ne by congruence. apply lookup_insert_eq.
    + apply lookup_insert_eq.
    + intros k Hk1 Hk2.
      rewrite lookup_insert_ne by congruence.
      apply lookup_insert_ne. congruence.
  - apply (transfer_rejected_unchanged _ _ _ _ _ _ _ _ H).
Qed.

(** Scenario D of the specification: 30 points from alice (100) to bob (10). *)
Lemma transfer_writes_a_linked_pair_witness :
  let out :=
    Shared.post_users_userId_transactions alice 3 "transfer" (Some (30 # 1))
      "" demo in
  status (fst out) = Created
  /\ length (transactions (snd out)) = 2%nat
  /\ (u_points <$> users (snd out) !! 2) = Some 70
  /\ (u_points <$> users (snd out) !! 3) = Some 40.
Proof.
  intros out.
  assert (Hrun : Shared.post_users_userId_transactions alice 3 "transfer"
                   (Some (30 # 1)) "" demo = (fst out, snd out))
    by apply surjective_pairing.
  assert (Hst : status (fst out) = Created) by reflexivity.
  destruct (proj1 (transfer_writes_a_linked_pair _ _ _ _ _ _ _ _ Hrun) Hst)
    as (a & sender & recipient & sender' & recipient' & debit & credit
        & Ha & Hs & Hr & Hrows & _ & _ & _ & _ & _ & _ & _ & _
        & Hs' & Hr' & Hps & Hpr & _).
  injection Ha as <-.
  vm_compute in Hs, Hr. injection Hs as <-. injection Hr as <-.
  change (a_id alice) with 2 in Hs'.
  split; [exact Hst|].
  split; [rewrite Hrows; reflexivity|].
  rewrite Hs', Hr'. simpl. rewrite Hps, Hpr.
  split; reflexivity.
Defined.

(** ** Redemption in part_003 *)

Lemma part003_redemption_Created auth type amount remark s r s' :
  Part003.post_users_me_transactions auth type amount remark s = (r, s') ->
  status r = Created ->
  exists a me,
    amount = Some a /\ type = "redemption"%string /\ num_le a 0 = false
    /\ users s !! a_id auth = Some me
    /\ u_verified me = true
    /\ Math_trunc a <= u_points me
    /\ s' = set_transactions
              (fun l => l ++ [mkTransaction (a_id auth) "redemption"
                                (- Math_trunc a) None None remark None None
                                (a_id auth) None]) s.
Proof.
  unfold Part003.post_users_me_transactions, transaction_create, reply.
  intros H Hst.
  repeat case_match; simplify_eq/=; try discriminate.
  match goal with H : _ || _ = false |- _ =>
    apply orb_false_iff in H as [Hty Hpos] end.
  apply negb_false_iff, String.eqb_eq in Hty.
  match goal with H : negb _ = false |- _ => apply negb_false_iff in H end.
  match goal with H : (_ <? _) = false |- _ => apply Z.ltb_ge in H end.
  eexists _, _. repeat split; eauto.
Qed.

Lemma part003_processed_OK auth id s r s' :
  Part003.patch_transactions_id_processed auth id s = (r, s') ->
  status r = OK ->
  exists t u,
    find_transaction s id = Some t
    /\ t_type t = "redemption"%string
    /\ truthy_id (t_processedById t) = false
    /\ users s !! t_userId t = Some u
    /\ - t_amount t <= u_points u
    /\ s' = set_transactions
              (fun l => <[Z.to_nat (id - 1) := set_processedById (a_id auth) t]> l)
              (set_users
                 <[t_userId t := increment_points (- - t_amount t) u]> s).
Proof.
  unfold Part003.patch_transactions_id_processed, reply.
  intros H Hst.
  repeat case_match; simplify_eq/=; try discriminate.
  match goal with H : (_ ;;; _) s = Some _ |- _ => rename H into Hw end.
  match goal with H : _ || _ = false |- _ =>
    apply orb_false_iff in H as [Hty Hproc] end.
  apply negb_false_iff, String.eqb_eq in Hty.
  match goal with H : (_ <? _) = false |- _ => apply Z.ltb_ge in H end.
  unfold tx_bind, user_update_points, transaction_update in Hw.
  match goal with H : users s !! _ = Some _ |- _ => rewrite H in Hw end.
  unfold find_transaction in *. simpl in Hw.
  match goal with
  | H : (if ?c then _ else _) = Some _ |- _ => destruct c eqn:Hid; [discriminate|]
  end.
  match goal with H : transactions s !! _ = Some _ |- _ => rewrite H in Hw end.
  injection Hw as _ Hs. subst s'.
  eexists _, _. repeat split; eauto.
Qed.

(** C1.  In part_003 a debit that its user starts never overdraws that user.
    - A transfer that goes through found the sender's balance at least the
      amount cut to an integer, and leaves the sender that much less, which
      is not below zero.
    - A redemption request that goes through found the requester's balance
      at least the (integer) amount asked for, and moves no balance.
    - Processing a redemption goes through only when the owner's balance is
      at least the redeemed amount (minus the stored amount), and leaves the
      owner that much less, which is not below zero. *)
Theorem own_debit_never_overdraws :
  (forall auth rid type amount remark s r s',
     Shared.post_users_userId_transactions auth rid type amount remark s
     = (r, s') ->
     status r = Created ->
     exists a sender sender',
       amount = Some a
       /\ users s !! a_id auth = Some sender
       /\ Math_trunc a <= u_points sender
       /\ users s' !! a_id auth = Some sender'
       /\ u_points sender' = u_points sender - Math_trunc a
       /\ 0 <= u_points sender')
  /\ (forall auth type amount remark s r s',
        Part003.post_users_me_transactions auth type amount remark s
        = (r, s') ->
        status r = Created ->
        exists a me,
          amount = Some a
          /\ users s !! a_id auth = Some me
          /\ 0 <= Math_trunc a <= u_points me
          /\ users s' = users s)
  /\ (forall auth id s r s',
        Part003.patch_transactions_id_processed auth id s = (r, s') ->
        status r = OK ->
        exists t owner owner',
          find_transaction s id = Some t
          /\ users s !! t_userId t = Some owner
          /\ - t_amount t <= u_points owner
          /\ users s' !! t_userId t = Some owner'
          /\ u_points owner' = u_points owner - (- t_amount t)
          /\ 0 <= u_points owner').
Proof.
  split; [|split].
  - intros auth rid type amount remark s r s' H Hst.
    destruct (transfer_Created _ _ _ _ _ _ _ _ H Hst)
      as (a & sender & recipient & -> & _ & _ & Hne & Hs & Hr & _ & Hb & ->).
    exists a, sender, (increment_points (- Math_trunc a) sender).
    simpl. repeat split; try assumption; try lia.
    rewrite lookup_insert_ne by congruence. apply lookup_insert_eq.
  - intros auth type amount remark s r s' H Hst.
    destruct (part003_redemption_Created _ _ _ _ _ _ _ H Hst)
      as (a & me & -> & _ & Hpos & Hme & _ & Hb & ->).
    exists a, me. repeat split; try assumption.
    apply Math_trunc_nonneg, Hpos.
  - intros auth id s r s' H Hst.
    destruct (part003_processed_OK _ _ _ _ _ H Hst)
      as (t & u & Ht & _ & _ & Hu & Hb & ->).
    exists t, u, (increment_points (- - t_amount t) u).
    simpl. repeat split; try assumption; try lia.
    apply lookup_insert_eq.
Qed.

(** alice (100 points) sends 30; alice asks to redeem 100; trent then
    processes that request. *)
Lemma own_debit_never_overdraws_witness :
  let sent :=
    Shared.post_users_userId_transactions alice 3 "transfer" (Some (30 # 1))
      "" demo in
  let asked :=
    Part003.post_users_me_transactions alice "redemption" (Some (100 # 1))
      "" demo in
  let paid := Part003.patch_transactions_id_processed trent 1 (snd asked) in
  (status (fst sent) = Created
   /\ exists u, users (snd sent) !! 2 = Some u /\ 0 <= u_points u)
  /\ (status (fst asked) = Created /\ users (snd asked) = users demo)
  /\ (status (fst paid) = OK
      /\ exists u, users (snd paid) !! 2 = Some u /\ 0 <= u_points u).
Proof.
  intros sent asked paid.
  destruct own_debit_never_overdraws as (Htransfer & Hask & Hpay).
  split; [|split].
  - split; [reflexivity|].
    destruct (Htransfer alice 3 "transfer"%string (Some (30 # 1)) ""%string
                demo (fst sent) (snd sent) (surjective_pairing _) eq_refl)
      as (a & u & u' & _ & _ & _ & Hu' & _ & Hpos).
    exists u'. split; assumption.
  - split; [reflexivity|].
    destruct (Hask alice "redemption"%string (Some (100 # 1)) ""%string demo
                (fst asked) (snd asked) (surjective_pairing _) eq_refl)
      as (a & me & _ & _ & _ & Hsame).
    exact Hsame.
  - split; [reflexivity|].
    destruct (Hpay trent 1 (snd asked) (fst paid) (snd paid)
                (surjective_pairing _) eq_refl)
      as (t & u & u' & Ht & _ & _ & Hu' & _ & Hpos).
    vm_compute in Ht. injection Ht as <-.
    exists u'. split; assumption.
Defined.

(** ** What a rejected transfer is answered *)

(** C7, as the code has it.  A transfer request whose type is not
    ['transfer'] or whose amount is not a positive number is answered 400.
    For a well-formed request the checks run in this order: 400 when the
    recipient is the sender; else 404 when the recipient does not exist;
    else 403 when the sender is not verified; else 400 when the sender's
    balance is below the amount cut to an integer.  Each of these answers
    leaves the store as it was, and so does every answer other than 201: no
    row is written and no balance moves. *)
Theorem transfer_rejections auth rid type amount remark s :
  let out :=
    Shared.post_users_userId_transactions auth rid type amount remark s in
  (type <> "transfer"%string -> out = reply BadRequest s)
  /\ (amount = None -> out = reply BadRequest s)
  /\ (forall a, amount = Some a -> (a <= 0)%Q -> out = reply BadRequest s)
  /\ (forall a sender,
        type = "transfer"%string -> amount = Some a -> (0 < a)%Q ->
        (rid = a_id auth -> out = reply BadRequest s)
        /\ (rid <> a_id auth -> users s !! rid = None ->
            out = reply NotFound s)
        /\ (rid <> a_id auth -> is_Some (users s !! rid) ->
            users s !! a_id auth = Some sender ->
            u_verified sender = false ->
            out = reply Forbidden s)
        /\ (rid <> a_id auth -> is_Some (users s !! rid) ->
            users s !! a_id auth = Some sender ->
            u_verified sender = true ->
            u_points sender < Math_trunc a ->
            out = reply BadRequest s))
  /\ (status (fst out) <> Created -> snd out = s).
Proof.
  intros out. subst out.
  split; [|split; [|split; [|split]]].
  - intros Hty. unfold Shared.post_users_userId_transactions.
    destruct amount as [a|]; [|reflexivity].
    apply String.eqb_neq in Hty. rewrite Hty. reflexivity.
  - intros ->. reflexivity.
  - intros a -> Hle. unfold Shared.post_users_userId_transactions.
    apply num_le_spec in Hle. rewrite Hle, orb_true_r. reflexivity.
  - intros a sender -> -> Hpos.
    assert (Hnle : num_le a 0 = false).
    { destruct (num_le a 0) eqn:E; [|reflexivity].
      apply num_le_spec in E. exfalso. exact (Qlt_not_le _ _ Hpos E). }
    unfold Shared.post_users_userId_transactions.
    rewrite Hnle. simpl.
    split; [|split; [|split]].
    + intros ->. rewrite Z.eqb_refl. reflexivity.
    + intros Hne Hnone. apply Z.eqb_neq in Hne. rewrite Hne, Hnone.
      reflexivity.
    + intros Hne [recipient Hr] Hs Hv. apply Z.eqb_neq in Hne.
      rewrite Hne, Hr, Hs, Hv. reflexivity.
    + intros Hne [recipient Hr] Hs Hv Hb. apply Z.eqb_neq in Hne.
      rewrite Hne, Hr, Hs, Hv. simpl.
      apply Z.ltb_lt in Hb. rewrite Hb. reflexivity.
  - intros Hst.
    apply (transfer_rejected_unchanged auth rid type amount remark s _ _
             (surjective_pairing _) Hst).
Qed.

(** carol is not verified: her transfer to bob is answered 403. *)
Lemma transfer_rejections_witness :
  Shared.post_users_userId_transactions carol 3 "transfer" (Some (10 # 1)) ""
    demo = reply Forbidden demo.
Proof.
  destruct (transfer_rejections carol 3 "transfer" (Some (10 # 1)) "" demo)
    as (_ & _ & _ & H & _).
  destruct (H (10 # 1)%Q (mkUser "carol001" regular 50 false false)
              eq_refl eq_refl eq_refl) as (_ & _ & Hforbidden & _).
  apply Hforbidden.
  - discriminate.
  - eexists. reflexivity.
  - reflexivity.
  - reflexivity.
Defined.

(** C7 as it is worded does not hold: a sender who is not verified is
    answered 403, not 400; and a sender whose balance (100) is below the
    amount (100.5) but not below the amount cut to an integer is served. *)
Lemma transfer_unverified_is_forbidden :
  (u_verified <$> users demo !! a_id carol) = Some false
  /\ status (fst (Shared.post_users_userId_transactions carol 3 "transfer"
                    (Some (10 # 1)) "" demo)) = Forbidden
  /\ (u_points <$> users demo !! a_id alice) = Some 100
  /\ status (fst (Shared.post_users_userId_transactions alice 3 "transfer"
                    (Some (201 # 2)) "" demo)) = Created.
Proof. repeat split. Qed.

(** ** The suspicious toggle *)

Lemma find_transaction_inv s id t :
  find_transaction s id = Some t ->
  0 < id /\ transactions s !! Z.to_nat (id - 1) = Some t.
Proof.
  unfold find_transaction. destruct (id <=? 0) eqn:E; [discriminate|].
  apply Z.leb_gt in E. auto.
Qed.

Lemma find_transaction_set_users f s id :
  find_transaction (set_users f s) id = find_transaction s id.
Proof. reflexivity. Qed.

Lemma find_transaction_updated s id t t' :
  find_transaction s id = Some t ->
  find_transaction
    (set_transactions (fun l => <[Z.to_nat (id - 1) := t']> l) s) id
  = Some t'.
Proof.
  intros H. destruct (find_transaction_inv _ _ _ H) as [Hpos Hl].
  unfold find_transaction. simpl.
  destruct (id <=? 0) eqn:E; [apply Z.leb_le in E; lia|].
  apply list_lookup_insert_eq. eapply lookup_lt_Some, Hl.
Qed.

Lemma increment_points_undo d u :
  increment_points d (increment_points (- d) u) = u.
Proof.
  destruct u as [n r p v x]. unfold increment_points. simpl.
  f_equal. lia.
Qed.

(** The store after the flag of transaction [id] is set to [b]. *)
Lemma toggle_applies auth id b s t owner :
  needRole manager auth = true ->
  find_transaction s id = Some t ->
  users s !! t_userId t = Some owner ->
  t_suspicious t <> Some b ->
  Shared.patch_transactions_id_suspicious auth id (Some b) s
  = (mkReply OK (Some (set_suspicious b t)),
     set_users
       <[t_userId t :=
           increment_points (if b then - t_amount t else t_amount t) owner]>
       (set_transactions
          (fun l => <[Z.to_nat (id - 1) := set_suspicious b t]> l) s)).
Proof.
  intros Hrole Ht Ho Hflag.
  unfold Shared.patch_transactions_id_suspicious.
  rewrite Hrole, Ht. simpl.
  rewrite bool_decide_eq_false_2 by assumption.
  unfold tx_bind, transaction_update, user_update_points.
  rewrite Ht. simpl. rewrite Ho.
  rewrite find_transaction_set_users.
  rewrite (find_transaction_updated _ _ _ _ Ht). reflexivity.
Qed.

Lemma toggle_same_flag auth id b s t :
  needRole manager auth = true ->
  find_transaction s id = Some t ->
  t_suspicious t = Some b ->
  Shared.patch_transactions_id_suspicious auth id (Some b) s
  = (mkReply OK (Some t), s).
Proof.
  intros Hrole Ht Hflag.
  unfold Shared.patch_transactions_id_suspicious.
  rewrite Hrole, Ht. simpl.
  rewrite bool_decide_eq_true_2 by assumption. reflexivity.
Qed.

(** C6.  For a manager, an existing transaction and its owner:
    - a request whose flag equals the stored flag is answered with the row
      as it is and changes nothing;
    - a request whose flag differs stores the new flag and moves the
      owner's balance, and only the owner's, by minus the transaction's
      amount when it marks and by plus the amount when it un-marks;
    - marking a transaction that is not marked and un-marking it right
      after leaves every balance as it was. *)
Theorem suspicious_toggle auth id b s t owner :
  needRole manager auth = true ->
  find_transaction s id = Some t ->
  users s !! t_userId t = Some owner ->
  let toggle := Shared.patch_transactions_id_suspicious auth id in
  (t_suspicious t = Some b ->
   toggle (Some b) s = (mkReply OK (Some t), s))
  /\ (t_suspicious t <> Some b ->
      status (fst (toggle (Some b) s)) = OK
      /\ find_transaction (snd (toggle (Some b) s)) id
         = Some (set_suspicious b t)
      /\ (exists owner',
            users (snd (toggle (Some b) s)) !! t_userId t = Some owner'
            /\ u_points owner'
               = u_points owner
                 + (if b then - t_amount t else t_amount t))
      /\ (forall k, k <> t_userId t ->
          users (snd (toggle (Some b) s)) !! k = users s !! k))
  /\ (t_suspicious t <> Some true ->
      users (snd (toggle (Some false) (snd (toggle (Some true) s))))
      = users s).
Proof.
  intros Hrole Ht Ho toggle. subst toggle.
  split; [|split].
  - apply toggle_same_flag; assumption.
  - intros Hflag. rewrite (toggle_applies _ _ _ _ _ _ Hrole Ht Ho Hflag).
    simpl. repeat split.
    + apply (find_transaction_updated _ _ _ _ Ht).
    + eexists. split; [apply lookup_insert_eq|]. reflexivity.
    + intros k Hk. apply lookup_insert_ne. congruence.
  - intros Hflag. rewrite (toggle_applies _ _ _ _ _ _ Hrole Ht Ho Hflag).
    simpl.
    rewrite (toggle_applies auth id false _ (set_suspicious true t)
               (increment_points (- t_amount t) owner) Hrole).
    + simpl. rewrite insert_insert_eq.
      rewrite increment_points_undo. apply insert_id, Ho.
    + rewrite find_transaction_set_users.
      apply (find_transaction_updated _ _ _ _ Ht).
    + simpl. apply lookup_insert_eq.
    + simpl. discriminate.
Qed.

(** After alice's transfer of 30, boss marks bob's credit row (transaction
    2) and un-marks it again: bob goes from 40 to 10 and back. *)
Lemma suspicious_toggle_witness :
  let s :=
    snd (Shared.post_users_userId_transactions alice 3 "transfer"
           (Some (30 # 1)) "" demo) in
  let marked :=
    snd (Shared.patch_transactions_id_suspicious boss 2 (Some true) s) in
  let unmarked :=
    snd (Shared.patch_transactions_id_suspicious boss 2 (Some false) marked) in
  (u_points <$> users s !! 3) = Some 40
  /\ (exists bob', users marked !! 3 = Some bob' /\ u_points bob' = 40 + - 30)
  /\ users unmarked = users s.
Proof.
  intros s marked unmarked.
  assert (Hrole : needRole manager boss = true) by reflexivity.
  assert (Ht : find_transaction s 2 = Some (credit_row alice 3 30 ""))
    by reflexivity.
  assert (Ho : users s !! t_userId (credit_row alice 3 30 "")
               = Some (mkUser "bob00001" regular 40 true false))
    by reflexivity.
  destruct (suspicious_toggle boss 2 true s _ _ Hrole Ht Ho)
    as (_ & Hmark & Hback).
  split; [reflexivity|]. split.
  - destruct Hmark as (_ & _ & Hbob & _); [discriminate|]. exact Hbob.
  - apply Hback. discriminate.
Defined.

(** ** Invariants along a transaction *)

Lemma tx_preserves_ret {A} (P : Store -> Prop) (a : A) :
  tx_preserves P (tx_ret a).
Proof. intros s a' s' [= _ <-]. auto. Qed.

Lemma tx_preserves_bind {A B} (P : Store -> Prop) (c : Tx A) (k : A -> Tx B) :
  tx_preserves P c -> (forall a, tx_preserves P (k a)) ->
  tx_preserves P (tx_bind c k).
Proof.
  intros Hc Hk s b s' H HP. unfold tx_bind in H.
  destruct (c s) as [[a s1]|] eqn:E; [|discriminate].
  eapply Hk; [exact H|]. eapply Hc; eauto.
Qed.

Lemma tx_preserves_for {A} (P : Store -> Prop) (xs : list A)
    (body : A -> Tx unit) :
  (forall x, tx_preserves P (body x)) -> tx_preserves P (tx_for xs body).
Proof.
  intros Hbody. induction xs as [|x xs IH]; simpl.
  - apply tx_preserves_ret.
  - apply tx_preserves_bind; auto.
Qed.

Lemma tx_preserves_if {A} (P : Store -> Prop) (b : bool) (c1 c2 : Tx A) :
  tx_preserves P c1 -> tx_preserves P c2 ->
  tx_preserves P (if b then c1 else c2).
Proof. destruct b; auto. Qed.

Section Frame.
Variable P : Store -> Prop.

Lemma frame_transaction_create t :
  ignores set_transactions P -> tx_preserves P (transaction_create t).
Proof.
  intros HP s a s' H. unfold transaction_create in H.
  destruct (t_earned t); [discriminate|].
  simplify_eq. apply HP.
Qed.

Lemma frame_transaction_update id f :
  ignores set_transactions P -> tx_preserves P (transaction_update id f).
Proof.
  intros HP s a s' H. unfold transaction_update in H.
  destruct (find_transaction s id); [|discriminate].
  simplify_eq. apply HP.
Qed.

Lemma frame_user_update_points id d :
  ignores set_users P -> tx_preserves P (user_update_points id d).
Proof.
  intros HP s a s' H. unfold user_update_points in H.
  destruct (users s !! id); [|discriminate].
  simplify_eq. apply HP.
Qed.

Lemma frame_transactionPromotion_create txId pid :
  ignores set_transactionPromotions P ->
  tx_preserves P (transactionPromotion_create txId pid).
Proof.
  intros HP s a s' H. unfold transactionPromotion_create in H.
  case_bool_decide; [discriminate|].
  simplify_eq. apply HP.
Qed.

Lemma frame_userPromotionUsage_upsert userId pid now :
  ignores set_userPromotionUsage P ->
  tx_preserves P (userPromotionUsage_upsert userId pid now).
Proof.
  intros HP s a s' H. unfold userPromotionUsage_upsert in H.
  simplify_eq. apply HP.
Qed.

Lemma frame_event_update_budget id n :
  ignores_events P -> tx_preserves P (event_update_budget id n).
Proof.
  intros HP s a s' H. unfold event_update_budget in H.
  destruct (events s !! id); [|discriminate].
  simplify_eq. apply HP.
Qed.

Lemma frame_event_update id d :
  ignores_events P -> tx_preserves P (event_update id d).
Proof.
  intros HP s a s' H. unfold event_update in H.
  destruct (events s !! id); [|discriminate].
  destruct (data_is_valid d); [|discriminate].
  simplify_eq. apply HP.
Qed.

Lemma frame_event_create e :
  ignores_events P -> tx_preserves P (event_create e).
Proof.
  intros HP s a s' H. unfold event_create in H.
  repeat case_match; simplify_eq; apply HP.
Qed.
End Frame.

(** A projection of the store is not changed by writing another table. *)
Ltac frame :=
  first
    [ assumption
    | match goal with H : stable _ |- _ => apply H end
    | let H := fresh in intros ? ? H; exact H
    | let H := fresh in intros ? ? ? H; exact H ].

(** Closes a goal [tx_preserves P c] for a [c] built from the statements
    above, given what the context says about the others. *)
Ltac tx_auto :=
  repeat first
    [ assumption
    | apply tx_preserves_ret
    | apply tx_preserves_bind; [|intros ?]
    | apply tx_preserves_for; intros ?
    | apply tx_preserves_if
    | apply frame_transaction_create; frame
    | apply frame_transaction_update; frame
    | apply frame_user_update_points; frame
    | apply frame_transactionPromotion_create; frame
    | apply frame_userPromotionUsage_upsert; frame
    | apply frame_event_update_budget; frame
    | match goal with H : forall _, _ |- _ => apply H end ].

(** Brings a handler down to its outcomes: the store as it was, or the store
    a committed transaction left. *)
Ltac by_cases_of handler H :=
  unfold handler, reply in H;
  repeat case_match; simplify_eq/=; try assumption;
  try match goal with
      | Hw : ?c ?s = Some (_, ?s'), HP : ?P ?s |- ?P ?s' =>
          cut (tx_preserves P c);
          [ intros Hc; exact (Hc _ _ _ Hw HP) | tx_auto ]
      end.

Lemma transfer_keeps P auth rid type amount remark s r s' :
  stable P ->
  Shared.post_users_userId_transactions auth rid type amount remark s
  = (r, s') ->
  P s -> P s'.
Proof.
  intros HP H Hs. by_cases_of Shared.post_users_userId_transactions H.
Qed.

Lemma toggle_keeps P auth id b s r s' :
  stable P ->
  Shared.patch_transactions_id_suspicious auth id b s = (r, s') ->
  P s -> P s'.
Proof.
  intros HP H Hs. by_cases_of Shared.patch_transactions_id_suspicious H.
Qed.

Section Handlers_keep.
Variable P : Store -> Prop.
Hypothesis P_stable : stable P.
Hypothesis P_upsert :
  forall userId pid now,
    tx_preserves P (userPromotionUsage_upsert userId pid now).
Hypothesis P_budget :
  forall id n, tx_preserves P (event_update_budget id n).

Lemma part003_redemption_keeps auth type amount remark s r s' :
  Part003.post_users_me_transactions auth type amount remark s = (r, s') ->
  P s -> P s'.
Proof. intros H Hs. by_cases_of Part003.post_users_me_transactions H. Qed.

Lemma part003_processed_keeps auth id s r s' :
  Part003.patch_transactions_id_processed auth id s = (r, s') ->
  P s -> P s'.
Proof.
  intros H Hs. by_cases_of Part003.patch_transactions_id_processed H.
Qed.

Lemma part003_adjustment_keeps auth body s r s' :
  Part003.adjustment auth body s = (r, s') -> P s -> P s'.
Proof. intros H Hs. by_cases_of Part003.adjustment H. Qed.

Lemma part003_purchase_keeps now auth body s r s' :
  Part003.purchase now auth body s = (r, s') -> P s -> P s'.
Proof. intros H Hs. by_cases_of Part003.purchase H. Qed.

Lemma part003_award_keeps auth eventId utorid allGuests amount remark
    s r s' :
  Part003.post_events_id_transactions auth eventId utorid allGuests amount
    remark s = (r, s') ->
  P s -> P s'.
Proof.
  intros H Hs. by_cases_of Part003.post_events_id_transactions H.
Qed.

Lemma backend_redemption_keeps auth type amount remark s r s' :
  Backend.post_users_me_transactions auth type amount remark s = (r, s') ->
  P s -> P s'.
Proof. intros H Hs. by_cases_of Backend.post_users_me_transactions H. Qed.

Lemma backend_processed_keeps auth id s r s' :
  Backend.patch_transactions_id_processed auth id s = (r, s') ->
  P s -> P s'.
Proof.
  intros H Hs. by_cases_of Backend.patch_transactions_id_processed H.
Qed.

Lemma backend_adjustment_keeps auth body s r s' :
  Backend.adjustment auth body s = (r, s') -> P s -> P s'.
Proof. intros H Hs. by_cases_of Backend.adjustment H. Qed.

Lemma backend_purchase_keeps now auth body s r s' :
  Backend.purchase now auth body s = (r, s') -> P s -> P s'.
Proof. intros H Hs. by_cases_of Backend.purchase H. Qed.

Lemma backend_award_keeps auth eventId type utorid amount remark s r s' :
  Backend.post_events_id_transactions auth eventId type utorid amount
    remark s = (r, s') ->
  P s -> P s'.
Proof.
  intros H Hs. by_cases_of Backend.post_events_id_transactions H.
Qed.

Hypothesis P_post_events :
  forall auth name description location startTime endTime capacity points
         s r s',
    Shared.post_events auth name description location startTime endTime
      capacity points s = (r, s') ->
    P s -> P s'.
Hypothesis P_part003_patch :
  forall now auth id body s r s',
    Part003.patch_events_id now auth id body s = (r, s') -> P s -> P s'.
Hypothesis P_backend_patch :
  forall now auth id body s r s',
    Backend.patch_events_id now auth id body s = (r, s') -> P s -> P s'.

Lemma part003_post_transactions_keeps now auth body s r s' :
  Part003.post_transactions now auth body s = (r, s') -> P s -> P s'.
Proof.
  unfold Part003.post_transactions. intros H Hs.
  destruct (String.eqb (tb_type body) "purchase");
    [eapply part003_purchase_keeps; eassumption|].
  destruct (String.eqb (tb_type body) "adjustment");
    [eapply part003_adjustment_keeps; eassumption|].
  unfold reply in H. simplify_eq. assumption.
Qed.

Lemma backend_post_transactions_keeps now auth body s r s' :
  Backend.post_transactions now auth body s = (r, s') -> P s -> P s'.
Proof.
  unfold Backend.post_transactions. intros H Hs.
  destruct (String.eqb (tb_type body) "purchase");
    [eapply backend_purchase_keeps; eassumption|].
  destruct (String.eqb (tb_type body) "adjustment");
    [eapply backend_adjustment_keeps; eassumption|].
  unfold reply in H. simplify_eq. assumption.
Qed.

Lemma part003_handle_keeps q s : P s -> P (snd (Part003.handle q s)).
Proof.
  intros Hs.
  destruct (Part003.handle q s) as [r s'] eqn:H. simpl.
  destruct q; simpl in H;
    first
      [ eapply P_post_events; eassumption
      | eapply P_part003_patch; eassumption
      | eapply part003_award_keeps; eassumption
      | eapply part003_post_transactions_keeps; eassumption
      | eapply (toggle_keeps P); eassumption
      | eapply part003_redemption_keeps; eassumption
      | eapply part003_processed_keeps; eassumption
      | eapply (transfer_keeps P); eassumption ].
Qed.

Lemma backend_handle_keeps q s : P s -> P (snd (Backend.handle q s)).
Proof.
  intros Hs.
  destruct (Backend.handle q s) as [r s'] eqn:H. simpl.
  destruct q; simpl in H;
    first
      [ eapply P_post_events; eassumption
      | eapply P_backend_patch; eassumption
      | eapply backend_award_keeps; eassumption
      | eapply backend_post_transactions_keeps; eassumption
      | eapply (toggle_keeps P); eassumption
      | eapply backend_redemption_keeps; eassumption
      | eapply backend_processed_keeps; eassumption
      | eapply (transfer_keeps P); eassumption ].
Qed.

Lemma part003_run_keeps qs s : P s -> P (Part003.run qs s).
Proof.
  unfold Part003.run. revert s.
  induction qs as [|q qs IH]; intros s Hs; simpl; [assumption|].
  apply IH, part003_handle_keeps, Hs.
Qed.


Lemma part003_trace_keeps qs s :
  P s -> Forall P (trace Part003.handle qs s).
Proof.
  revert s. induction qs as [|q qs IH]; intros s Hs; simpl.
  - constructor.
  - constructor; [|apply IH]; apply part003_handle_keeps, Hs.
Qed.

End Handlers_keep.

(** ** The point budget of an event *)

Lemma budget_ok_stable : stable budget_ok.
Proof. repeat split; intros f s H; exact H. Qed.

Lemma budget_ok_insert s id e n :
  budget_ok s -> budget_balanced e ->
  budget_ok (set_events <[id := e]> n s).
Proof.
  intros Hs He id' e'. simpl. rewrite lookup_insert.
  case_decide; [intros [= <-]; exact He | apply Hs].
Qed.

Lemma budget_ok_upsert userId pid now :
  tx_preserves budget_ok (userPromotionUsage_upsert userId pid now).
Proof.
  intros s a s' H. unfold userPromotionUsage_upsert in H. simplify_eq.
  intros Hs. apply Hs.
Qed.

Lemma budget_ok_spend id n :
  tx_preserves budget_ok (event_update_budget id n).
Proof.
  intros s a s' H Hs. unfold event_update_budget in H.
  destruct (events s !! id) as [e|] eqn:He; [|discriminate].
  simplify_eq. apply budget_ok_insert; [assumption|].
  specialize (Hs _ _ He). unfold budget_balanced in *. simpl. lia.
Qed.

Lemma budget_ok_post_events auth name description location startTime endTime
    capacity points s r s' :
  Shared.post_events auth name description location startTime endTime
    capacity points s = (r, s') ->
  budget_ok s -> budget_ok s'.
Proof.
  intros H Hs. unfold Shared.post_events, reply, event_create in H.
  repeat case_match; simplify_eq/=; try assumption;
    (apply budget_ok_insert; [assumption|]);
    unfold budget_balanced; simpl; lia.
Qed.

Lemma apply_data_balanced e d :
  budget_balanced e -> points_moved e d -> budget_balanced (apply_data d e).
Proof.
  unfold budget_balanced, apply_data.
  intros He [[Ht Hr]|(n & Ht & Hr)]; simpl; rewrite Ht, Hr; simpl; lia.
Qed.

Lemma budget_ok_event_update id d s a s' e :
  events s !! id = Some e -> points_moved e d ->
  event_update id d s = Some (a, s') ->
  budget_ok s -> budget_ok s'.
Proof.
  intros He Hd H Hs. unfold event_update in H. rewrite He in H.
  destruct (data_is_valid d); [|discriminate].
  simplify_eq. apply budget_ok_insert; [assumption|].
  apply apply_data_balanced; [apply (Hs _ _ He) | assumption].
Qed.

Lemma and_then_Go x k d :
  and_then x k = Go d -> exists d0, x = Go d0 /\ k d0 = Go d.
Proof. destruct x as [st|d0]; simpl; [discriminate|eauto]. Qed.

Ltac step_keeps_no_points :=
  intros H [Ht Hr]; unfold no_points;
  repeat case_match; simplify_eq/=; auto.

Lemma part003_patch_published_no_points isM body d d' :
  Part003.patch_published isM body d = Go d' -> no_points d -> no_points d'.
Proof. unfold Part003.patch_published. step_keeps_no_points. Qed.

Lemma part003_patch_name_no_points afterStart raw d d' :
  Part003.patch_text afterStart raw with_name d = Go d' ->
  no_points d -> no_points d'.
Proof. unfold Part003.patch_text. step_keeps_no_points. Qed.

Lemma part003_patch_description_no_points afterStart raw d d' :
  Part003.patch_text afterStart raw with_description d = Go d' ->
  no_points d -> no_points d'.
Proof. unfold Part003.patch_text. step_keeps_no_points. Qed.

Lemma part003_patch_location_no_points afterStart raw d d' :
  Part003.patch_text afterStart raw with_location d = Go d' ->
  no_points d -> no_points d'.
Proof. unfold Part003.patch_text. step_keeps_no_points. Qed.

Lemma part003_patch_startTime_no_points now afterStart body d d' :
  Part003.patch_startTime now afterStart body d = Go d' ->
  no_points d -> no_points d'.
Proof. unfold Part003.patch_startTime. step_keeps_no_points. Qed.

Lemma part003_patch_endTime_no_points afterEnd e body d d' :
  Part003.patch_endTime afterEnd e body d = Go d' ->
  no_points d -> no_points d'.
Proof. unfold Part003.patch_endTime. step_keeps_no_points. Qed.

Lemma part003_patch_capacity_no_points afterStart numGuests e body d d' :
  Part003.patch_capacity afterStart numGuests e body d = Go d' ->
  no_points d -> no_points d'.
Proof. unfold Part003.patch_capacity. step_keeps_no_points. Qed.

Lemma part003_patch_points_moved isM e body d d' :
  Part003.patch_points isM e body d = Go d' ->
  no_points d -> points_moved e d'.
Proof.
  unfold Part003.patch_points, points_moved, no_points.
  intros H [Ht Hr].
  repeat case_match; simplify_eq/=; eauto.
Qed.

Lemma budget_ok_part003_patch now auth id body s r s' :
  Part003.patch_events_id now auth id body s = (r, s') ->
  budget_ok s -> budget_ok s'.
Proof.
  intros H Hs. unfold Part003.patch_events_id, reply in H.
  destruct (events s !! id) as [e|] eqn:He; [|simplify_eq; assumption].
  destruct (negb (isManager auth) && negb (isOrganizer s id auth));
    [simplify_eq; assumption|].
  match type of H with
  | match ?steps with _ => _ end = _ => destruct steps as [st|data] eqn:Hsteps
  end; [simplify_eq; assumption|].
  destruct (data_is_empty data); [simplify_eq; assumption|].
  destruct (event_update id data s) as [[a s1]|] eqn:Hup;
    [|simplify_eq; assumption].
  simplify_eq.
  apply (budget_ok_event_update _ _ _ _ _ _ He) in Hup; [assumption| |assumption].
  apply and_then_Go in Hsteps as (d1 & H1 & Hsteps).
  apply and_then_Go in Hsteps as (d2 & H2 & Hsteps).
  apply and_then_Go in Hsteps as (d3 & H3 & Hsteps).
  apply and_then_Go in Hsteps as (d4 & H4 & Hsteps).
  apply and_then_Go in Hsteps as (d5 & H5 & Hsteps).
  apply and_then_Go in Hsteps as (d6 & H6 & Hsteps).
  apply and_then_Go in Hsteps as (d7 & H7 & Hsteps).
  eapply part003_patch_points_moved; [exact Hsteps|].
  eapply part003_patch_capacity_no_points; [exact H7|].
  eapply part003_patch_endTime_no_points; [exact H6|].
  eapply part003_patch_startTime_no_points; [exact H5|].
  eapply part003_patch_location_no_points; [exact H4|].
  eapply part003_patch_description_no_points; [exact H3|].
  eapply part003_patch_name_no_points; [exact H2|].
  eapply part003_patch_published_no_points; [exact H1|].
  split; reflexivity.
Qed.

Lemma part003_budget_ok_handle q s :
  budget_ok s -> budget_ok (snd (Part003.handle q s)).
Proof.
  apply (part003_handle_keeps budget_ok budget_ok_stable
           budget_ok_spend budget_ok_post_events budget_ok_part003_patch).
Qed.

Lemma part003_budget_ok_trace qs s :
  budget_ok s -> Forall budget_ok (trace Part003.handle qs s).
Proof.
  apply (part003_trace_keeps budget_ok budget_ok_stable
           budget_ok_spend budget_ok_post_events budget_ok_part003_patch).
Qed.

Lemma part003_award_one_over_budget auth eventId utorid a remark s e uid u :
  num_le a 0 = false ->
  events s !! eventId = Some e ->
  isManager auth || isOrganizer s eventId auth = true ->
  utorid <> ""%string ->
  find_user_by_utorid s utorid = Some (uid, u) ->
  (eventId, uid) ∈ eventGuests s ->
  e_pointsRemain e < ceilInt a ->
  Part003.post_events_id_transactions auth eventId utorid false (Some a)
    remark s = reply BadRequest s.
Proof.
  intros Hpos He Hauth Hname Hu Hguest Hover.
  unfold Part003.post_events_id_transactions.
  rewrite Hpos, He.
  replace (negb (isManager auth) && negb (isOrganizer s eventId auth))
    with false by (rewrite <- negb_orb, Hauth; reflexivity).
  apply String.eqb_neq in Hname. rewrite Hname, Hu.
  rewrite bool_decide_eq_true_2 by assumption. simpl.
  apply Z.ltb_lt in Hover. rewrite Hover. reflexivity.
Qed.

Lemma part003_award_all_over_budget auth eventId utorid a remark s e :
  num_le a 0 = false ->
  events s !! eventId = Some e ->
  isManager auth || isOrganizer s eventId auth = true ->
  e_pointsRemain e < ceilInt a * Z.of_nat (length (guests_of s eventId)) ->
  Part003.post_events_id_transactions auth eventId utorid true (Some a)
    remark s = reply BadRequest s.
Proof.
  intros Hpos He Hauth Hover.
  unfold Part003.post_events_id_transactions.
  rewrite Hpos, He.
  replace (negb (isManager auth) && negb (isOrganizer s eventId auth))
    with false by (rewrite <- negb_orb, Hauth; reflexivity).
  simpl. apply Z.ltb_lt in Hover. rewrite Hover. reflexivity.
Qed.

(** C2.  In part_003, through every sequence of requests (event creation,
    points update, single-guest and all-guests awards, and the other ledger
    requests), every event keeps [pointsRemain + pointsAwarded =
    pointsTotal] after each request.  An award by a manager or organizer
    whose required total (the amount for one guest; the amount times the
    number of guests for all guests) exceeds [pointsRemain] is answered 400
    with the store as it was. *)
Theorem event_budget_is_conserved :
  (forall qs s, budget_ok s -> Forall budget_ok (trace Part003.handle qs s))
  /\ (forall auth eventId utorid a remark s e uid u,
        num_le a 0 = false ->
        events s !! eventId = Some e ->
        isManager auth || isOrganizer s eventId auth = true ->
        utorid <> ""%string ->
        find_user_by_utorid s utorid = Some (uid, u) ->
        (eventId, uid) ∈ eventGuests s ->
        e_pointsRemain e < ceilInt a ->
        Part003.post_events_id_transactions auth eventId utorid false
          (Some a) remark s = reply BadRequest s)
  /\ (forall auth eventId utorid a remark s e,
        num_le a 0 = false ->
        events s !! eventId = Some e ->
        isManager auth || isOrganizer s eventId auth = true ->
        e_pointsRemain e
        < ceilInt a * Z.of_nat (length (guests_of s eventId)) ->
        Part003.post_events_id_transactions auth eventId utorid true
          (Some a) remark s = reply BadRequest s).
Proof.
  split; [|split].
  - apply part003_budget_ok_trace.
  - apply part003_award_one_over_budget.
  - apply part003_award_all_over_budget.
Qed.

Lemma budget_ok_demo : budget_ok demo.
Proof.
  intros id e H. unfold demo, demo_events in H. simpl in H.
  apply lookup_insert_Some in H as [[_ <-]|[_ H]]; [reflexivity|].
  rewrite lookup_empty in H. discriminate.
Qed.

Lemma event_budget_is_conserved_witness :
  Forall budget_ok (trace Part003.handle budget_requests demo)
  /\ (let s := Part003.run budget_requests demo in
      events s !! 1
      = Some (mkEvent "meetup" "a meetup" "BA1130" 10 20 None false 100 65 35)
      /\ events s !! 2
         = Some (mkEvent "gala" "a gala" "hall" 30 40 None false 80 80 0)
      /\ Part003.post_events_id_transactions alice 1 "bob00001" false
           (Some (66 # 1)) "" s = reply BadRequest s
      /\ Part003.post_events_id_transactions alice 1 "" true
           (Some (33 # 1)) "" s = reply BadRequest s).
Proof.
  destruct event_budget_is_conserved as (Htrace & Hone & Hall).
  split; [apply Htrace, budget_ok_demo|].
  intros s.
  assert (He : events s !! 1
               = Some (mkEvent "meetup" "a meetup" "BA1130" 10 20 None false
                         100 65 35)) by (vm_compute; reflexivity).
  split; [exact He|]. split; [vm_compute; reflexivity|]. split.
  - eapply (Hone alice 1 "bob00001"%string (66 # 1)%Q ""%string s _ 3
              (mkUser "bob00001" regular 35 true false));
      [reflexivity | exact He | reflexivity | discriminate
      | vm_compute; reflexivity
      | apply (bool_decide_unpack _); vm_compute; exact I
      | vm_compute; reflexivity ].
  - eapply (Hall alice 1 ""%string (33 # 1)%Q ""%string s _);
      [reflexivity | exact He | reflexivity | vm_compute; reflexivity ].
Defined.

(** ** What a purchase writes *)

Lemma tx_bind_Some {A B} (c : Tx A) (k : A -> Tx B) s b s' :
  tx_bind c k s = Some (b, s') ->
  exists a s1, c s = Some (a, s1) /\ k a s1 = Some (b, s').
Proof.
  unfold tx_bind. destruct (c s) as [[a s1]|]; [eauto|discriminate].
Qed.

Lemma linked_kept txId pid txId' pid' :
  tx_preserves (linked txId pid) (transactionPromotion_create txId' pid').
Proof.
  intros s a s' H Hs. unfold transactionPromotion_create in H.
  case_bool_decide; [discriminate|]. simplify_eq.
  unfold linked in *. simpl. set_solver.
Qed.

Lemma linked_created txId pid s a s' :
  transactionPromotion_create txId pid s = Some (a, s') -> linked txId pid s'.
Proof.
  unfold transactionPromotion_create. intros H.
  case_bool_decide; [discriminate|]. simplify_eq.
  unfold linked. simpl. set_solver.
Qed.

Lemma used_at_kept userId pid now userId' pid' :
  tx_preserves (used_at userId pid now)
    (userPromotionUsage_upsert userId' pid' now).
Proof.
  intros s a s' H Hs. unfold userPromotionUsage_upsert in H. simplify_eq.
  unfold used_at in *. simpl. rewrite lookup_insert.
  case_decide; [reflexivity|assumption].
Qed.

Lemma used_at_upserted userId pid now s a s' :
  userPromotionUsage_upsert userId pid now s = Some (a, s') ->
  used_at userId pid now s'.
Proof.
  unfold userPromotionUsage_upsert. intros H. simplify_eq.
  unfold used_at. simpl. apply lookup_insert_eq.
Qed.


(** The loop that links the promotions of a purchase to its row. *)
Lemma link_loop_links tx (ps : list (Z * Promotion)) s a s' :
  tx_for ps (fun p => transactionPromotion_create tx (fst p)) s
  = Some (a, s') ->
  forall p, In p ps -> linked tx (fst p) s'.
Proof.
  revert s. induction ps as [|p0 ps IH]; intros s H p Hin; [destruct Hin|].
  simpl in H. apply tx_bind_Some in H as (u & s1 & H1 & H2).
  destruct Hin as [<-|Hin]; [|eapply IH; eassumption].
  assert (Hk : tx_preserves (linked tx (fst p0))
                 (tx_for ps (fun p => transactionPromotion_create tx (fst p)))).
  { apply tx_preserves_for. intros x. apply linked_kept. }
  eapply Hk; [exact H2|]. eapply linked_created, H1.
Qed.

(** The loop that marks the chosen one-time promotions used. *)
Lemma mark_loop_marks userId now (ps : list (Z * Promotion)) s a s' :
  tx_for ps (fun p =>
    if is_onetime (snd p)
    then userPromotionUsage_upsert userId (fst p) now
    else tx_ret tt) s = Some (a, s') ->
  forall p, In p ps -> is_onetime (snd p) = true ->
            used_at userId (fst p) now s'.
Proof.
  revert s. induction ps as [|p0 ps IH]; intros s H p Hin Hp; [destruct Hin|].
  simpl in H. apply tx_bind_Some in H as (u & s1 & H1 & H2).
  destruct Hin as [<-|Hin]; [|eapply IH; eassumption].
  rewrite Hp in H1.
  assert (Hk : tx_preserves (used_at userId (fst p0) now)
                 (tx_for ps (fun p =>
                    if is_onetime (snd p)
                    then userPromotionUsage_upsert userId (fst p) now
                    else tx_ret tt))).
  { apply tx_preserves_for. intros x. apply tx_preserves_if.
    - apply used_at_kept.
    - apply tx_preserves_ret. }
  eapply Hk; [exact H2|]. eapply used_at_upserted, H1.
Qed.

(** The loop of part_003, which does both. *)
Lemma part003_loop_links_and_marks tx userId now (ps : list (Z * Promotion))
    s a s' :
  tx_for ps (fun p =>
    transactionPromotion_create tx (fst p) ;;;
    if is_onetime (snd p)
    then userPromotionUsage_upsert userId (fst p) now
    else tx_ret tt) s = Some (a, s') ->
  forall p, In p ps ->
            linked tx (fst p) s'
            /\ (is_onetime (snd p) = true -> used_at userId (fst p) now s').
Proof.
  revert s. induction ps as [|p0 ps IH]; intros s H p Hin; [destruct Hin|].
  simpl in H. apply tx_bind_Some in H as (u & s1 & H1 & H2).
  destruct Hin as [<-|Hin]; [|eapply IH; eassumption].
  apply tx_bind_Some in H1 as (u' & s0 & Hlink & Hmark).
  assert (Hk : forall Q : Store -> Prop,
             ignores set_transactionPromotions Q \/ Q = linked tx (fst p0) ->
             ignores set_userPromotionUsage Q
             \/ Q = used_at userId (fst p0) now ->
             tx_preserves Q
               (tx_for ps (fun p =>
                  transactionPromotion_create tx (fst p) ;;;
                  if is_onetime (snd p)
                  then userPromotionUsage_upsert userId (fst p) now
                  else tx_ret tt))).
  { intros Q HQ1 HQ2. apply tx_preserves_for. intros x.
    apply tx_preserves_bind; [|intros _; apply tx_preserves_if].
    - destruct HQ1 as [HQ1| ->];
        [apply frame_transactionPromotion_create, HQ1|apply linked_kept].
    - destruct HQ2 as [HQ2| ->];
        [apply frame_userPromotionUsage_upsert, HQ2|apply used_at_kept].
    - apply tx_preserves_ret. }
  split.
  - eapply (Hk (linked tx (fst p0))); [right; reflexivity| |exact H2|].
    + left. intros f st Hst. exact Hst.
    + assert (Hm : tx_preserves (linked tx (fst p0))
                     (if is_onetime (snd p0)
                      then userPromotionUsage_upsert userId (fst p0) now
                      else tx_ret tt)).
      { apply tx_preserves_if;
          [apply frame_userPromotionUsage_upsert; intros f st Hst; exact Hst
          |apply tx_preserves_ret]. }
      eapply Hm; [exact Hmark|]. eapply linked_created, Hlink.
  - intros Hp. rewrite Hp in Hmark.
    eapply (Hk (used_at userId (fst p0) now)); [|right; reflexivity|exact H2|].
    + left. intros f st Hst. exact Hst.
    + eapply used_at_upserted, Hmark.
Qed.

Lemma find_user_by_utorid_lookup s name uid u :
  find_user_by_utorid s name = Some (uid, u) -> users s !! uid = Some u.
Proof.
  unfold find_user_by_utorid. intros H.
  apply List.find_some in H as [Hin _].
  apply list_elem_of_In, elem_of_map_to_list in Hin. exact Hin.
Qed.

Lemma onetime_of_is_onetime active p :
  In p (onetime_of active) -> is_onetime (snd p) = true.
Proof. unfold onetime_of. intros H. apply filter_In in H as [_ H]. exact H. Qed.

(** What the loop over [promotionIds] lets through: each id names the
    promotion of [oneTime] with that id, which the user has not used yet. *)
Lemma chooseOneTime_chosen s userId oneTime ids chosen :
  chooseOneTime s userId oneTime ids = Some chosen ->
  Forall2 (fun id p =>
             id = Some (fst p)
             /\ List.find (fun r => fst r =? fst p) oneTime = Some p
             /\ usedSet_has s userId (fst p) = false)
    ids chosen.
Proof.
  revert chosen. induction ids as [|[pid|] ids IH]; intros chosen H;
    simpl in H; [simplify_eq; constructor| |discriminate].
  destruct (pid <=? 0); [discriminate|].
  destruct (List.find (fun r => fst r =? pid) oneTime) as [p|] eqn:Hfind;
    [|discriminate].
  destruct (usedSet_has s userId pid) eqn:Hused; [discriminate|].
  destruct (chooseOneTime s userId oneTime ids) as [ps|]; [|discriminate].
  simplify_eq. pose proof (List.find_some _ _ Hfind) as [_ Hid].
  apply Z.eqb_eq in Hid. subst pid.
  constructor; [auto|]. apply IH. reflexivity.
Qed.

Lemma chooseOneTime_In_chosen s userId oneTime ids chosen p :
  chooseOneTime s userId oneTime ids = Some chosen ->
  In p chosen ->
  List.find (fun r => fst r =? fst p) oneTime = Some p
  /\ In (Some (fst p)) ids.
Proof.
  intros H Hin. apply chooseOneTime_chosen in H.
  induction H as [|id q ids chosen (Hid & Hq & _) _ IH]; [destruct Hin|].
  destruct Hin as [<-|Hin].
  - split; [exact Hq|]. left. exact Hid.
  - destruct (IH Hin) as [H1 H2]. split; [exact H1|]. right. exact H2.
Qed.


(** A promotion that the user has used is turned down by the loop. *)
Lemma chooseOneTime_used s userId oneTime ids pid :
  usedSet_has s userId pid = true ->
  In (Some pid) ids ->
  chooseOneTime s userId oneTime ids = None.
Proof.
  intros Hused Hin.
  destruct (chooseOneTime s userId oneTime ids) as [chosen|] eqn:H;
    [|reflexivity].
  apply chooseOneTime_chosen in H. exfalso.
  induction H as [|id q ids chosen (Hid & _ & Hfree) _ IH]; [destruct Hin|].
  destruct Hin as [->|Hin]; [|auto].
  injection Hid as ->. congruence.
Qed.

(** The promotions a purchase looks at are rows of the promotion table. *)
Lemma active_promotions_lookup s now pid p :
  In (pid, p) (active_promotions s now) <->
  promotions s !! pid = Some p /\ isActivePromo now p = true.
Proof.
  unfold active_promotions. rewrite filter_In. simpl.
  rewrite <- list_elem_of_In, elem_of_map_to_list. reflexivity.
Qed.

Lemma automatic_of_lookup s now pid p :
  In (pid, p) (automatic_of (active_promotions s now)) <->
  promotions s !! pid = Some p /\ isActivePromo now p = true
  /\ p_type p = "automatic"%string.
Proof.
  unfold automatic_of. rewrite filter_In, active_promotions_lookup. simpl.
  rewrite String.eqb_eq. tauto.
Qed.

Lemma onetime_of_lookup s now pid p :
  In (pid, p) (onetime_of (active_promotions s now)) <->
  promotions s !! pid = Some p /\ isActivePromo now p = true
  /\ p_type p = "onetime"%string.
Proof.
  unfold onetime_of. rewrite filter_In, active_promotions_lookup. simpl.
  rewrite String.eqb_eq. tauto.
Qed.

Lemma chooseOneTime_onetime s userId active ids chosen p :
  chooseOneTime s userId (onetime_of active) ids = Some chosen ->
  In p chosen -> is_onetime (snd p) = true.
Proof.
  intros H Hin. apply (chooseOneTime_In_chosen _ _ _ _ _ _ H) in Hin as [Hq _].
  apply List.find_some in Hq as [Hq _].
  eapply onetime_of_is_onetime, Hq.
Qed.

(** A purchase that the second listing answers 201: the row it writes and
    what else it leaves in the store. *)
Lemma backend_purchase_Created now auth body s r s' :
  Backend.purchase now auth body s = (r, s') ->
  status r = Created ->
  exists spent uid u chosen,
    tb_spent body = Some spent
    /\ find_user_by_utorid s (tb_utorid body) = Some (uid, u)
    /\ chooseOneTime s uid (onetime_of (active_promotions s now))
         (tb_promotionIds body) = Some chosen
    /\ let automatic := automatic_of (active_promotions s now) in
       let earned := Backend.earned_points spent automatic chosen in
       let eff := Backend.effectiveSuspicious auth body s in
       let t := mkTransaction uid "purchase" earned (Some spent) None
                  (tb_remark body) (Some eff) None (a_id auth)
                  (Some (a_id auth)) in
       let tx := Z.of_nat (length (transactions s)) + 1 in
       json r = Some t
       /\ transactions s' = transactions s ++ [t]
       /\ users s'
          = (if negb eff && negb (earned =? 0)
             then <[uid := increment_points earned u]> (users s)
             else users s)
       /\ (forall p, In p (automatic ++ chosen) -> linked tx (fst p) s')
       /\ (forall p, In p chosen -> used_at uid (fst p) now s')
       /\ events s' = events s.
Proof.
  intros H Hst. unfold Backend.purchase, reply in H.
  destruct (ORDER (a_role auth) <? ORDER cashier); [by simplify_eq/=|].
  destruct (tb_spent body) as [spent|]; [|by simplify_eq/=].
  destruct (String.eqb (tb_utorid body) ""); [by simplify_eq/=|].
  destruct (num_lt spent 0); [by simplify_eq/=|].
  destruct (find_user_by_utorid s (tb_utorid body)) as [[uid u]|] eqn:Hu;
    [|by simplify_eq/=].
  destruct (chooseOneTime s uid (onetime_of (active_promotions s now))
              (tb_promotionIds body)) as [chosen|] eqn:Hch;
    [|by simplify_eq/=].
  match type of H with
  | match ?w with _ => _ end = _ => destruct w as [[a0 s0]|] eqn:Hw
  end; [|by simplify_eq/=].
  simplify_eq.
  exists spent, uid, u, chosen.
  split; [reflexivity|]. split; [first [reflexivity|assumption]|].
  split; [first [reflexivity|assumption]|].
  simpl.
  apply tx_bind_Some in Hw as (tx & s1 & H1 & Hw).
  unfold transaction_create in H1. cbn [t_earned] in H1. simplify_eq.
  split; [reflexivity|].
  match type of Hw with
  | ?k _ = Some _ =>
      assert (Hkeep : forall Q : Store -> Prop,
                 ignores set_transactionPromotions Q ->
                 ignores set_userPromotionUsage Q ->
                 ignores set_users Q -> tx_preserves Q k)
        by (intros Q ? ? ?; tx_auto)
  end.
  split; [|split; [|split; [|split]]].
  - eapply (Hkeep (fun st => transactions st = _)); try exact Hw;
      try (intros ? ? E; exact E). reflexivity.
  - apply tx_bind_Some in Hw as (a1 & s2 & H2 & Hw).
    apply tx_bind_Some in Hw as (a2 & s3 & H3 & Hw).
    assert (Hsame : users s3 = users s).
    { assert (E2 : users s2 = users s).
      { revert H2. match goal with |- ?c _ = _ -> _ =>
          cut (tx_preserves (fun st => users st = users s) c) end;
          [intros Hc E; eapply Hc; [exact E|reflexivity]|tx_auto]. }
      revert H3. match goal with |- ?c _ = _ -> _ =>
          cut (tx_preserves (fun st => users st = users s) c) end;
          [intros Hc E; eapply Hc; [exact E|exact E2]|tx_auto]. }
    destruct (negb _ && negb _); [|unfold tx_ret in Hw; simplify_eq; exact Hsame].
    unfold user_update_points in Hw. rewrite Hsame in Hw.
    rewrite (find_user_by_utorid_lookup _ _ _ _ Hu) in Hw.
    simplify_eq. simpl. rewrite Hsame. reflexivity.
  - intros p Hp.
    apply tx_bind_Some in Hw as (a1 & s2 & H2 & Hw).
    assert (Hl : linked (Z.of_nat (length (transactions s)) + 1) (fst p) s2)
      by (eapply link_loop_links; eassumption).
    revert Hw. match goal with |- ?c _ = _ -> _ =>
      cut (tx_preserves (linked (Z.of_nat (length (transactions s)) + 1)
                           (fst p)) c) end;
      [intros Hc E; eapply Hc; [exact E|exact Hl]|tx_auto].
  - intros p Hp.
    apply tx_bind_Some in Hw as (a1 & s2 & H2 & Hw).
    apply tx_bind_Some in Hw as (a2 & s3 & H3 & Hw).
    assert (Hm : used_at uid (fst p) now s3).
    { eapply mark_loop_marks; [exact H3|exact Hp|].
      eapply chooseOneTime_onetime; eassumption. }
    revert Hw. match goal with |- ?c _ = _ -> _ =>
      cut (tx_preserves (used_at uid (fst p) now) c) end;
      [intros Hc E; eapply Hc; [exact E|exact Hm]|tx_auto].
  - eapply (Hkeep (fun st => events st = _)); try exact Hw;
      try (intros ? ? E; exact E). reflexivity.
Qed.

(** ** The earned points *)

(** A loop turn that a filter would drop adds nothing: the loop over the
    list and over the filtered list end on the same sum. *)
Lemma fold_left_skip {A} (f : Z -> A -> Z) (keep : A -> bool) (ps : list A)
    (extra : Z) :
  (forall x, In x ps -> keep x = false -> forall e, f e x = e) ->
  List.fold_left f ps extra = List.fold_left f (List.filter keep ps) extra.
Proof.
  revert extra. induction ps as [|p ps IH]; intros extra Hskip; [reflexivity|].
  simpl. destruct (keep p) eqn:Hk; simpl.
  - apply IH. intros x Hx. apply Hskip. right. exact Hx.
  - rewrite (Hskip p (or_introl eq_refl) Hk). apply IH.
    intros x Hx. apply Hskip. right. exact Hx.
Qed.


Lemma part003_add_bonus_skipped base spent extra p :
  below_minSpending spent (snd p) = true ->
  Part003.add_bonus base spent extra p = extra.
Proof. unfold Part003.add_bonus. intros ->. reflexivity. Qed.

Lemma backend_add_bonus_spec spent extra p :
  Backend.add_bonus spent extra p
  = extra + (if spec_skipped spent (snd p) then 0
             else double_bonus spent (snd p)).
Proof.
  unfold Backend.add_bonus, double_bonus, spec_skipped, below_minSpending.
  destruct (p_minSpending (snd p)) as [m|];
    [destruct (num_lt spent m); [lia|]|];
    destruct (p_rate (snd p)), (p_points (snd p)); lia.
Qed.

Lemma backend_bonus_sum spent (ps : list (Z * Promotion)) extra :
  List.fold_left (Backend.add_bonus spent) ps extra
  = extra
    + List.fold_right Z.add 0
        (List.map (double_bonus spent)
           (List.filter (fun p => negb (spec_skipped spent p))
              (List.map snd ps))).
Proof.
  revert extra. induction ps as [|p ps IH]; intros extra; simpl; [lia|].
  rewrite IH, backend_add_bonus_spec.
  destruct (spec_skipped spent (snd p)); simpl; lia.
Qed.

(** The loops of the second listing compute the sum of section 4.2 with
    the products taken in doubles. *)
Lemma backend_earned_is_double_earned spent automatic chosenOneTime :
  Backend.earned_points spent automatic chosenOneTime
  = double_earned spent (List.map snd (automatic ++ chosenOneTime)).
Proof.
  unfold Backend.earned_points, double_earned, basePoints.
  rewrite !backend_bonus_sum.
  rewrite List.map_app, List.filter_app, List.map_app, fold_right_app.
  set (g := List.fold_right Z.add).
  assert (Hg : forall l a, g a l = a + g 0 l).
  { induction l as [|x l IHl]; intros a; simpl; [lia|].
    rewrite (IHl a). lia. }
  rewrite (Hg _ (g 0 _)). lia.
Qed.

Lemma Math_round_comp (x y : Q) : (x == y)%Q -> Math_round x = Math_round y.
Proof. intros H. unfold Math_round. apply Qfloor_comp. rewrite H. reflexivity. Qed.

(** Where every product comes out exact, the sum is the one of section
    4.2. *)
Lemma double_earned_exact spend applicable :
  (forall p rate,
     In p applicable -> spec_skipped spend p = false ->
     p_rate p = Some rate -> exact_product spend rate) ->
  double_earned spend applicable = spec_earned spend applicable.
Proof.
  intros Hexact. unfold double_earned, spec_earned. do 2 f_equal.
  apply List.map_ext_in. intros p Hp.
  apply List.filter_In in Hp as [Hp Hskip]. apply negb_true_iff in Hskip.
  unfold double_bonus, spec_bonus. f_equal.
  destruct (p_rate p) as [rate|] eqn:Hrate; [|reflexivity].
  apply Math_round_comp, (Hexact p rate Hp Hskip Hrate).
Qed.

Lemma find_transaction_last l s t :
  transactions s = l ++ [t] ->
  find_transaction s (Z.of_nat (length l) + 1) = Some t.
Proof.
  intros E. unfold find_transaction.
  destruct (Z.of_nat (length l) + 1 <=? 0) eqn:H;
    [apply Z.leb_le in H; lia|].
  replace (Z.to_nat (Z.of_nat (length l) + 1 - 1)) with (length l) by lia.
  rewrite E. apply list_lookup_middle. reflexivity.
Qed.

Lemma insert_last {A} (l : list A) (t x : A) :
  <[length l := x]> (l ++ [t]) = l ++ [x].
Proof.
  rewrite insert_app_r_alt by lia.
  replace (length l - length l)%nat with 0%nat by lia. reflexivity.
Qed.

(** No purchase goes through in part_003.  Past the checks, the first
    statement of the transaction is the create whose data carries [earned]:
    it throws, the handler answers 500 and the store is as it was. *)
Lemma part003_purchase_fails now auth body s r s' :
  Part003.purchase now auth body s = (r, s') ->
  succeeded r = false /\ s' = s.
Proof.
  intros H. unfold Part003.purchase, reply, tx_bind, transaction_create in H.
  cbn [t_earned] in H.
  repeat case_match; simplify_eq/=; auto.
Qed.

(** ** A used promotion stays used *)

Lemma used_stable userId pid : stable (used userId pid).
Proof. repeat split; intros f s H; exact H. Qed.


Lemma used_spend userId pid id n :
  tx_preserves (used userId pid) (event_update_budget id n).
Proof. apply frame_event_update_budget. intros f k s H. exact H. Qed.

Lemma post_events_keeps P auth name description location startTime endTime
    capacity points s r s' :
  ignores_events P ->
  Shared.post_events auth name description location startTime endTime
    capacity points s = (r, s') ->
  P s -> P s'.
Proof.
  intros HP H Hs. unfold Shared.post_events, reply in H.
  repeat case_match; simplify_eq/=; try assumption;
    match goal with
    | Hw : event_create ?e ?s = Some (_, ?s') |- _ =>
        exact (frame_event_create P e HP _ _ _ Hw Hs)
    end.
Qed.

Lemma part003_patch_keeps P now auth id body s r s' :
  ignores_events P ->
  Part003.patch_events_id now auth id body s = (r, s') ->
  P s -> P s'.
Proof.
  intros HP H Hs. unfold Part003.patch_events_id, reply in H.
  repeat case_match; simplify_eq/=; try assumption;
    match goal with
    | Hw : event_update ?i ?d ?s = Some (_, ?s') |- _ =>
        exact (frame_event_update P i d HP _ _ _ Hw Hs)
    end.
Qed.

Lemma backend_patch_keeps P now auth id body s r s' :
  ignores_events P ->
  Backend.patch_events_id now auth id body s = (r, s') ->
  P s -> P s'.
Proof.
  intros HP H Hs. unfold Backend.patch_events_id, reply in H.
  repeat case_match; simplify_eq/=; try assumption;
    match goal with
    | Hw : event_update ?i ?d ?s = Some (_, ?s') |- _ =>
        exact (frame_event_update P i d HP _ _ _ Hw Hs)
    end.
Qed.

Lemma used_ignores_events userId pid : ignores_events (used userId pid).
Proof. intros f k s H. exact H. Qed.

Lemma part003_used_run userId pid qs s :
  used userId pid s -> used userId pid (Part003.run qs s).
Proof.
  apply (part003_run_keeps (used userId pid) (used_stable _ _)
           (used_spend _ _)).
  - intros. eapply post_events_keeps; eauto using used_ignores_events.
  - intros. eapply part003_patch_keeps; eauto using used_ignores_events.
Qed.


(** A purchase for a user that names a promotion the user has used is
    turned down, and writes nothing. *)
Lemma part003_purchase_used now auth body s uid u pid :
  used uid pid s ->
  find_user_by_utorid s (tb_utorid body) = Some (uid, u) ->
  In (Some pid) (tb_promotionIds body) ->
  succeeded (fst (Part003.purchase now auth body s)) = false
  /\ snd (Part003.purchase now auth body s) = s.
Proof.
  intros Hused Hu Hin. unfold Part003.purchase.
  rewrite Hu, (chooseOneTime_used _ _ _ _ _ Hused Hin).
  repeat case_match; split; reflexivity.
Qed.


(** The chosen promotion with a given id is the row of that id. *)
Lemma chosen_is_the_row s now uid ids chosen pid p q :
  chooseOneTime s uid (onetime_of (active_promotions s now)) ids
  = Some chosen ->
  promotions s !! pid = Some p ->
  In q chosen -> fst q = pid -> q = (pid, p).
Proof.
  intros Hch Hp Hq Hid.
  apply (chooseOneTime_In_chosen _ _ _ _ _ _ Hch) in Hq as [Hq _].
  apply List.find_some in Hq as [Hq _].
  destruct q as [pid' p']. simpl in Hid. subst pid'.
  apply onetime_of_lookup in Hq as (Hp' & _). congruence.
Qed.

(** ** A one-time promotion below its minimum spend *)

Lemma part003_earned_without spent automatic chosen s now uid ids pid p m :
  chooseOneTime s uid (onetime_of (active_promotions s now)) ids
  = Some chosen ->
  promotions s !! pid = Some p ->
  p_minSpending p = Some m -> num_lt spent m = true ->
  Part003.earned_points spent automatic chosen
  = Part003.earned_points spent automatic
      (List.filter (fun q => negb (fst q =? pid)) chosen).
Proof.
  intros Hch Hp Hm Hlt. unfold Part003.earned_points. f_equal.
  apply fold_left_skip. intros q Hq Hkeep e.
  apply negb_false_iff, Z.eqb_eq in Hkeep.
  rewrite (chosen_is_the_row _ _ _ _ _ _ _ _ Hch Hp Hq Hkeep).
  apply part003_add_bonus_skipped. unfold below_minSpending. simpl.
  rewrite Hm. exact Hlt.
Qed.





(** ** Suspicious purchases and adjustments in the second listing *)

Lemma backend_adjustment_Created auth body s r s' :
  Backend.adjustment auth body s = (r, s') ->
  status r = Created ->
  exists amount uid u,
    tb_amount body = Some amount
    /\ find_user_by_utorid s (tb_utorid body) = Some (uid, u)
    /\ let eff := Backend.effectiveSuspicious auth body s in
       let intAmount := Math_trunc amount in
       let t := mkTransaction uid "adjustment" intAmount None None
                  (tb_remark body) (Some eff) (tb_relatedId body)
                  (a_id auth) (Some (a_id auth)) in
       transactions s' = transactions s ++ [t]
       /\ users s'
          = (if negb eff && negb (intAmount =? 0)
             then <[uid := increment_points intAmount u]> (users s)
             else users s).
Proof.
  intros H Hst. unfold Backend.adjustment, reply in H.
  destruct (ORDER (a_role auth) <? ORDER manager); [by simplify_eq/=|].
  destruct (tb_amount body) as [amount|]; [|by simplify_eq/=].
  destruct (String.eqb (tb_utorid body) ""); [by simplify_eq/=|].
  destruct (find_user_by_utorid s (tb_utorid body)) as [[uid u]|] eqn:Hu;
    [|by simplify_eq/=].
  match type of H with
  | (if ?c then _ else _) = _ => destruct c
  end; [by simplify_eq/=|].
  match type of H with
  | match ?w with _ => _ end = _ => destruct w as [[a0 s0]|] eqn:Hw
  end; [|by simplify_eq/=].
  simplify_eq.
  exists amount, uid, u.
  split; [reflexivity|]. split; [first [reflexivity|assumption]|]. simpl.
  apply tx_bind_Some in Hw as (tx & s1 & H1 & Hw).
  unfold transaction_create in H1. cbn [t_earned] in H1. simplify_eq.
  apply tx_bind_Some in Hw as (a1 & s2 & H2 & Hw).
  unfold transaction_update in H2.
  erewrite find_transaction_last in H2 by reflexivity.
  simplify_eq.
  assert (Hidx : Z.to_nat (Z.of_nat (length (transactions s)) + 1 - 1)
                 = length (transactions s)) by lia.
  destruct (negb _ && negb _).
  - unfold user_update_points in Hw. simpl in Hw.
    rewrite (find_user_by_utorid_lookup _ _ _ _ Hu) in Hw.
    simplify_eq. simpl. rewrite Hidx, insert_last. split; reflexivity.
  - unfold tx_ret in Hw. simplify_eq. simpl.
    rewrite Hidx, insert_last. split; reflexivity.
Qed.

Lemma effectiveSuspicious_actor auth body s actor :
  users s !! a_id auth = Some actor -> u_suspicious actor = true ->
  Backend.effectiveSuspicious auth body s = true.
Proof. unfold Backend.effectiveSuspicious. intros -> ->. reflexivity. Qed.

(** C10.  In the second listing, a purchase or an adjustment created by an
    actor whose own user row is flagged suspicious is recorded with
    [suspicious = true] and moves no balance, whatever the body says about
    the flag. *)
Theorem suspicious_actor_taints_transaction now auth body s r s' actor :
  users s !! a_id auth = Some actor ->
  u_suspicious actor = true ->
  Backend.post_transactions now auth body s = (r, s') ->
  status r = Created ->
  exists t,
    transactions s' = transactions s ++ [t]
    /\ (t_type t = "purchase"%string \/ t_type t = "adjustment"%string)
    /\ t_createdById t = a_id auth
    /\ t_suspicious t = Some true
    /\ users s' = users s.
Proof.
  intros Ha Hsus H Hst. unfold Backend.post_transactions in H.
  pose proof (effectiveSuspicious_actor auth body s actor Ha Hsus) as Heff.
  destruct (String.eqb (tb_type body) "purchase").
  - destruct (backend_purchase_Created _ _ _ _ _ _ H Hst)
      as (spent & uid & u & chosen & _ & _ & _ & _ & Htx & Hus & _).
    rewrite Heff in Htx, Hus. simpl in Hus.
    eexists. split; [exact Htx|]. simpl. auto.
  - destruct (String.eqb (tb_type body) "adjustment");
      [|unfold reply in H; by simplify_eq/=].
    destruct (backend_adjustment_Created _ _ _ _ _ H Hst)
      as (amount & uid & u & _ & _ & Htx & Hus).
    rewrite Heff in Htx, Hus. simpl in Hus.
    eexists. split; [exact Htx|]. simpl. auto.
Qed.

(** mallory, a cashier flagged suspicious, rings up 40 for alice; boss is
    not flagged, and his adjustment of 25 goes to alice's balance. *)
Lemma suspicious_actor_taints_transaction_witness :
  let body :=
    mkTransactionBody "purchase" "alice001" (Some (40 # 1)) None "" [] None
      false in
  let out := Backend.post_transactions 500 mallory body demo in
  status (fst out) = Created
  /\ (exists t,
        transactions (snd out) = transactions demo ++ [t]
        /\ (t_type t = "purchase"%string \/ t_type t = "adjustment"%string)
        /\ t_createdById t = a_id mallory
        /\ t_suspicious t = Some true
        /\ users (snd out) = users demo).
Proof.
  intros body out. split; [reflexivity|].
  apply (suspicious_actor_taints_transaction 500 mallory body demo (fst out)
           (snd out) (mkUser "mallory1" cashier 0 true true)
           eq_refl eq_refl (surjective_pairing _) eq_refl).
Defined.

(** ** Where part_003 departs from the second listing *)

(** C3 at Scenario B in part_003.  Lines 1209-1222 take the rate bonus on
    the base points, [round(400 * 0.05) = 20], and come to 420; section 4.2
    takes it on the spend, [round(100 * 100 * 0.05) = 500], and comes to
    900, which is what the second listing records.  The purchase of
    part_003 is then answered 500 and nothing is written: the create of
    line 1225 carries [earned]. *)
Lemma part003_rate_bonus_is_on_base_points :
  let automatic := automatic_of (active_promotions demo 500) in
  Part003.earned_points (100 # 1) automatic [] = 420
  /\ spec_earned (100 # 1) (List.map snd automatic) = 900
  /\ Part003.post_transactions 500 trent scenario_B demo
     = reply InternalServerError demo
  /\ (t_amount <$>
      last (transactions
              (snd (Backend.post_transactions 500 trent scenario_B demo))))
     = Some 900.
Proof. vm_compute. repeat split; reflexivity. Qed.

(** X1.  A purchase that the second listing answers 201 appends one row,
    whose amount is the base points plus the bonus of every promotion that
    applies and is not skipped, the product of a rate bonus being a product
    of doubles; the promotions that apply are the active automatic ones of
    the store and, for each id of the body, the active one-time promotion
    of that id, which the user has not used.  Where the product of every
    rate bonus comes out exact, the amount is the sum of section 4.2. *)
Theorem backend_purchase_earns_in_doubles now auth body s r s' :
  Backend.purchase now auth body s = (r, s') ->
  status r = Created ->
  exists spent uid u automatic chosen t,
    tb_spent body = Some spent
    /\ find_user_by_utorid s (tb_utorid body) = Some (uid, u)
    /\ transactions s' = transactions s ++ [t]
    /\ t_spent t = Some spent
    /\ t_amount t = double_earned spent (List.map snd (automatic ++ chosen))
    /\ ((forall p rate,
           In p (List.map snd (automatic ++ chosen)) ->
           spec_skipped spent p = false -> p_rate p = Some rate ->
           exact_product spent rate) ->
        t_amount t = spec_earned spent (List.map snd (automatic ++ chosen)))
    /\ (forall pid p,
          In (pid, p) automatic <->
          promotions s !! pid = Some p /\ isActivePromo now p = true
          /\ p_type p = "automatic"%string)
    /\ Forall2 (fun id q =>
                  id = Some (fst q)
                  /\ promotions s !! fst q = Some (snd q)
                  /\ isActivePromo now (snd q) = true
                  /\ p_type (snd q) = "onetime"%string
                  /\ usedSet_has s uid (fst q) = false)
         (tb_promotionIds body) chosen.
Proof.
  intros H Hst.
  destruct (backend_purchase_Created _ _ _ _ _ _ H Hst)
    as (spent & uid & u & chosen & Hsp & Hu & Hch & _ & Htx & _).
  eexists spent, uid, u, _, chosen, _.
  split; [exact Hsp|]. split; [exact Hu|]. split; [exact Htx|].
  split; [reflexivity|].
  split; [apply backend_earned_is_double_earned|].
  split.
  { intros Hexact. simpl. rewrite backend_earned_is_double_earned.
    apply double_earned_exact, Hexact. }
  split; [intros pid p; apply automatic_of_lookup|].
  apply chooseOneTime_chosen in Hch.
  eapply Forall2_impl; [exact Hch|].
  intros id [pid p] (Hid & Hfind & Hfree). simpl in *.
  apply List.find_some in Hfind as [Hin _].
  apply onetime_of_lookup in Hin. tauto.
Qed.

(** At Scenario B the product is exact and the row has the 900 points of
    section 4.2.  While promotion 1 has the rate 0.5, a purchase of 1.15
    records 62 points: the product of the doubles is just below 57.5,
    where the sum of section 4.2 has 58 and comes to 63. *)
Lemma backend_purchase_earns_in_doubles_witness :
  (let out := Backend.purchase 500 trent scenario_B demo in
   status (fst out) = Created
   /\ exists t,
        transactions (snd out) = [t] /\ t_amount t = 900
        /\ t_amount t
           = spec_earned (100 # 1)
               (List.map snd (automatic_of (active_promotions demo 500))))
  /\ (let out := Backend.purchase 500 trent small_change half_rate in
      status (fst out) = Created
      /\ exists t,
           transactions (snd out) = [t] /\ t_amount t = 62
           /\ spec_earned (115 # 100)
                (List.map snd (automatic_of (active_promotions half_rate 500)))
              = 63).
Proof.
  split; intros out; (split; [reflexivity|]).
  - destruct (backend_purchase_earns_in_doubles 500 trent scenario_B demo
                (fst out) (snd out) (surjective_pairing _) eq_refl)
      as (spent & uid & u & automatic & chosen & t & _ & _ & Htx & _).
    exists t. split; [exact Htx|].
    vm_compute in Htx. injection Htx as <-. split; reflexivity.
  - destruct (backend_purchase_earns_in_doubles 500 trent small_change
                half_rate (fst out) (snd out) (surjective_pairing _) eq_refl)
      as (spent & uid & u & automatic & chosen & t & _ & _ & Htx & _).
    exists t. split; [exact Htx|].
    vm_compute in Htx. injection Htx as <-. split; reflexivity.
Defined.

(** C4 in part_003: an adjustment whose body sets the suspicious flag is
    recorded as suspicious and still moves alice's balance, from 100 to
    125; the second listing records the same row and leaves the balance at
    100.  The purchase of the claim cannot be told apart in part_003, where
    it is answered 500 and writes nothing whatever the flag says. *)
Lemma part003_credits_suspicious_adjustment :
  let adjusted := Part003.post_transactions 500 boss flagged_adjustment demo in
  let guarded := Backend.post_transactions 500 boss flagged_adjustment demo in
  (u_points <$> users demo !! 2) = Some 100
  /\ status (fst adjusted) = Created
  /\ (t_suspicious <$> last (transactions (snd adjusted))) = Some (Some true)
  /\ (u_points <$> users (snd adjusted) !! 2) = Some 125
  /\ status (fst guarded) = Created
  /\ (t_suspicious <$> last (transactions (snd guarded))) = Some (Some true)
  /\ (u_points <$> users (snd guarded) !! 2) = Some 100
  /\ Part003.post_transactions 500 trent flagged_purchase demo
     = reply InternalServerError demo.
Proof. vm_compute. repeat split; reflexivity. Qed.

(** In the second listing the balance moves only when the row is not
    suspicious: a purchase or adjustment recorded as suspicious leaves
    every balance as it was, and one that is not adds the row's amount to
    the target's balance. *)
Theorem backend_credits_unless_suspicious now auth body s r s' :
  Backend.post_transactions now auth body s = (r, s') ->
  status r = Created ->
  exists uid u t,
    find_user_by_utorid s (tb_utorid body) = Some (uid, u)
    /\ transactions s' = transactions s ++ [t]
    /\ t_userId t = uid
    /\ (t_suspicious t = Some true \/ t_suspicious t = Some false)
    /\ (t_suspicious t = Some true -> users s' = users s)
    /\ (t_suspicious t = Some false ->
        forall k,
          (u_points <$> users s' !! k)
          = (if k =? uid then Some (u_points u + t_amount t)
             else u_points <$> users s !! k)).
Proof.
  intros H Hst. unfold Backend.post_transactions in H.
  assert (Hcredit : forall (eff : bool) n uid u users',
             users s !! uid = Some u ->
             users' = (if negb eff && negb (n =? 0)
                       then <[uid := increment_points n u]> (users s)
                       else users s) ->
             (Some eff = Some true \/ Some eff = Some false)
             /\ (Some eff = Some true -> users' = users s)
             /\ (Some eff = Some false ->
                 forall k,
                   (u_points <$> users' !! k)
                   = (if k =? uid then Some (u_points u + n)
                      else u_points <$> users s !! k))).
  { intros eff n uid u users' Hu ->.
    split; [destruct eff; auto|]. split.
    - intros [= ->]. reflexivity.
    - intros [= ->] k. simpl.
      destruct (n =? 0) eqn:Hn; simpl.
      + apply Z.eqb_eq in Hn. subst n.
        destruct (k =? uid) eqn:Hk; [|reflexivity].
        apply Z.eqb_eq in Hk. subst k. rewrite Hu. simpl. f_equal. lia.
      + rewrite lookup_insert.
        destruct (k =? uid) eqn:Hk.
        * apply Z.eqb_eq in Hk. subst k.
          rewrite decide_True by reflexivity. reflexivity.
        * apply Z.eqb_neq in Hk. rewrite decide_False by congruence.
          reflexivity. }
  destruct (String.eqb (tb_type body) "purchase").
  - destruct (backend_purchase_Created _ _ _ _ _ _ H Hst)
      as (spent & uid & u & chosen & _ & Hu & _ & _ & Htx & Hus & _).
    eexists uid, u, _. split; [exact Hu|]. split; [exact Htx|].
    split; [reflexivity|].
    apply (Hcredit _ _ _ _ _ (find_user_by_utorid_lookup _ _ _ _ Hu) Hus).
  - destruct (String.eqb (tb_type body) "adjustment");
      [|unfold reply in H; by simplify_eq/=].
    destruct (backend_adjustment_Created _ _ _ _ _ H Hst)
      as (amount & uid & u & _ & Hu & Htx & Hus).
    eexists uid, u, _. split; [exact Hu|]. split; [exact Htx|].
    split; [reflexivity|].
    apply (Hcredit _ _ _ _ _ (find_user_by_utorid_lookup _ _ _ _ Hu) Hus).
Qed.

Lemma backend_credits_unless_suspicious_witness :
  let flagged := Backend.post_transactions 500 trent flagged_purchase demo in
  let plain := Backend.post_transactions 500 trent scenario_B demo in
  (status (fst flagged) = Created /\ users (snd flagged) = users demo)
  /\ (status (fst plain) = Created
      /\ (u_points <$> users (snd plain) !! 2) = Some 1000).
Proof.
  intros flagged plain. split.
  - split; [reflexivity|].
    destruct (backend_credits_unless_suspicious 500 trent flagged_purchase
                demo (fst flagged) (snd flagged) (surjective_pairing _)
                eq_refl)
      as (uid & u & t & _ & Htx & _ & _ & Hsame & _).
    apply Hsame. vm_compute in Htx. injection Htx as <-. reflexivity.
  - split; [reflexivity|].
    destruct (backend_credits_unless_suspicious 500 trent scenario_B
                demo (fst plain) (snd plain) (surjective_pairing _)
                eq_refl)
      as (uid & u & t & Hu & Htx & _ & _ & _ & Hcredit).
    vm_compute in Hu. injection Hu as <- <-.
    vm_compute in Htx. injection Htx as <-.
    rewrite (Hcredit eq_refl 2). reflexivity.
Defined.

(** ** Who may award event points *)

Lemma not_authorized auth eventId s :
  isManager auth = false -> isOrganizer s eventId auth = false ->
  negb (isManager auth) && negb (isOrganizer s eventId auth) = true.
Proof. intros -> ->. reflexivity. Qed.

Lemma authorized auth eventId s :
  isManager auth || isOrganizer s eventId auth = true ->
  negb (isManager auth) && negb (isOrganizer s eventId auth) = false.
Proof. intros H. rewrite <- negb_orb, H. reflexivity. Qed.

Lemma part003_award_one_goes_through auth eventId utorid a remark s e uid u :
  num_le a 0 = false ->
  events s !! eventId = Some e ->
  isManager auth || isOrganizer s eventId auth = true ->
  utorid <> ""%string ->
  find_user_by_utorid s utorid = Some (uid, u) ->
  (eventId, uid) ∈ eventGuests s ->
  ceilInt a <= e_pointsRemain e ->
  status (fst (Part003.post_events_id_transactions auth eventId utorid false
                 (Some a) remark s)) = OK.
Proof.
  intros Hpos He Hauth Hname Hu Hguest Hfits.
  unfold Part003.post_events_id_transactions.
  rewrite Hpos, He, (authorized _ _ _ Hauth).
  apply String.eqb_neq in Hname. rewrite Hname, Hu.
  rewrite bool_decide_eq_true_2 by assumption. simpl.
  apply Z.ltb_ge in Hfits. rewrite Hfits.
  unfold tx_bind, transaction_create, user_update_points, event_update_budget.
  simpl. rewrite (find_user_by_utorid_lookup _ _ _ _ Hu). simpl.
  rewrite He. reflexivity.
Qed.

Lemma backend_award_one_goes_through auth eventId utorid a remark s e uid u :
  0 < eventId ->
  Number_isInteger a = true ->
  num_le a 0 = false ->
  events s !! eventId = Some e ->
  isManager auth || isOrganizer s eventId auth = true ->
  utorid <> ""%string ->
  find_user_by_utorid s utorid = Some (uid, u) ->
  (eventId, uid) ∈ eventGuests s ->
  Math_trunc a <= e_pointsRemain e ->
  status (fst (Backend.post_events_id_transactions auth eventId "event" utorid
                 (Some a) remark s)) = Created.
Proof.
  intros Hid Hint Hpos He Hauth Hname Hu Hguest Hfits.
  unfold Backend.post_events_id_transactions.
  replace (eventId <=? 0) with false by (symmetry; apply Z.leb_gt; lia).
  simpl. rewrite Hint, Hpos, He, (authorized _ _ _ Hauth). simpl.
  apply String.eqb_neq in Hname. rewrite Hname, Hu. simpl.
  rewrite bool_decide_eq_true_2 by assumption. simpl.
  apply Z.ltb_ge in Hfits. rewrite Hfits.
  unfold tx_bind, transaction_create, user_update_points, event_update_budget.
  simpl. rewrite (find_user_by_utorid_lookup _ _ _ _ Hu). simpl.
  rewrite He. reflexivity.
Qed.

(** C8, as the code has it.  The handler first looks at the request: an
    amount that is not a positive number is answered 400 whoever asks; the
    second listing also answers 400 to an amount that is not an integer and
    to a type that is not ['event'], and before that 404 to an event id that
    is not positive.  Past these checks, on an existing event, the award is
    answered 403 when the caller is neither a manager nor an organizer of
    the event; a manager or an organizer who names a guest and asks for no
    more than [pointsRemain] is served, whatever the event's published flag
    and end time are; the handler never answers 410. *)
Theorem event_award_authorization :
  ((forall auth eventId utorid allGuests a remark s e,
      num_le a 0 = false ->
      events s !! eventId = Some e ->
      isManager auth = false -> isOrganizer s eventId auth = false ->
      Part003.post_events_id_transactions auth eventId utorid allGuests
        (Some a) remark s = reply Forbidden s)
   /\ (forall auth eventId utorid a remark s e uid u,
         num_le a 0 = false ->
         events s !! eventId = Some e ->
         isManager auth || isOrganizer s eventId auth = true ->
         utorid <> ""%string ->
         find_user_by_utorid s utorid = Some (uid, u) ->
         (eventId, uid) ∈ eventGuests s ->
         ceilInt a <= e_pointsRemain e ->
         status (fst (Part003.post_events_id_transactions auth eventId utorid
                        false (Some a) remark s)) = OK)
   /\ (forall auth eventId utorid allGuests amount remark s,
         status (fst (Part003.post_events_id_transactions auth eventId utorid
                        allGuests amount remark s)) <> Gone)
   /\ (forall auth eventId utorid allGuests amount remark s,
         (amount = None \/ exists a, amount = Some a /\ (a <= 0)%Q) ->
         Part003.post_events_id_transactions auth eventId utorid allGuests
           amount remark s = reply BadRequest s))
  /\ ((forall auth eventId utorid a remark s e,
         0 < eventId ->
         Number_isInteger a = true -> num_le a 0 = false ->
         events s !! eventId = Some e ->
         isManager auth = false -> isOrganizer s eventId auth = false ->
         Backend.post_events_id_transactions auth eventId "event" utorid
           (Some a) remark s = reply Forbidden s)
      /\ (forall auth eventId utorid a remark s e uid u,
            0 < eventId ->
            Number_isInteger a = true -> num_le a 0 = false ->
            events s !! eventId = Some e ->
            isManager auth || isOrganizer s eventId auth = true ->
            utorid <> ""%string ->
            find_user_by_utorid s utorid = Some (uid, u) ->
            (eventId, uid) ∈ eventGuests s ->
            Math_trunc a <= e_pointsRemain e ->
            status (fst (Backend.post_events_id_transactions auth eventId
                           "event" utorid (Some a) remark s)) = Created)
      /\ (forall auth eventId type utorid amount remark s,
            status (fst (Backend.post_events_id_transactions auth eventId
                           type utorid amount remark s)) <> Gone)
      /\ (forall auth eventId utorid amount remark s,
            0 < eventId ->
            (amount = None
             \/ exists a, amount = Some a
                          /\ ((a <= 0)%Q \/ Number_isInteger a = false)) ->
            Backend.post_events_id_transactions auth eventId "event" utorid
              amount remark s = reply BadRequest s)
      /\ (forall auth eventId type utorid amount remark s,
            0 < eventId -> type <> "event"%string ->
            Backend.post_events_id_transactions auth eventId type utorid
              amount remark s = reply BadRequest s)
      /\ (forall auth eventId type utorid amount remark s,
            eventId <= 0 ->
            Backend.post_events_id_transactions auth eventId type utorid
              amount remark s = reply NotFound s)).
Proof.
  split; [split; [|split; [|split]]
         |split; [|split; [|split; [|split; [|split]]]]].
  - intros auth eventId utorid allGuests a remark s e Hpos He Hm Ho.
    unfold Part003.post_events_id_transactions.
    rewrite Hpos, He, (not_authorized _ _ _ Hm Ho). reflexivity.
  - apply part003_award_one_goes_through.
  - intros auth eventId utorid allGuests amount remark s.
    unfold Part003.post_events_id_transactions, reply.
    repeat case_match; simpl; discriminate.
  - intros auth eventId utorid allGuests amount remark s [->|(a & -> & Hle)];
      [reflexivity|].
    unfold Part003.post_events_id_transactions.
    apply num_le_spec in Hle. rewrite Hle. reflexivity.
  - intros auth eventId utorid a remark s e Hid Hint Hpos He Hm Ho.
    unfold Backend.post_events_id_transactions.
    replace (eventId <=? 0) with false by (symmetry; apply Z.leb_gt; lia).
    simpl. rewrite Hint, Hpos, He, (not_authorized _ _ _ Hm Ho). reflexivity.
  - apply backend_award_one_goes_through.
  - intros auth eventId type utorid amount remark s.
    unfold Backend.post_events_id_transactions, reply.
    repeat case_match; simpl; discriminate.
  - intros auth eventId utorid amount remark s Hid H.
    unfold Backend.post_events_id_transactions.
    replace (eventId <=? 0) with false by (symmetry; apply Z.leb_gt; lia).
    simpl. destruct H as [->|(a & -> & [Hle|Hint])]; [reflexivity| |].
    + apply num_le_spec in Hle. rewrite Hle, orb_true_r. reflexivity.
    + rewrite Hint. reflexivity.
  - intros auth eventId type utorid amount remark s Hid Htype.
    unfold Backend.post_events_id_transactions.
    replace (eventId <=? 0) with false by (symmetry; apply Z.leb_gt; lia).
    apply String.eqb_neq in Htype. rewrite Htype. reflexivity.
  - intros auth eventId type utorid amount remark s Hid.
    unfold Backend.post_events_id_transactions.
    apply Z.leb_le in Hid. rewrite Hid. reflexivity.
Qed.

(** carol is neither manager nor organizer of event 1 and is answered 403;
    alice organizes it and is served.  With the amount 15.5 carol is
    answered 403 by part_003 and 400 by the second listing. *)
Lemma event_award_authorization_witness :
  Part003.post_events_id_transactions carol 1 "bob00001" false
    (Some (15 # 1)) "" demo = reply Forbidden demo
  /\ status (fst (Part003.post_events_id_transactions alice 1 "bob00001"
                    false (Some (15 # 1)) "" demo)) = OK
  /\ Backend.post_events_id_transactions carol 1 "event" "bob00001"
       (Some (15 # 1)) "" demo = reply Forbidden demo
  /\ status (fst (Backend.post_events_id_transactions alice 1 "event"
                    "bob00001" (Some (15 # 1)) "" demo)) = Created
  /\ Part003.post_events_id_transactions carol 1 "bob00001" false
       (Some (31 # 2)) "" demo = reply Forbidden demo
  /\ Backend.post_events_id_transactions carol 1 "event" "bob00001"
       (Some (31 # 2)) "" demo = reply BadRequest demo.
Proof.
  destruct event_award_authorization
    as [(Hno3 & Hyes3 & _) (Hno & Hyes & _ & Hbad & _)].
  assert (He : events demo !! 1
               = Some (mkEvent "meetup" "a meetup" "BA1130" 10 20 None false
                         100 100 0)) by reflexivity.
  assert (Hu : find_user_by_utorid demo "bob00001"
               = Some (3, mkUser "bob00001" regular 10 true false))
    by reflexivity.
  assert (Hg : (1, 3) ∈ eventGuests demo)
    by (apply (bool_decide_unpack _); vm_compute; exact I).
  split; [|split; [|split; [|split; [|split]]]].
  - apply (Hno3 carol 1 "bob00001"%string false (15 # 1)%Q ""%string demo _
             eq_refl He eq_refl eq_refl).
  - apply (Hyes3 alice 1 "bob00001"%string (15 # 1)%Q ""%string demo _ _ _
             eq_refl He eq_refl ltac:(discriminate) Hu Hg).
    vm_compute. discriminate.
  - apply (Hno carol 1 "bob00001"%string (15 # 1)%Q ""%string demo _
             eq_refl eq_refl eq_refl He eq_refl eq_refl).
  - apply (Hyes alice 1 "bob00001"%string (15 # 1)%Q ""%string demo _ _ _
             eq_refl eq_refl eq_refl He eq_refl ltac:(discriminate) Hu Hg).
    vm_compute. discriminate.
  - apply (Hno3 carol 1 "bob00001"%string false (31 # 2)%Q ""%string demo _
             eq_refl He eq_refl eq_refl).
  - apply (Hbad carol 1 "bob00001"%string (Some (31 # 2)%Q) ""%string demo
             eq_refl).
    right. exists (31 # 2)%Q. split; [reflexivity|]. right. reflexivity.
Defined.

(** C8 as it is worded does not hold: event 1 was never published and ended
    at 20, and alice, who is an organizer and no manager, is served by both
    listings; the handlers read no clock. *)
Lemma award_ignores_published_and_ended :
  isManager alice = false
  /\ isOrganizer demo 1 alice = true
  /\ (e_published <$> events demo !! 1) = Some false
  /\ (e_endTime <$> events demo !! 1) = Some 20
  /\ status (fst (Part003.post_events_id_transactions alice 1 "bob00001"
                    false (Some (15 # 1)) "" demo)) = OK
  /\ status (fst (Backend.post_events_id_transactions alice 1 "event"
                    "bob00001" (Some (15 # 1)) "" demo)) = Created.
Proof. vm_compute. repeat split; reflexivity. Qed.

(** ** The same two invariants in the second listing *)

Lemma backend_patch_published_no_points isM body d d' :
  Backend.patch_published isM body d = Go d' -> no_points d -> no_points d'.
Proof. unfold Backend.patch_published. step_keeps_no_points. Qed.

Lemma backend_patch_name_no_points afterStart allow raw d d' :
  Backend.patch_text afterStart allow raw with_name d = Go d' ->
  no_points d -> no_points d'.
Proof. unfold Backend.patch_text. step_keeps_no_points. Qed.

Lemma backend_patch_description_no_points afterStart allow raw d d' :
  Backend.patch_text afterStart allow raw with_description d = Go d' ->
  no_points d -> no_points d'.
Proof. unfold Backend.patch_text. step_keeps_no_points. Qed.

Lemma backend_patch_location_no_points afterStart allow raw d d' :
  Backend.patch_text afterStart allow raw with_location d = Go d' ->
  no_points d -> no_points d'.
Proof. unfold Backend.patch_text. step_keeps_no_points. Qed.

Lemma backend_patch_startTime_no_points now afterStart body d d' :
  Backend.patch_startTime now afterStart body d = Go d' ->
  no_points d -> no_points d'.
Proof. unfold Backend.patch_startTime. step_keeps_no_points. Qed.

Lemma backend_patch_endTime_no_points afterEnd e body d d' :
  Backend.patch_endTime afterEnd e body d = Go d' ->
  no_points d -> no_points d'.
Proof. unfold Backend.patch_endTime. step_keeps_no_points. Qed.

Lemma backend_patch_capacity_no_points afterStart numGuests body d d' :
  Backend.patch_capacity afterStart numGuests body d = Go d' ->
  no_points d -> no_points d'.
Proof. unfold Backend.patch_capacity. step_keeps_no_points. Qed.

Lemma backend_patch_points_moved isM e body d d' :
  Backend.patch_points isM e body d = Go d' ->
  no_points d -> points_moved e d'.
Proof.
  unfold Backend.patch_points, points_moved, no_points.
  intros H [Ht Hr].
  repeat case_match; simplify_eq/=; eauto.
Qed.

Lemma budget_ok_backend_patch now auth id body s r s' :
  Backend.patch_events_id now auth id body s = (r, s') ->
  budget_ok s -> budget_ok s'.
Proof.
  intros H Hs. unfold Backend.patch_events_id, reply in H.
  destruct (id <=? 0); [simplify_eq; assumption|].
  destruct (events s !! id) as [e|] eqn:He; [|simplify_eq; assumption].
  destruct (negb (isManager auth) && negb (isOrganizer s id auth));
    [simplify_eq; assumption|].
  match type of H with
  | match ?steps with _ => _ end = _ => destruct steps as [st|data] eqn:Hsteps
  end; [simplify_eq; assumption|].
  destruct (data_is_empty data); [simplify_eq; assumption|].
  destruct (event_update id data s) as [[a s1]|] eqn:Hup;
    [|simplify_eq; assumption].
  simplify_eq.
  apply (budget_ok_event_update _ _ _ _ _ _ He) in Hup;
    [assumption| |assumption].
  apply and_then_Go in Hsteps as (d1 & H1 & Hsteps).
  apply and_then_Go in Hsteps as (d2 & H2 & Hsteps).
  apply and_then_Go in Hsteps as (d3 & H3 & Hsteps).
  apply and_then_Go in Hsteps as (d4 & H4 & Hsteps).
  apply and_then_Go in Hsteps as (d5 & H5 & Hsteps).
  apply and_then_Go in Hsteps as (d6 & H6 & Hsteps).
  apply and_then_Go in Hsteps as (d7 & H7 & Hsteps).
  eapply backend_patch_points_moved; [exact Hsteps|].
  eapply backend_patch_capacity_no_points; [exact H7|].
  eapply backend_patch_endTime_no_points; [exact H6|].
  eapply backend_patch_startTime_no_points; [exact H5|].
  eapply backend_patch_location_no_points; [exact H4|].
  eapply backend_patch_description_no_points; [exact H3|].
  eapply backend_patch_name_no_points; [exact H2|].
  eapply backend_patch_published_no_points; [exact H1|].
  split; reflexivity.
Qed.

Lemma backend_budget_ok_handle q s :
  budget_ok s -> budget_ok (snd (Backend.handle q s)).
Proof.
  apply (backend_handle_keeps budget_ok budget_ok_stable budget_ok_upsert
           budget_ok_spend budget_ok_post_events budget_ok_backend_patch).
Qed.

(** In the second listing too, every event keeps [pointsRemain +
    pointsAwarded = pointsTotal] after each request of any sequence. *)
Theorem backend_event_budget_is_conserved qs s :
  budget_ok s -> Forall budget_ok (trace Backend.handle qs s).
Proof.
  revert s. induction qs as [|q qs IH]; intros s Hs; simpl.
  - constructor.
  - constructor; [|apply IH]; apply backend_budget_ok_handle, Hs.
Qed.

Lemma backend_event_budget_is_conserved_witness :
  Forall budget_ok (trace Backend.handle backend_budget_requests demo)
  /\ events (Backend.run backend_budget_requests demo) !! 1
     = Some (mkEvent "meetup" "a meetup" "BA1130" 10 20 None false 100 65 35).
Proof.
  split.
  - apply backend_event_budget_is_conserved, budget_ok_demo.
  - vm_compute. reflexivity.
Defined.

Lemma backend_redemption_Created auth type amount remark s r s' :
  Backend.post_users_me_transactions auth type amount remark s = (r, s') ->
  status r = Created ->
  exists a me,
    amount = Some a /\ type = "redemption"%string /\ num_le a 0 = false
    /\ users s !! a_id auth = Some me
    /\ u_verified me = true
    /\ Math_trunc a <= u_points me
    /\ s' = set_transactions
              (fun l => l ++ [mkTransaction (a_id auth) "redemption"
                                (Math_trunc a) None None remark None None
                                (a_id auth) None]) s.
Proof.
  unfold Backend.post_users_me_transactions, transaction_create, reply.
  intros H Hst.
  repeat case_match; simplify_eq/=; try discriminate.
  match goal with H : _ || _ = false |- _ =>
    apply orb_false_iff in H as [Hty Hpos] end.
  apply negb_false_iff, String.eqb_eq in Hty.
  match goal with H : negb _ = false |- _ => apply negb_false_iff in H end.
  match goal with H : (_ <? _) = false |- _ => apply Z.ltb_ge in H end.
  eexists _, _. repeat split; eauto.
Qed.

Lemma backend_processed_OK auth id s r s' :
  Backend.patch_transactions_id_processed auth id s = (r, s') ->
  status r = OK ->
  exists t u,
    find_transaction s id = Some t
    /\ t_type t = "redemption"%string
    /\ truthy_id (t_processedById t) = false
    /\ users s !! t_userId t = Some u
    /\ t_amount t <= u_points u
    /\ s' = set_transactions
              (fun l =>
                 <[Z.to_nat (id - 1) := set_processedById (a_id auth) t]> l)
              (set_users
                 <[t_userId t := increment_points (- t_amount t) u]> s).
Proof.
  unfold Backend.patch_transactions_id_processed, reply.
  intros H Hst.
  repeat case_match; simplify_eq/=; try discriminate.
  match goal with H : (_ ;;; _) s = Some _ |- _ => rename H into Hw end.
  match goal with H : _ || _ = false |- _ =>
    apply orb_false_iff in H as [Hty Hproc] end.
  apply negb_false_iff, String.eqb_eq in Hty.
  match goal with H : (_ <? _) = false |- _ => apply Z.ltb_ge in H end.
  unfold tx_bind, user_update_points, transaction_update in Hw.
  match goal with H : users s !! _ = Some _ |- _ => rewrite H in Hw end.
  unfold find_transaction in *. simpl in Hw.
  match goal with
  | H : (if ?c then _ else _) = Some _ |- _ =>
      destruct c eqn:Hid; [discriminate|]
  end.
  match goal with H : transactions s !! _ = Some _ |- _ => rewrite H in Hw end.
  injection Hw as _ Hs. subst s'.
  eexists _, _. repeat split; eauto.
Qed.

(** In the second listing a redemption is stored with a positive amount:
    the request goes through only when the requester's balance covers the
    amount cut to an integer, and moves no balance; processing goes through
    only when the owner's balance covers the stored amount, and leaves the
    owner that much less, which is not below zero. *)
Theorem backend_redemption_never_overdraws :
  (forall auth type amount remark s r s',
     Backend.post_users_me_transactions auth type amount remark s = (r, s') ->
     status r = Created ->
     exists a me,
       amount = Some a
       /\ users s !! a_id auth = Some me
       /\ 0 <= Math_trunc a <= u_points me
       /\ users s' = users s)
  /\ (forall auth id s r s',
        Backend.patch_transactions_id_processed auth id s = (r, s') ->
        status r = OK ->
        exists t owner owner',
          find_transaction s id = Some t
          /\ users s !! t_userId t = Some owner
          /\ t_amount t <= u_points owner
          /\ users s' !! t_userId t = Some owner'
          /\ u_points owner' = u_points owner - t_amount t
          /\ 0 <= u_points owner').
Proof.
  split.
  - intros auth type amount remark s r s' H Hst.
    destruct (backend_redemption_Created _ _ _ _ _ _ _ H Hst)
      as (a & me & -> & _ & Hpos & Hme & _ & Hb & ->).
    exists a, me. repeat split; try assumption.
    apply Math_trunc_nonneg, Hpos.
  - intros auth id s r s' H Hst.
    destruct (backend_processed_OK _ _ _ _ _ H Hst)
      as (t & u & Ht & _ & _ & Hu & Hb & ->).
    exists t, u, (increment_points (- t_amount t) u).
    simpl. repeat split; try assumption; try lia.
    apply lookup_insert_eq.
Qed.

Lemma backend_redemption_never_overdraws_witness :
  let asked :=
    Backend.post_users_me_transactions alice "redemption" (Some (100 # 1))
      "" demo in
  let paid := Backend.patch_transactions_id_processed trent 1 (snd asked) in
  (status (fst asked) = Created /\ users (snd asked) = users demo)
  /\ (status (fst paid) = OK
      /\ exists u, users (snd paid) !! 2 = Some u /\ 0 <= u_points u).
Proof.
  intros asked paid.
  destruct backend_redemption_never_overdraws as (Hask & Hpay).
  split.
  - split; [reflexivity|].
    destruct (Hask alice "redemption"%string (Some (100 # 1)) ""%string demo
                (fst asked) (snd asked) (surjective_pairing _) eq_refl)
      as (a & me & _ & _ & _ & Hsame).
    exact Hsame.
  - split; [reflexivity|].
    destruct (Hpay trent 1 (snd asked) (fst paid) (snd paid)
                (surjective_pairing _) eq_refl)
      as (t & u & u' & Ht & _ & _ & Hu' & _ & Hpos).
    vm_compute in Ht. injection Ht as <-.
    exists u'. split; assumption.
Defined.

(** ** Guest lists *)

Lemma filter_length_Permutation {A} (f : A -> bool) (l l' : list A) :
  l ≡ₚ l' -> length (List.filter f l) = length (List.filter f l').
Proof.
  induction 1 as [|x l l' _ IH|x y l|l1 l2 l3 _ IH1 _ IH2]; simpl.
  - reflexivity.
  - destruct (f x); simpl; congruence.
  - destruct (f x), (f y); reflexivity.
  - congruence.
Qed.

Lemma eventGuest_count_eq (s : Store) (g : gset (Z * Z)) id :
  eventGuest_count (set_eventGuests (fun _ => g) s) id
  = Z.of_nat (length (List.filter (fun p => fst p =? id) (elements g))).
Proof.
  unfold eventGuest_count, guests_of. simpl. now rewrite length_map.
Qed.

Lemma eventGuest_count_insert s eventId userId id :
  (eventId, userId) ∉ eventGuests s ->
  eventGuest_count
    (set_eventGuests (fun g => {[ (eventId, userId) ]} ∪ g) s) id
  = eventGuest_count s id + (if eventId =? id then 1 else 0).
Proof.
  intros Hnew. unfold eventGuest_count, guests_of. simpl.
  rewrite !length_map.
  rewrite (filter_length_Permutation _ _ _
             (elements_union_singleton _ _ Hnew)).
  simpl. destruct (eventId =? id); simpl; lia.
Qed.

Lemma eventGuest_count_delete s eventId userId id :
  (eventId, userId) ∈ eventGuests s ->
  eventGuest_count
    (set_eventGuests (fun g => g ∖ {[ (eventId, userId) ]}) s) id
  = eventGuest_count s id - (if eventId =? id then 1 else 0).
Proof.
  intros Hin. unfold eventGuest_count, guests_of. simpl.
  rewrite !length_map.
  assert (Hp : elements (eventGuests s)
               ≡ₚ (eventId, userId)
                  :: elements (eventGuests s ∖ {[ (eventId, userId) ]})).
  { rewrite <- elements_union_singleton.
    - apply elements_proper. intros p.
      rewrite elem_of_union, elem_of_difference, elem_of_singleton.
      destruct (decide (p = (eventId, userId))); subst; tauto.
    - rewrite elem_of_difference, elem_of_singleton. tauto. }
  rewrite (filter_length_Permutation _ _ _ Hp).
  simpl. destruct (eventId =? id); simpl; lia.
Qed.

Lemma eventGuest_count_none s id :
  (forall userId, (id, userId) ∉ eventGuests s) -> eventGuest_count s id = 0.
Proof.
  intros Hno. unfold eventGuest_count, guests_of. rewrite length_map.
  assert (H : forall l : list (Z * Z),
             (forall p, In p l -> fst p <> id) ->
             List.filter (fun p => fst p =? id) l = []).
  { induction l as [|p l IH]; intros Hl; simpl; [reflexivity|].
    destruct (Z.eqb_spec (fst p) id) as [E|_].
    - exfalso. apply (Hl p); [now left | exact E].
    - apply IH. intros q Hq. apply Hl. now right. }
  rewrite H; [reflexivity|].
  intros [e u] Hp E. simpl in E. subst e.
  apply (Hno u). apply elem_of_elements, list_elem_of_In, Hp.
Qed.

(** A capacity is an integer column: room for one more below it. *)
Lemma integer_room (c : Q) (n : Z) :
  Number_isInteger c = true -> num_le c (Number n) = false ->
  (Number (n + 1) <= c)%Q.
Proof.
  intros Hint Hroom.
  assert (Hlt : ~ (c <= Number n)%Q).
  { intros H. apply num_le_spec in H. congruence. }
  unfold Number_isInteger in Hint. apply Z.eqb_eq in Hint.
  destruct c as [a b]. simpl in Hint.
  apply Z.rem_divide in Hint; [|lia]. destruct Hint as [q Hq].
  unfold Number, Qle in *. simpl in *. subst a.
  assert (n < q) by nia. nia.
Qed.

Lemma Number_isInteger_Number (z : Z) : Number_isInteger (Number z) = true.
Proof.
  unfold Number_isInteger, Number. simpl. rewrite Z.rem_1_r. reflexivity.
Qed.

Lemma eventGuest_count_nonneg s id : 0 <= eventGuest_count s id.
Proof. unfold eventGuest_count. lia. Qed.

(** Cutting a number to its integer part leaves it above every count that
    it is above. *)
Lemma Math_trunc_covers (c : Q) (n : Z) :
  0 <= n -> (Number n <= c)%Q -> (Number n <= Number (Math_trunc c))%Q.
Proof.
  intros Hn Hle. unfold Number, Math_trunc in *. rewrite <- Zle_Qle.
  destruct c as [a b]. unfold Qle in Hle. simpl in *.
  rewrite Z.quot_div_nonneg by lia.
  apply Z.div_le_lower_bound; lia.
Qed.

(** What the column holds of a capacity that covers [n] guests. *)
Lemma stored_capacity_fits (capacity : option Q) (n : Z) (c : Q) :
  0 <= n ->
  (forall c', capacity = Some c' -> (Number n <= c')%Q) ->
  stored_capacity capacity = Some c ->
  Number_isInteger c = true /\ (Number n <= c)%Q.
Proof.
  intros Hn Hfits Hc. destruct capacity as [c'|]; [|discriminate].
  injection Hc as <-. split; [apply Number_isInteger_Number|].
  apply Math_trunc_covers; [exact Hn|]. apply Hfits. reflexivity.
Qed.

Lemma guest_lists_ok_stable : stable guest_lists_ok.
Proof. split; [|split]; intros f s H; exact H. Qed.

Lemma guest_lists_ok_upsert userId pid now :
  tx_preserves guest_lists_ok (userPromotionUsage_upsert userId pid now).
Proof.
  intros s a s' H. unfold userPromotionUsage_upsert in H. simplify_eq.
  intros Hs. exact Hs.
Qed.

(** Writing one event row keeps the guest lists in order when the capacity
    it stores is an integer that covers the guests the event has. *)
Lemma guest_lists_ok_insert s id e n :
  guest_lists_ok s ->
  (forall c, e_capacity e = Some c ->
     Number_isInteger c = true /\ (Number (eventGuest_count s id) <= c)%Q) ->
  guest_lists_ok (set_events <[id := e]> n s).
Proof.
  intros (Hcap & Hfk & Hint) He. repeat split.
  - intros id' e' c. simpl. rewrite lookup_insert.
    case_decide as E.
    + intros [= <-] Hc. subst id'. apply (He _ Hc).
    + apply Hcap.
  - intros eventId userId Hin. simpl. rewrite lookup_insert.
    case_decide; [eauto | exact (Hfk _ _ Hin)].
  - intros id' e' c. simpl. rewrite lookup_insert.
    case_decide as E.
    + intros [= <-] Hc. apply (He _ Hc).
    + apply Hint.
Qed.

Lemma guest_lists_ok_spend id n :
  tx_preserves guest_lists_ok (event_update_budget id n).
Proof.
  intros s a s' H Hs. unfold event_update_budget in H.
  destruct (events s !! id) as [e|] eqn:He; [|discriminate].
  simplify_eq. apply guest_lists_ok_insert; [assumption|].
  intros c Hc. simpl in Hc. destruct Hs as (Hcap & _ & Hint). eauto.
Qed.

Lemma guest_lists_ok_fresh s id :
  guest_lists_ok s -> events s !! id = None -> eventGuest_count s id = 0.
Proof.
  intros (_ & Hfk & _) Hnone. apply eventGuest_count_none.
  intros userId Hin. apply Hfk in Hin. rewrite Hnone in Hin.
  destruct Hin as [? [=]].
Qed.

Lemma positive_covers_nobody (c : Q) :
  num_le c 0 = false -> (Number 0 <= c)%Q.
Proof.
  intros Hpos. destruct (Qlt_le_dec 0 c) as [H|H].
  - apply Qlt_le_weak, H.
  - apply num_le_spec in H. congruence.
Qed.

Lemma guest_lists_ok_post_events auth name description location startTime
    endTime capacity points s r s' :
  Shared.post_events auth name description location startTime endTime
    capacity points s = (r, s') ->
  guest_lists_ok s -> guest_lists_ok s'.
Proof.
  intros H Hs. unfold Shared.post_events, reply, event_create in H.
  repeat case_match; simplify_eq/=; try assumption;
    (apply guest_lists_ok_insert; [assumption|]);
    intros c Hc; simpl in Hc; simplify_eq;
    (erewrite guest_lists_ok_fresh by eassumption);
    (split; [apply Number_isInteger_Number|]);
    (apply Math_trunc_covers; [lia|]);
    apply positive_covers_nobody; assumption.
Qed.

(** The steps of [PATCH /events/:id] before the capacity leave it out of
    [data]; the capacity step puts in a number that covers the guests; the
    points step leaves it alone. *)
Lemma part003_steps_capacity_fits now auth e s id body d :
  and_then (Part003.patch_published (isManager auth) body no_data) (fun d =>
  and_then (Part003.patch_text (e_startTime e <=? now) (b_name body)
              with_name d) (fun d =>
  and_then (Part003.patch_text (e_startTime e <=? now) (b_description body)
              with_description d) (fun d =>
  and_then (Part003.patch_text (e_startTime e <=? now) (b_location body)
              with_location d) (fun d =>
  and_then (Part003.patch_startTime now (e_startTime e <=? now) body d)
    (fun d =>
  and_then (Part003.patch_endTime (e_endTime e <? now) e body d) (fun d =>
  and_then (Part003.patch_capacity (e_startTime e <=? now)
              (eventGuest_count s id) e body d) (fun d =>
  Part003.patch_points (isManager auth) e body d))))))) = Go d ->
  capacity_fits (eventGuest_count s id) d.
Proof.
  intros H.
  apply and_then_Go in H as (d1 & H1 & H).
  apply and_then_Go in H as (d2 & H2 & H).
  apply and_then_Go in H as (d3 & H3 & H).
  apply and_then_Go in H as (d4 & H4 & H).
  apply and_then_Go in H as (d5 & H5 & H).
  apply and_then_Go in H as (d6 & H6 & H).
  apply and_then_Go in H as (d7 & H7 & H).
  assert (E1 : d_capacity d1 = None).
  { unfold Part003.patch_published in H1.
    repeat case_match; simplify_eq/=; reflexivity. }
  assert (E2 : d_capacity d2 = None).
  { unfold Part003.patch_text in H2.
    repeat case_match; simplify_eq/=; assumption. }
  assert (E3 : d_capacity d3 = None).
  { unfold Part003.patch_text in H3.
    repeat case_match; simplify_eq/=; assumption. }
  assert (E4 : d_capacity d4 = None).
  { unfold Part003.patch_text in H4.
    repeat case_match; simplify_eq/=; assumption. }
  assert (E5 : d_capacity d5 = None).
  { unfold Part003.patch_startTime in H5.
    repeat case_match; simplify_eq/=; assumption. }
  assert (E6 : d_capacity d6 = None).
  { unfold Part003.patch_endTime in H6.
    repeat case_match; simplify_eq/=; assumption. }
  assert (E7 : capacity_fits (eventGuest_count s id) d7).
  { unfold Part003.patch_capacity, capacity_fits in *.
    repeat case_match; simplify_eq/=; try exact I;
      match goal with
      | Hlt : num_lt ?c _ = false |- _ =>
          destruct (Qlt_le_dec c (Number (eventGuest_count s id)))
            as [Hc|Hc]; [apply num_lt_spec in Hc; congruence | exact Hc]
      end. }
  unfold Part003.patch_points, capacity_fits in *.
  repeat case_match; simplify_eq/=; try exact I; assumption.
Qed.

Lemma backend_steps_capacity_fits now auth e s id body d :
  and_then (Backend.patch_published (isManager auth) body no_data) (fun d =>
  and_then (Backend.patch_text (e_startTime e <=? now) false (b_name body)
              with_name d) (fun d =>
  and_then (Backend.patch_text (e_startTime e <=? now) true
              (b_description body) with_description d) (fun d =>
  and_then (Backend.patch_text (e_startTime e <=? now) false
              (b_location body) with_location d) (fun d =>
  and_then (Backend.patch_startTime now (e_startTime e <=? now) body d)
    (fun d =>
  and_then (Backend.patch_endTime (e_endTime e <? now) e body d) (fun d =>
  and_then (Backend.patch_capacity (e_startTime e <=? now)
              (eventGuest_count s id) body d) (fun d =>
  Backend.patch_points (isManager auth) e body d))))))) = Go d ->
  capacity_fits (eventGuest_count s id) d.
Proof.
  intros H.
  apply and_then_Go in H as (d1 & H1 & H).
  apply and_then_Go in H as (d2 & H2 & H).
  apply and_then_Go in H as (d3 & H3 & H).
  apply and_then_Go in H as (d4 & H4 & H).
  apply and_then_Go in H as (d5 & H5 & H).
  apply and_then_Go in H as (d6 & H6 & H).
  apply and_then_Go in H as (d7 & H7 & H).
  assert (E1 : d_capacity d1 = None).
  { unfold Backend.patch_published in H1.
    repeat case_match; simplify_eq/=; reflexivity. }
  assert (E2 : d_capacity d2 = None).
  { unfold Backend.patch_text in H2.
    repeat case_match; simplify_eq/=; assumption. }
  assert (E3 : d_capacity d3 = None).
  { unfold Backend.patch_text in H3.
    repeat case_match; simplify_eq/=; assumption. }
  assert (E4 : d_capacity d4 = None).
  { unfold Backend.patch_text in H4.
    repeat case_match; simplify_eq/=; assumption. }
  assert (E5 : d_capacity d5 = None).
  { unfold Backend.patch_startTime in H5.
    repeat case_match; simplify_eq/=; assumption. }
  assert (E6 : d_capacity d6 = None).
  { unfold Backend.patch_endTime in H6.
    repeat case_match; simplify_eq/=; assumption. }
  assert (E7 : capacity_fits (eventGuest_count s id) d7).
  { unfold Backend.patch_capacity, capacity_fits in *.
    repeat case_match; simplify_eq/=; try exact I;
      match goal with
      | Hlt : num_lt ?c _ = false |- _ =>
          destruct (Qlt_le_dec c (Number (eventGuest_count s id)))
            as [Hc|Hc]; [apply num_lt_spec in Hc; congruence | exact Hc]
      end. }
  unfold Backend.patch_points, capacity_fits in *.
  repeat case_match; simplify_eq/=; try exact I; assumption.
Qed.

Lemma guest_lists_ok_event_update id d s a s' :
  capacity_fits (eventGuest_count s id) d ->
  event_update id d s = Some (a, s') ->
  guest_lists_ok s -> guest_lists_ok s'.
Proof.
  intros Hd H Hs. unfold event_update in H.
  destruct (events s !! id) as [e|] eqn:He; [|discriminate].
  destruct (data_is_valid d); [|discriminate].
  simplify_eq. apply guest_lists_ok_insert; [assumption|].
  destruct Hs as (Hcap & _ & Hint).
  unfold apply_data, capacity_fits in *. simpl.
  intros c Hc.
  destruct (d_capacity d) as [capacity|]; [|eauto].
  eapply stored_capacity_fits;
    [apply eventGuest_count_nonneg| |exact Hc].
  intros c' ->. exact Hd.
Qed.

Lemma guest_lists_ok_part003_patch now auth id body s r s' :
  Part003.patch_events_id now auth id body s = (r, s') ->
  guest_lists_ok s -> guest_lists_ok s'.
Proof.
  intros H Hs. unfold Part003.patch_events_id, reply in H.
  destruct (events s !! id) as [e|] eqn:He; [|simplify_eq; assumption].
  destruct (negb (isManager auth) && negb (isOrganizer s id auth));
    [simplify_eq; assumption|].
  match type of H with
  | match ?steps with _ => _ end = _ => destruct steps as [st|data] eqn:Hsteps
  end; [simplify_eq; assumption|].
  destruct (data_is_empty data); [simplify_eq; assumption|].
  destruct (event_update id data s) as [[a s1]|] eqn:Hup;
    [|simplify_eq; assumption].
  simplify_eq.
  eapply guest_lists_ok_event_update; [|exact Hup|assumption].
  eapply part003_steps_capacity_fits. exact Hsteps.
Qed.

Lemma guest_lists_ok_backend_patch now auth id body s r s' :
  Backend.patch_events_id now auth id body s = (r, s') ->
  guest_lists_ok s -> guest_lists_ok s'.
Proof.
  intros H Hs. unfold Backend.patch_events_id, reply in H.
  destruct (id <=? 0); [simplify_eq; assumption|].
  destruct (events s !! id) as [e|] eqn:He; [|simplify_eq; assumption].
  destruct (negb (isManager auth) && negb (isOrganizer s id auth));
    [simplify_eq; assumption|].
  match type of H with
  | match ?steps with _ => _ end = _ => destruct steps as [st|data] eqn:Hsteps
  end; [simplify_eq; assumption|].
  destruct (data_is_empty data); [simplify_eq; assumption|].
  destruct (event_update id data s) as [[a s1]|] eqn:Hup;
    [|simplify_eq; assumption].
  simplify_eq.
  eapply guest_lists_ok_event_update; [|exact Hup|assumption].
  eapply backend_steps_capacity_fits. exact Hsteps.
Qed.

Lemma part003_ledger_keeps_guest_lists q s :
  guest_lists_ok s -> guest_lists_ok (snd (Part003.handle q s)).
Proof.
  apply (part003_handle_keeps guest_lists_ok guest_lists_ok_stable
           guest_lists_ok_spend
           guest_lists_ok_post_events guest_lists_ok_part003_patch).
Qed.

Lemma backend_ledger_keeps_guest_lists q s :
  guest_lists_ok s -> guest_lists_ok (snd (Backend.handle q s)).
Proof.
  apply (backend_handle_keeps guest_lists_ok guest_lists_ok_stable
           guest_lists_ok_upsert guest_lists_ok_spend
           guest_lists_ok_post_events guest_lists_ok_backend_patch).
Qed.

Lemma guest_lists_ok_create eventId userId e s a s' :
  events s !! eventId = Some e -> is_full s eventId e = false ->
  eventGuest_create eventId userId s = Some (a, s') ->
  guest_lists_ok s -> guest_lists_ok s'.
Proof.
  intros He Hroom H (Hcap & Hfk & Hint). unfold eventGuest_create in H.
  case_bool_decide as Hnew; [discriminate|].
  destruct (references_exist eventId userId s); [|discriminate].
  simplify_eq. repeat split.
  - intros id e' c He' Hc. simpl in He'.
    rewrite eventGuest_count_insert by assumption.
    destruct (Z.eqb_spec eventId id) as [->|_].
    + assert (e' = e) by congruence. subst e'.
      unfold is_full in Hroom. rewrite Hc in Hroom.
      apply integer_room; [exact (Hint _ _ _ He Hc) | exact Hroom].
    + rewrite Z.add_0_r. exact (Hcap _ _ _ He' Hc).
  - intros id u Hin. simpl in *.
    apply elem_of_union in Hin as [Hin|Hin].
    + apply elem_of_singleton in Hin. simplify_eq. eauto.
    + exact (Hfk _ _ Hin).
  - exact Hint.
Qed.

Lemma guest_lists_ok_delete eventId userId s a s' :
  eventGuest_delete eventId userId s = Some (a, s') ->
  guest_lists_ok s -> guest_lists_ok s'.
Proof.
  intros H (Hcap & Hfk & Hint). unfold eventGuest_delete in H.
  case_bool_decide as Hin; [|discriminate].
  simplify_eq. repeat split.
  - intros id e c He Hc. simpl in He.
    rewrite eventGuest_count_delete by assumption.
    specialize (Hcap _ _ _ He Hc).
    eapply Qle_trans; [|exact Hcap].
    unfold Number. rewrite <- Zle_Qle. destruct (eventId =? id); lia.
  - intros id u Hin'. simpl in *.
    apply elem_of_difference in Hin' as [Hin' _]. exact (Hfk _ _ Hin').
  - exact Hint.
Qed.

Lemma guest_lists_ok_organizers f s :
  guest_lists_ok s -> guest_lists_ok (set_eventOrganizers f s).
Proof. intros H. exact H. Qed.

Lemma existsb_event_false (g : gset (Z * Z)) id userId :
  existsb (fun p => fst p =? id) (elements g) = false -> (id, userId) ∉ g.
Proof.
  intros H Hin.
  assert (E : existsb (fun p => fst p =? id) (elements g) = true);
    [|congruence].
  apply existsb_exists. exists (id, userId). split.
  - apply list_elem_of_In, elem_of_elements, Hin.
  - apply Z.eqb_refl.
Qed.

Lemma guest_lists_ok_event_delete id s a s' :
  event_delete id s = Some (a, s') ->
  guest_lists_ok s -> guest_lists_ok s'.
Proof.
  intros H (Hcap & Hfk & Hint). unfold event_delete in H.
  destruct (events s !! id) as [e|] eqn:He; [|discriminate].
  destruct (existsb _ _ || existsb _ _) eqn:Href; [discriminate|].
  apply orb_false_elim in Href as [_ Hguests].
  simplify_eq. repeat split.
  - intros id' e' c He' Hc. simpl in He'.
    apply lookup_delete_Some in He' as [_ He'].
    exact (Hcap _ _ _ He' Hc).
  - intros id' u Hin. simpl in *.
    rewrite lookup_delete_ne; [exact (Hfk _ _ Hin)|].
    intros <-. exact (existsb_event_false _ _ _ Hguests Hin).
  - intros id' e' c He' Hc. simpl in He'.
    apply lookup_delete_Some in He' as [_ He'].
    exact (Hint _ _ _ He' Hc).
Qed.

(** Brings a handler of this part down to its outcomes. *)
Ltac answer_cases H :=
  unfold commit in H; repeat case_match; repeat case_bool_decide;
  simplify_eq/=; try assumption.

Lemma part003_guests_handle_keeps q s :
  guest_lists_ok s -> guest_lists_ok (Part003_Guests.handle q s).
Proof.
  intros Hs. destruct q; simpl.
  - apply part003_ledger_keeps_guest_lists, Hs.
  - destruct (Part003_Guests.delete_events_id auth id s) as [r s'] eqn:H.
    unfold Part003_Guests.delete_events_id in H. answer_cases H.
    eapply guest_lists_ok_event_delete; eassumption.
  - destruct (Shared_Guests.delete_events_id_organizers_userId auth eventId
                userId s) as [r s'] eqn:H.
    unfold Shared_Guests.delete_events_id_organizers_userId,
      eventOrganizer_delete in H.
    answer_cases H.
  - destruct (Shared_Guests.delete_events_id_guests_userId auth eventId
                userId s) as [r s'] eqn:H.
    unfold Shared_Guests.delete_events_id_guests_userId in H.
    answer_cases H. eapply guest_lists_ok_delete; eassumption.
  - destruct (Part003_Guests.post_events_id_guests_me now auth eventId s)
      as [r s'] eqn:H.
    unfold Part003_Guests.post_events_id_guests_me in H. answer_cases H.
    eapply guest_lists_ok_create; eassumption.
  - destruct (Part003_Guests.delete_events_id_guests_me auth eventId s)
      as [r s'] eqn:H.
    unfold Part003_Guests.delete_events_id_guests_me in H. answer_cases H.
Qed.

Lemma backend_guests_handle_keeps q s :
  guest_lists_ok s -> guest_lists_ok (Backend_Guests.handle q s).
Proof.
  intros Hs. destruct q; simpl.
  - apply backend_ledger_keeps_guest_lists, Hs.
  - destruct (Backend_Guests.post_events_id_organizers now auth eventId
                utorid s) as [r s'] eqn:H.
    unfold Backend_Guests.post_events_id_organizers, eventOrganizer_upsert
      in H.
    answer_cases H.
  - destruct (Shared_Guests.delete_events_id_organizers_userId auth eventId
                userId s) as [r s'] eqn:H.
    unfold Shared_Guests.delete_events_id_organizers_userId,
      eventOrganizer_delete in H.
    answer_cases H.
  - destruct (Backend_Guests.post_events_id_guests now auth eventId utorid s)
      as [r s'] eqn:H.
    unfold Backend_Guests.post_events_id_guests in H. answer_cases H.
    eapply guest_lists_ok_create; eassumption.
  - destruct (Shared_Guests.delete_events_id_guests_userId auth eventId
                userId s) as [r s'] eqn:H.
    unfold Shared_Guests.delete_events_id_guests_userId in H.
    answer_cases H. eapply guest_lists_ok_delete; eassumption.
  - destruct (Backend_Guests.post_events_id_guests_me now auth eventId s)
      as [r s'] eqn:H.
    unfold Backend_Guests.post_events_id_guests_me in H. answer_cases H.
    eapply guest_lists_ok_create; eassumption.
  - destruct (Backend_Guests.delete_events_id_guests_me now auth eventId s)
      as [r s'] eqn:H.
    unfold Backend_Guests.delete_events_id_guests_me in H. answer_cases H.
    eapply guest_lists_ok_delete; eassumption.
Qed.

Lemma part003_guests_run_keeps (P : Store -> Prop) qs s :
  (forall q s, P s -> P (Part003_Guests.handle q s)) ->
  P s -> P (Part003_Guests.run qs s).
Proof.
  intros Hstep. unfold Part003_Guests.run. revert s.
  induction qs as [|q qs IH]; intros s Hs; simpl; [assumption|].
  apply IH, Hstep, Hs.
Qed.

Lemma backend_guests_run_keeps (P : Store -> Prop) qs s :
  (forall q s, P s -> P (Backend_Guests.handle q s)) ->
  P s -> P (Backend_Guests.run qs s).
Proof.
  intros Hstep. unfold Backend_Guests.run. revert s.
  induction qs as [|q qs IH]; intros s Hs; simpl; [assumption|].
  apply IH, Hstep, Hs.
Qed.

(** The ledger requests keep every fact that reads neither the ledger
    tables nor the events. *)
Lemma part003_ledger_keeps (P : Store -> Prop) q s :
  stable P -> ignores_events P -> ignores set_userPromotionUsage P ->
  P s -> P (snd (Part003.handle q s)).
Proof.
  intros Hst Hev Hup.
  apply (part003_handle_keeps P Hst).
  - intros id n. apply frame_event_update_budget, Hev.
  - intros. eapply post_events_keeps; eassumption.
  - intros. eapply part003_patch_keeps; eassumption.
Qed.

Lemma backend_ledger_keeps (P : Store -> Prop) q s :
  stable P -> ignores_events P -> ignores set_userPromotionUsage P ->
  P s -> P (snd (Backend.handle q s)).
Proof.
  intros Hst Hev Hup.
  apply (backend_handle_keeps P Hst).
  - intros userId pid now. apply frame_userPromotionUsage_upsert, Hup.
  - intros id n. apply frame_event_update_budget, Hev.
  - intros. eapply post_events_keeps; eassumption.
  - intros. eapply backend_patch_keeps; eassumption.
Qed.

Lemma roles_apart_add_guest eventId userId s :
  (eventId, userId) ∉ eventOrganizers s -> roles_apart s ->
  roles_apart (set_eventGuests (fun g => {[ (eventId, userId) ]} ∪ g) s).
Proof.
  intros Hno Hs p Hp Hin. simpl in *.
  apply elem_of_union in Hin as [Hin|Hin].
  - apply elem_of_singleton in Hin. subst p. contradiction.
  - exact (Hs p Hp Hin).
Qed.

Lemma roles_apart_add_organizer eventId userId s :
  (eventId, userId) ∉ eventGuests s -> roles_apart s ->
  roles_apart (set_eventOrganizers (fun g => {[ (eventId, userId) ]} ∪ g) s).
Proof.
  intros Hno Hs p Hp Hin. simpl in *.
  apply elem_of_union in Hp as [Hp|Hp].
  - apply elem_of_singleton in Hp. subst p. contradiction.
  - exact (Hs p Hp Hin).
Qed.

Lemma roles_apart_drop_guest p s :
  roles_apart s -> roles_apart (set_eventGuests (fun g => g ∖ {[ p ]}) s).
Proof.
  intros Hs q Hq Hin. simpl in *.
  apply elem_of_difference in Hin as [Hin _]. exact (Hs q Hq Hin).
Qed.

Lemma roles_apart_drop_organizer p s :
  roles_apart s ->
  roles_apart (set_eventOrganizers (fun g => g ∖ {[ p ]}) s).
Proof.
  intros Hs q Hq Hin. simpl in *.
  apply elem_of_difference in Hq as [Hq _]. exact (Hs q Hq Hin).
Qed.

Lemma backend_guests_handle_keeps_apart q s :
  roles_apart s -> roles_apart (Backend_Guests.handle q s).
Proof.
  intros Hs. destruct q; simpl.
  - apply backend_ledger_keeps; try assumption.
    + split; [|split]; intros f s0 H; exact H.
    + intros f n s0 H; exact H.
    + intros f s0 H; exact H.
  - destruct (Backend_Guests.post_events_id_organizers now auth eventId
                utorid s) as [r s'] eqn:H.
    unfold Backend_Guests.post_events_id_organizers, eventOrganizer_upsert
      in H.
    answer_cases H. apply roles_apart_add_organizer; assumption.
  - destruct (Shared_Guests.delete_events_id_organizers_userId auth eventId
                userId s) as [r s'] eqn:H.
    unfold Shared_Guests.delete_events_id_organizers_userId,
      eventOrganizer_delete in H.
    answer_cases H. apply roles_apart_drop_organizer; assumption.
  - destruct (Backend_Guests.post_events_id_guests now auth eventId utorid s)
      as [r s'] eqn:H.
    unfold Backend_Guests.post_events_id_guests, eventGuest_create in H.
    answer_cases H. apply roles_apart_add_guest; assumption.
  - destruct (Shared_Guests.delete_events_id_guests_userId auth eventId
                userId s) as [r s'] eqn:H.
    unfold Shared_Guests.delete_events_id_guests_userId, eventGuest_delete
      in H.
    answer_cases H. apply roles_apart_drop_guest; assumption.
  - destruct (Backend_Guests.post_events_id_guests_me now auth eventId s)
      as [r s'] eqn:H.
    unfold Backend_Guests.post_events_id_guests_me, eventGuest_create in H.
    answer_cases H. apply roles_apart_add_guest; assumption.
  - destruct (Backend_Guests.delete_events_id_guests_me now auth eventId s)
      as [r s'] eqn:H.
    unfold Backend_Guests.delete_events_id_guests_me, eventGuest_delete in H.
    answer_cases H. apply roles_apart_drop_guest; assumption.
Qed.

(** ** Published events *)

(** [PATCH /events/:id] never writes [published: false]. *)
Lemma part003_steps_publish now auth e n body d :
  and_then (Part003.patch_published (isManager auth) body no_data) (fun d =>
  and_then (Part003.patch_text (e_startTime e <=? now) (b_name body)
              with_name d) (fun d =>
  and_then (Part003.patch_text (e_startTime e <=? now) (b_description body)
              with_description d) (fun d =>
  and_then (Part003.patch_text (e_startTime e <=? now) (b_location body)
              with_location d) (fun d =>
  and_then (Part003.patch_startTime now (e_startTime e <=? now) body d)
    (fun d =>
  and_then (Part003.patch_endTime (e_endTime e <? now) e body d) (fun d =>
  and_then (Part003.patch_capacity (e_startTime e <=? now) n e body d)
    (fun d =>
  Part003.patch_points (isManager auth) e body d))))))) = Go d ->
  d_published d <> Some false.
Proof.
  intros H.
  apply and_then_Go in H as (d1 & H1 & H).
  apply and_then_Go in H as (d2 & H2 & H).
  apply and_then_Go in H as (d3 & H3 & H).
  apply and_then_Go in H as (d4 & H4 & H).
  apply and_then_Go in H as (d5 & H5 & H).
  apply and_then_Go in H as (d6 & H6 & H).
  apply and_then_Go in H as (d7 & H7 & H).
  assert (E1 : d_published d1 <> Some false).
  { unfold Part003.patch_published in H1.
    repeat case_match; simplify_eq/=; discriminate. }
  assert (E2 : d_published d2 <> Some false).
  { unfold Part003.patch_text in H2.
    repeat case_match; simplify_eq/=; assumption. }
  assert (E3 : d_published d3 <> Some false).
  { unfold Part003.patch_text in H3.
    repeat case_match; simplify_eq/=; assumption. }
  assert (E4 : d_published d4 <> Some false).
  { unfold Part003.patch_text in H4.
    repeat case_match; simplify_eq/=; assumption. }
  assert (E5 : d_published d5 <> Some false).
  { unfold Part003.patch_startTime in H5.
    repeat case_match; simplify_eq/=; assumption. }
  assert (E6 : d_published d6 <> Some false).
  { unfold Part003.patch_endTime in H6.
    repeat case_match; simplify_eq/=; assumption. }
  assert (E7 : d_published d7 <> Some false).
  { unfold Part003.patch_capacity in H7.
    repeat case_match; simplify_eq/=; assumption. }
  unfold Part003.patch_points in H.
  repeat case_match; simplify_eq/=; assumption.
Qed.

Lemma published_event_insert id id' e' n s :
  (forall e, events s !! id' = Some e -> id' = id ->
     e_published e = true -> e_published e' = true) ->
  is_Some (events s !! id') \/ id' <> id ->
  published_event id s ->
  published_event id (set_events <[id' := e']> n s).
Proof.
  intros Hkeep Hkey (e & He & Hp). unfold published_event. simpl.
  destruct (decide (id' = id)) as [->|Hne].
  - rewrite lookup_insert_eq. eexists. split; [reflexivity|]. eauto.
  - rewrite lookup_insert_ne by exact Hne. eauto.
Qed.

Lemma published_event_stable id : stable (published_event id).
Proof. split; [|split]; intros f s H; exact H. Qed.

Lemma published_event_spend id id' n :
  tx_preserves (published_event id) (event_update_budget id' n).
Proof.
  intros s a s' H Hs. unfold event_update_budget in H.
  destruct (events s !! id') as [e|] eqn:He; [|discriminate].
  simplify_eq. apply published_event_insert; [|eauto|assumption].
  intros e0 He0 _ Hp. simpl. congruence.
Qed.

Lemma published_event_post_events id auth name description location
    startTime endTime capacity points s r s' :
  Shared.post_events auth name description location startTime endTime
    capacity points s = (r, s') ->
  published_event id s -> published_event id s'.
Proof.
  intros H Hs. unfold Shared.post_events, reply, event_create in H.
  repeat case_match; simplify_eq/=; try assumption;
    (apply published_event_insert; [congruence| |assumption]);
    right; intros E; destruct Hs as (e & He & _); congruence.
Qed.

Lemma published_event_part003_patch id now auth id' body s r s' :
  Part003.patch_events_id now auth id' body s = (r, s') ->
  published_event id s -> published_event id s'.
Proof.
  intros H Hs. unfold Part003.patch_events_id, reply in H.
  destruct (events s !! id') as [e|] eqn:He; [|simplify_eq; assumption].
  destruct (negb (isManager auth) && negb (isOrganizer s id' auth));
    [simplify_eq; assumption|].
  match type of H with
  | match ?steps with _ => _ end = _ => destruct steps as [st|data] eqn:Hsteps
  end; [simplify_eq; assumption|].
  destruct (data_is_empty data); [simplify_eq; assumption|].
  destruct (event_update id' data s) as [[a s1]|] eqn:Hup;
    [|simplify_eq; assumption].
  simplify_eq. apply part003_steps_publish in Hsteps.
  unfold event_update in Hup. rewrite He in Hup.
  destruct (data_is_valid data); [|discriminate]. simplify_eq.
  apply published_event_insert; [|eauto|assumption].
  intros e0 He0 _ Hp. assert (e0 = e) by congruence. subst e0.
  unfold apply_data. simpl.
  destruct (d_published data) as [[|]|]; simpl; congruence.
Qed.

Lemma published_event_event_delete id id' s a s' :
  id' <> id -> event_delete id' s = Some (a, s') ->
  published_event id s -> published_event id s'.
Proof.
  intros Hne H (e & He & Hp). unfold event_delete in H.
  repeat case_match; simplify_eq.
  exists e. simpl. rewrite lookup_delete_ne by exact Hne. eauto.
Qed.

Lemma part003_guests_handle_keeps_published id q s :
  published_event id s -> published_event id (Part003_Guests.handle q s).
Proof.
  intros Hs. destruct q; simpl.
  - apply (part003_handle_keeps (published_event id)
             (published_event_stable id)); try assumption.
    + apply published_event_spend.
    + apply published_event_post_events.
    + apply published_event_part003_patch.
  - destruct (Part003_Guests.delete_events_id auth id0 s) as [r s'] eqn:H.
    unfold Part003_Guests.delete_events_id in H. answer_cases H.
    eapply published_event_event_delete; [|eassumption|assumption].
    intros ->. destruct Hs as (e' & He' & Hp). congruence.
  - destruct (Shared_Guests.delete_events_id_organizers_userId auth eventId
                userId s) as [r s'] eqn:H.
    unfold Shared_Guests.delete_events_id_organizers_userId,
      eventOrganizer_delete in H.
    answer_cases H.
  - destruct (Shared_Guests.delete_events_id_guests_userId auth eventId
                userId s) as [r s'] eqn:H.
    unfold Shared_Guests.delete_events_id_guests_userId, eventGuest_delete
      in H.
    answer_cases H.
  - destruct (Part003_Guests.post_events_id_guests_me now auth eventId s)
      as [r s'] eqn:H.
    unfold Part003_Guests.post_events_id_guests_me, eventGuest_create in H.
    answer_cases H.
  - destruct (Part003_Guests.delete_events_id_guests_me auth eventId s)
      as [r s'] eqn:H.
    unfold Part003_Guests.delete_events_id_guests_me, eventGuest_delete in H.
    answer_cases H.
Qed.

(** ** The guest lists through a sequence of requests *)

Lemma guest_lists_ok_demo : guest_lists_ok demo.
Proof.
  assert (He : forall id e, events demo !! id = Some e ->
                 id = 1 /\ e_capacity e = None).
  { intros id e H. unfold demo, demo_events in H. simpl in H.
    apply lookup_insert_Some in H as [[<- <-]|[_ H]]; [auto|].
    rewrite lookup_empty in H. discriminate. }
  split; [|split].
  - intros id e c H Hc. apply He in H as [_ H]. congruence.
  - intros eventId userId Hin. unfold demo in Hin. simpl in Hin.
    assert (eventId = 1) as ->.
    { apply elem_of_union in Hin as [Hin|Hin];
        apply elem_of_singleton in Hin; congruence. }
    vm_compute. eauto.
  - intros id e c H Hc. apply He in H as [_ H]. congruence.
Qed.

(** X5.  In the second listing, through every sequence of ledger requests
    and guest-list requests (organizer added or removed, guest added by a
    manager or organizer, removed by a manager, self RSVP and its
    cancellation), no event holds more guests than its capacity, every
    guest row refers to an event of the store and every capacity is an
    integer, when that holds of the store the sequence starts from.  A
    capacity that the body gives as a fraction is stored cut to an integer,
    which still covers the guests the event has. *)
Theorem backend_guest_lists_stay_within_capacity qs s :
  guest_lists_ok s -> guest_lists_ok (Backend_Guests.run qs s).
Proof.
  apply backend_guests_run_keeps. apply backend_guests_handle_keeps.
Qed.

Lemma backend_guest_lists_stay_within_capacity_witness :
  guest_lists_ok demo
  /\ (let s := Backend_Guests.run backend_guest_requests demo in
      guest_lists_ok s
      /\ (exists e, events s !! 2 = Some e /\ e_capacity e = Some (1 # 1)%Q)
      /\ guests_of s 2 = [3]).
Proof.
  split; [exact guest_lists_ok_demo|]. intros s. split; [|split].
  - apply (backend_guest_lists_stay_within_capacity backend_guest_requests
             demo guest_lists_ok_demo).
  - eexists. split; vm_compute; reflexivity.
  - vm_compute. reflexivity.
Defined.

(** X6.  In part_003, through every sequence of ledger requests, event
    deletions, organizer and guest removals, self RSVPs and requests to
    cancel one, no event holds more guests than its capacity, every guest
    row refers to an event of the store and every capacity is an integer,
    when that holds of the store the sequence starts from. *)
Theorem part003_guest_lists_stay_within_capacity qs s :
  guest_lists_ok s -> guest_lists_ok (Part003_Guests.run qs s).
Proof.
  apply part003_guests_run_keeps. apply part003_guests_handle_keeps.
Qed.

Lemma part003_guest_lists_stay_within_capacity_witness :
  guest_lists_ok demo
  /\ (let s := Part003_Guests.run part003_guest_requests demo in
      guest_lists_ok s
      /\ (exists e, events s !! 2 = Some e /\ e_capacity e = Some (1 # 1)%Q)
      /\ guests_of s 2 = [3]).
Proof.
  split; [exact guest_lists_ok_demo|]. intros s. split; [|split].
  - apply (part003_guest_lists_stay_within_capacity part003_guest_requests
             demo guest_lists_ok_demo).
  - eexists. split; vm_compute; reflexivity.
  - vm_compute. reflexivity.
Defined.

Lemma roles_apart_demo : roles_apart demo.
Proof.
  intros p Hp Hin. unfold demo in *. simpl in *.
  apply elem_of_singleton in Hp. subst p.
  apply elem_of_union in Hin as [Hin|Hin];
    apply elem_of_singleton in Hin; discriminate.
Qed.

(** X7.  In the second listing, through every sequence of ledger and
    guest-list requests, nobody is at once an organizer and a guest of the
    same event, when nobody is in the store the sequence starts from. *)
Theorem backend_organizers_and_guests_stay_apart qs s :
  roles_apart s -> roles_apart (Backend_Guests.run qs s).
Proof.
  apply backend_guests_run_keeps. apply backend_guests_handle_keeps_apart.
Qed.

Lemma backend_organizers_and_guests_stay_apart_witness :
  roles_apart demo
  /\ (let s := Backend_Guests.run backend_guest_requests demo in
      roles_apart s
      /\ elements (eventOrganizers s) = [(1, 2); (2, 4)]
      /\ guests_of s 2 = [3]).
Proof.
  split; [exact roles_apart_demo|]. intros s. split; [|split].
  - apply (backend_organizers_and_guests_stay_apart backend_guest_requests
             demo roles_apart_demo).
  - vm_compute. reflexivity.
  - vm_compute. reflexivity.
Defined.

(** X8.  In part_003, an event that is published stays in the store and
    stays published through every sequence of ledger requests, event
    deletions and guest-list requests: [PATCH /events/:id] never writes
    [published: false] and [DELETE /events/:id] refuses a published
    event. *)
Theorem part003_published_event_stays id qs s :
  published_event id s -> published_event id (Part003_Guests.run qs s).
Proof.
  apply (part003_guests_run_keeps (published_event id)).
  apply part003_guests_handle_keeps_published.
Qed.

Lemma part003_published_event_stays_witness :
  let s := Part003_Guests.run (firstn 2 part003_guest_requests) demo in
  published_event 2 s
  /\ published_event 2
       (Part003_Guests.run (skipn 2 part003_guest_requests) s).
Proof.
  intros s.
  assert (Hs : published_event 2 s).
  { eexists. split; vm_compute; reflexivity. }
  split; [exact Hs|].
  apply (part003_published_event_stays 2 (skipn 2 part003_guest_requests) s
           Hs).
Defined.

(** ** One guest-list request *)

(** X9.  [DELETE /events/:id] of part_003 answers 204 only to a manager,
    for an unpublished event to which no organizer or guest row refers,
    and then removes that event and nothing else; with any other answer
    the store is as it was. *)
Theorem part003_delete_event_effect auth id s :
  let out := Part003_Guests.delete_events_id auth id s in
  (fst out = NoContent ->
     needRole manager auth = true
     /\ (exists e, events s !! id = Some e /\ e_published e = false)
     /\ (forall userId,
           ((id, userId) ∉ eventOrganizers s)
           /\ ((id, userId) ∉ eventGuests s))
     /\ snd out = set_events (delete id) (eventSeq s) s)
  /\ (fst out <> NoContent -> snd out = s).
Proof.
  simpl. unfold Part003_Guests.delete_events_id, commit, event_delete.
  destruct (needRole manager auth); simpl;
    [|split; [discriminate|reflexivity]].
  destruct (events s !! id) as [e|] eqn:He;
    [|split; [discriminate|reflexivity]].
  destruct (e_published e) eqn:Hp; [split; [discriminate|reflexivity]|].
  destruct (existsb _ _ || existsb _ _) eqn:Href; simpl;
    [split; [discriminate|reflexivity]|].
  apply orb_false_elim in Href as [Horg Hguests].
  split; [|congruence]. intros _. repeat split; eauto.
  - eapply existsb_event_false, Horg.
  - eapply existsb_event_false, Hguests.
Qed.

(** X10.  The two listings check a self RSVP in different orders and can
    answer a refused one differently, yet for a positive event id they
    accept the same requests and leave the same store. *)
Theorem listings_agree_on_rsvp now auth eventId s :
  0 < eventId ->
  (fst (Part003_Guests.post_events_id_guests_me now auth eventId s)
   = Json Created
   <-> fst (Backend_Guests.post_events_id_guests_me now auth eventId s)
       = Json Created)
  /\ snd (Part003_Guests.post_events_id_guests_me now auth eventId s)
     = snd (Backend_Guests.post_events_id_guests_me now auth eventId s).
Proof.
  intros Hid. apply Z.leb_gt in Hid.
  unfold Part003_Guests.post_events_id_guests_me,
    Backend_Guests.post_events_id_guests_me, commit.
  rewrite Hid.
  destruct (events s !! eventId) as [e|]; [|split; [tauto|reflexivity]].
  destruct (negb (e_published e)); [split; [tauto|reflexivity]|].
  destruct (e_endTime e <? now); [split; [tauto|reflexivity]|].
  destruct (bool_decide ((eventId, a_id auth) ∈ eventGuests s));
    destruct (bool_decide ((eventId, a_id auth) ∈ eventOrganizers s));
    destruct (is_full s eventId e); simpl;
    try (split; [split; discriminate|reflexivity]).
  destruct (eventGuest_create eventId (a_id auth) s) as [[[] s']|]; simpl;
    split; tauto.
Qed.

Lemma listings_agree_on_rsvp_witness :
  let s := Backend_Guests.run (firstn 2 backend_guest_requests) demo in
  fst (Part003_Guests.post_events_id_guests_me 6 bob 2 s) = Json Created
  /\ fst (Backend_Guests.post_events_id_guests_me 6 bob 2 s) = Json Created
  /\ snd (Part003_Guests.post_events_id_guests_me 6 bob 2 s)
     = snd (Backend_Guests.post_events_id_guests_me 6 bob 2 s).
Proof.
  intros s.
  destruct (listings_agree_on_rsvp 6 bob 2 s) as [Hiff Heq]; [lia|].
  assert (H : fst (Part003_Guests.post_events_id_guests_me 6 bob 2 s)
              = Json Created) by (vm_compute; reflexivity).
  split; [exact H|]. split; [apply Hiff, H | exact Heq].
Defined.

Lemma drop_added_guest p s :
  p ∉ eventGuests s ->
  set_eventGuests (fun g => g ∖ {[ p ]})
    (set_eventGuests (fun g => {[ p ]} ∪ g) s) = s.
Proof.
  intros Hnew. destruct s as [us ts ps tps upu es n os gs].
  unfold set_eventGuests. simpl in *. f_equal.
  apply set_eq. intros q.
  rewrite elem_of_difference, elem_of_union, elem_of_singleton.
  destruct (decide (q = p)); subst; tauto.
Qed.

(** X11.  In the second listing a self RSVP followed by its cancellation
    no later than the end of the event gives the store back.  In part_003
    the cancellation is never carried out: the request is taken by the
    route of a manager's removal of a guest, which answers 403 below
    manager and 404 otherwise, and the caller stays a guest. *)
Theorem backend_rsvp_then_cancel_restores :
  (forall now now' auth eventId s e,
     fst (Backend_Guests.post_events_id_guests_me now auth eventId s)
     = Json Created ->
     events s !! eventId = Some e -> now' <= e_endTime e ->
     Backend_Guests.delete_events_id_guests_me now' auth eventId
       (snd (Backend_Guests.post_events_id_guests_me now auth eventId s))
     = (NoContent, s))
  /\ (forall now auth eventId s,
        fst (Part003_Guests.post_events_id_guests_me now auth eventId s)
        = Json Created ->
        let s1 :=
          snd (Part003_Guests.post_events_id_guests_me now auth eventId s) in
        (eventId, a_id auth) ∈ eventGuests s1
        /\ Part003_Guests.delete_events_id_guests_me auth eventId s1
           = (Json (if needRole manager auth then NotFound else Forbidden),
              s1)).
Proof.
  split.
  - intros now now' auth eventId s e H He Hend. revert H.
    unfold Backend_Guests.post_events_id_guests_me, commit,
      eventGuest_create.
    rewrite He.
    repeat case_match; repeat case_bool_decide; simplify_eq/=;
      try discriminate.
    intros _. unfold Backend_Guests.delete_events_id_guests_me, commit,
      eventGuest_delete. simpl. rewrite He.
    apply Z.ltb_ge in Hend. rewrite Hend.
    rewrite bool_decide_eq_true_2
      by (apply elem_of_union_l, elem_of_singleton; reflexivity).
    simpl. now rewrite drop_added_guest.
  - intros now auth eventId s H s1. split.
    + subst s1. revert H.
      unfold Part003_Guests.post_events_id_guests_me, commit,
        eventGuest_create.
      repeat case_match; repeat case_bool_decide; simplify_eq/=;
        try discriminate.
      intros _. apply elem_of_union_l, elem_of_singleton. reflexivity.
    + unfold Part003_Guests.delete_events_id_guests_me.
      destruct (needRole manager auth); reflexivity.
Qed.

Lemma backend_rsvp_then_cancel_restores_witness :
  let s := Backend_Guests.run (firstn 2 backend_guest_requests) demo in
  Backend_Guests.delete_events_id_guests_me 40 bob 2
    (snd (Backend_Guests.post_events_id_guests_me 6 bob 2 s))
  = (NoContent, s)
  /\ (let s1 := snd (Part003_Guests.post_events_id_guests_me 6 bob 2 s) in
      (2, 3) ∈ eventGuests s1
      /\ Part003_Guests.delete_events_id_guests_me bob 2 s1
         = (Json Forbidden, s1)).
Proof.
  intros s. destruct backend_rsvp_then_cancel_restores as [Hb Hp]. split.
  - eapply Hb; [vm_compute; reflexivity | vm_compute; reflexivity
               | vm_compute; discriminate].
  - apply (Hp 6 bob 2 s). vm_compute. reflexivity.
Defined.

(** X12.  In the second listing an event that has ended takes no new
    organizer and no new guest, and no guest withdraws from it: each of
    these requests leaves the store as it was.  A manager who names a user
    is answered 410 when adding an organizer, and when adding a guest to a
    published event; a self RSVP for a published event with a positive id
    and a cancellation are answered 410. *)
Theorem backend_ended_event_is_closed now auth eventId e s :
  events s !! eventId = Some e -> e_endTime e < now ->
  (forall utorid,
     snd (Backend_Guests.post_events_id_organizers now auth eventId utorid s)
     = s
     /\ snd (Backend_Guests.post_events_id_guests now auth eventId utorid s)
        = s
     /\ (needRole manager auth = true -> utorid <> ""%string ->
         fst (Backend_Guests.post_events_id_organizers now auth eventId
                utorid s) = Json Gone
         /\ (e_published e = true ->
             fst (Backend_Guests.post_events_id_guests now auth eventId
                    utorid s) = Json Gone)))
  /\ snd (Backend_Guests.post_events_id_guests_me now auth eventId s) = s
  /\ (0 < eventId -> e_published e = true ->
      fst (Backend_Guests.post_events_id_guests_me now auth eventId s)
      = Json Gone)
  /\ Backend_Guests.delete_events_id_guests_me now auth eventId s
     = (Json Gone, s).
Proof.
  intros He Hend. apply Z.ltb_lt in Hend.
  unfold Backend_Guests.post_events_id_organizers,
    Backend_Guests.post_events_id_guests,
    Backend_Guests.post_events_id_guests_me,
    Backend_Guests.delete_events_id_guests_me.
  rewrite He, Hend. split; [|split; [|split]].
  - intros utorid. split; [|split].
    + repeat case_match; reflexivity.
    + repeat case_match; reflexivity.
    + intros Hm Hname. apply String.eqb_neq in Hname.
      rewrite Hm, Hname. simpl.
      unfold needRole in Hm. unfold isManager. rewrite Hm. simpl.
      split; [reflexivity|]. intros ->.
      rewrite andb_false_r. reflexivity.
  - repeat case_match; reflexivity.
  - intros Hid Hp. apply Z.leb_gt in Hid. rewrite Hid, Hp. reflexivity.
  - reflexivity.
Qed.

Lemma backend_ended_event_is_closed_witness :
  Backend_Guests.post_events_id_organizers 21 boss 1 "bob00001" demo
  = (Json Gone, demo)
  /\ snd (Backend_Guests.post_events_id_guests 21 boss 1 "trent001" demo)
     = demo
  /\ snd (Backend_Guests.post_events_id_guests_me 21 trent 1 demo) = demo
  /\ Backend_Guests.delete_events_id_guests_me 21 bob 1 demo
     = (Json Gone, demo).
Proof.
  pose (e := mkEvent "meetup" "a meetup" "BA1130" 10 20 None false 100 100 0).
  assert (He : events demo !! 1 = Some e) by (vm_compute; reflexivity).
  assert (Hend : e_endTime e < 21) by (vm_compute; reflexivity).
  destruct (backend_ended_event_is_closed 21 boss 1 e demo He Hend)
    as (Hnamed & _ & _ & _).
  destruct (backend_ended_event_is_closed 21 trent 1 e demo He Hend)
    as (_ & Hme & _ & _).
  destruct (backend_ended_event_is_closed 21 bob 1 e demo He Hend)
    as (_ & _ & _ & Hcancel).
  destruct (Hnamed "bob00001"%string) as (H1 & _ & H3).
  destruct (Hnamed "trent001"%string) as (_ & H2 & _).
  destruct H3 as [H3 _]; [reflexivity|discriminate|].
  split; [|split; [exact H2|split; [exact Hme|exact Hcancel]]].
  rewrite (surjective_pairing
             (Backend_Guests.post_events_id_organizers 21 boss 1 "bob00001"
                demo)).
  rewrite H1, H3. reflexivity.
Defined.

(** ** The data of a promotion update *)

Lemma check_then_Passed {A B} (x : Checked A) (k : A -> Checked B) b :
  check_then x k = Passed b -> exists a, x = Passed a /\ k a = Passed b.
Proof. destruct x as [st|a]; simpl; [discriminate|eauto]. Qed.

Lemma extends_refl Q data : extends Q data data.
Proof. exists []. split; [now rewrite app_nil_r | constructor]. Qed.

Lemma extends_one Q data f : Q f -> extends Q data (data ++ [f]).
Proof. intros H. exists [f]. split; [reflexivity | repeat constructor; exact H]. Qed.

Lemma extends_trans Q d1 d2 d3 :
  extends Q d1 d2 -> extends Q d2 d3 -> extends Q d1 d3.
Proof.
  intros (e1 & -> & H1) (e2 & -> & H2). exists (e1 ++ e2).
  split; [now rewrite <- (assoc_L (++)) | apply Forall_app; auto].
Qed.

Lemma extends_nil Q data : extends Q [] data -> Forall Q data.
Proof. intros (e & -> & H). exact H. Qed.

Lemma isPositiveNum_pos x :
  isPositiveNum x = true -> exists q, x = Some q /\ (0 < q)%Q.
Proof.
  destruct x as [q|]; simpl; [|discriminate].
  intros H. apply num_lt_spec in H. eauto.
Qed.

Lemma integer_trunc_nonneg q :
  num_le 0 q = true -> 0 <= Math_trunc q.
Proof.
  intros H. apply num_le_spec in H. unfold Math_trunc.
  apply Z.quot_pos; [|lia]. unfold Qle in H. simpl in H. lia.
Qed.

Lemma part003_isPositiveInt_nonneg x :
  Part003_Promotions.isPositiveInt x = true ->
  forall n, Math_trunc <$> x = Some n -> 0 <= n.
Proof.
  destruct x as [q|]; simpl; [|discriminate].
  intros H n [= <-]. apply andb_prop in H as [_ H].
  apply integer_trunc_nonneg, num_le_spec, Qlt_le_weak, num_lt_spec, H.
Qed.

Lemma backend_isPositiveInt_nonneg x :
  Backend_Promotions.isPositiveInt x = true ->
  forall n, Math_trunc <$> x = Some n -> 0 <= n.
Proof.
  destruct x as [q|]; simpl; [|discriminate].
  intros H n [= <-]. apply andb_prop in H as [_ H].
  apply integer_trunc_nonneg, H.
Qed.

(** Each block adds at most the assignment of its own key. *)
Lemma patch_number_extends Q raw mk data data' :
  (forall x, x = None \/ (exists q, x = Some q /\ (0 < q)%Q) -> Q (mk x)) ->
  Shared_Promotions.patch_number raw mk data = Passed data' ->
  extends Q data data'.
Proof.
  intros HQ H. unfold Shared_Promotions.patch_number in H.
  destruct raw as [| |x]; simplify_eq.
  - apply extends_refl.
  - apply extends_one, HQ. now left.
  - destruct (isPositiveNum x) eqn:E; simplify_eq.
    apply extends_one, HQ. right. apply isPositiveNum_pos, E.
Qed.

Lemma patch_points_extends Q isPositiveInt raw data data' :
  (forall x, isPositiveInt x = true ->
     forall n, Math_trunc <$> x = Some n -> 0 <= n) ->
  (forall x, (forall n, x = Some n -> 0 <= n) -> Q (Points x)) ->
  Shared_Promotions.patch_points isPositiveInt raw data = Passed data' ->
  extends Q data data'.
Proof.
  intros Hint HQ H. unfold Shared_Promotions.patch_points in H.
  destruct raw as [| |x]; simplify_eq.
  - apply extends_refl.
  - apply extends_one, HQ. discriminate.
  - destruct (isPositiveInt x) eqn:E; simplify_eq.
    apply extends_one, HQ. exact (Hint _ E).
Qed.

Lemma patch_rewards_extends Q isPositiveInt body data data' :
  (forall x, isPositiveInt x = true ->
     forall n, Math_trunc <$> x = Some n -> 0 <= n) ->
  (forall x, x = None \/ (exists q, x = Some q /\ (0 < q)%Q) ->
     Q (MinSpending x) /\ Q (Rate x)) ->
  (forall x, (forall n, x = Some n -> 0 <= n) -> Q (Points x)) ->
  Shared_Promotions.patch_rewards isPositiveInt body data = Passed data' ->
  extends Q data data'.
Proof.
  intros Hint Hnum Hpts H. unfold Shared_Promotions.patch_rewards in H.
  apply check_then_Passed in H as (d1 & H1 & H).
  apply check_then_Passed in H as (d2 & H2 & H).
  eapply extends_trans; [|eapply extends_trans].
  - eapply patch_number_extends; [|exact H1]. intros x Hx. apply Hnum, Hx.
  - eapply patch_number_extends; [|exact H2]. intros x Hx. apply Hnum, Hx.
  - eapply patch_points_extends; eassumption.
Qed.

Lemma patch_endTime_started_extends Q now p body data data' :
  (forall et, Q (EndTime et)) ->
  Shared_Promotions.patch_endTime_started now p body data = Passed data' ->
  extends Q data data'.
Proof.
  intros HQ H. unfold Shared_Promotions.patch_endTime_started in H.
  repeat case_match; simplify_eq;
    first [apply extends_refl | apply extends_one, HQ].
Qed.

Lemma part003_patch_text_extends Q raw mk data :
  (forall x, Q (mk x)) ->
  extends Q data (Part003_Promotions.patch_text raw mk data).
Proof.
  intros HQ. unfold Part003_Promotions.patch_text.
  destruct raw; first [apply extends_refl | apply extends_one, HQ].
Qed.

Lemma backend_patch_text_extends Q raw mk data data' :
  (forall x, Q (mk x)) ->
  Backend_Promotions.patch_text raw mk data = Passed data' ->
  extends Q data data'.
Proof.
  intros HQ H. unfold Backend_Promotions.patch_text in H.
  repeat case_match; simplify_eq;
    first [apply extends_refl | apply extends_one, HQ].
Qed.

Lemma part003_normPromoTypeIn_normal s t :
  Part003_Promotions.normPromoTypeIn s = Some t -> type_is_normal t.
Proof.
  unfold Part003_Promotions.normPromoTypeIn, type_is_normal.
  repeat case_match; intros [= <-]; auto.
Qed.

Lemma backend_normPromoTypeIn_normal s t :
  Backend_Promotions.normPromoTypeIn s = Some t -> type_is_normal t.
Proof.
  unfold Backend_Promotions.normPromoTypeIn, type_is_normal.
  repeat case_match; intros [= <-]; auto.
Qed.

Lemma part003_patch_type_extends Q body data data' :
  (forall t, type_is_normal t -> Q (Type_ t)) ->
  Part003_Promotions.patch_type body data = Passed data' ->
  extends Q data data'.
Proof.
  intros HQ H. unfold Part003_Promotions.patch_type in H.
  repeat case_match; simplify_eq;
    first [ apply extends_refl
          | eapply extends_one, HQ, part003_normPromoTypeIn_normal;
            eassumption ].
Qed.

Lemma backend_patch_type_extends Q body data data' :
  (forall t, type_is_normal t -> Q (Type_ t)) ->
  Backend_Promotions.patch_type body data = Passed data' ->
  extends Q data data'.
Proof.
  intros HQ H. unfold Backend_Promotions.patch_type in H.
  repeat case_match; simplify_eq;
    first [ apply extends_refl
          | eapply extends_one, HQ, backend_normPromoTypeIn_normal;
            eassumption ].
Qed.

Lemma part003_patch_startTime_extends Q now body data data' :
  (forall st, Q (StartTime st)) ->
  Part003_Promotions.patch_startTime now body data = Passed data' ->
  extends Q data data'.
Proof.
  intros HQ H. unfold Part003_Promotions.patch_startTime in H.
  repeat case_match; simplify_eq;
    first [apply extends_refl | apply extends_one, HQ].
Qed.

Lemma backend_patch_startTime_extends Q now body data data' :
  (forall st, Q (StartTime st)) ->
  Backend_Promotions.patch_startTime now body data = Passed data' ->
  extends Q data data'.
Proof.
  intros HQ H. unfold Backend_Promotions.patch_startTime in H.
  repeat case_match; simplify_eq;
    first [apply extends_refl | apply extends_one, HQ].
Qed.

Lemma part003_patch_endTime_extends Q p body data data' :
  (forall et, Q (EndTime et)) ->
  Part003_Promotions.patch_endTime p body data = Passed data' ->
  extends Q data data'.
Proof.
  intros HQ H. unfold Part003_Promotions.patch_endTime in H.
  repeat case_match; simplify_eq;
    first [apply extends_refl | apply extends_one, HQ].
Qed.

Lemma backend_patch_endTime_extends Q now p body data data' :
  (forall et, Q (EndTime et)) ->
  Backend_Promotions.patch_endTime now p body data = Passed data' ->
  extends Q data data'.
Proof.
  intros HQ H. unfold Backend_Promotions.patch_endTime in H.
  repeat case_match; simplify_eq;
    first [apply extends_refl | apply extends_one, HQ].
Qed.

Lemma rewards_well_formed x :
  x = None \/ (exists q, x = Some q /\ (0 < q)%Q) ->
  field_well_formed (MinSpending x) /\ field_well_formed (Rate x).
Proof. intros [->|(q & -> & Hq)]; simpl; auto. Qed.

Lemma points_well_formed x :
  (forall n, x = Some n -> 0 <= n) -> field_well_formed (Points x).
Proof. destruct x as [n|]; simpl; auto. Qed.

(** What [data] holds, by the state of the promotion at [now]: always
    well-formed assignments; none to the type or the start once the
    promotion has started; only texts once it has ended. *)
Lemma part003_patch_data_well_formed now p body data :
  Part003_Promotions.patch_data now p body = Passed data ->
  Forall field_well_formed data.
Proof.
  intros H. apply extends_nil. unfold Part003_Promotions.patch_data in H.
  assert (Htext : extends field_well_formed []
            (Part003_Promotions.patch_text (pb_description body) Description
               (Part003_Promotions.patch_text (pb_name body) Name []))).
  { eapply extends_trans; apply part003_patch_text_extends; intros; exact I. }
  destruct (p_endTime p <? now); [simplify_eq; exact Htext|].
  destruct (p_startTime p <=? now).
  - destruct (pb_type body); try discriminate.
    destruct (pb_startTime body); try discriminate.
    apply check_then_Passed in H as (d1 & H1 & H).
    eapply extends_trans; [exact Htext|]. eapply extends_trans.
    + eapply patch_endTime_started_extends; [|exact H1]. intros; exact I.
    + eapply patch_rewards_extends; [| | |exact H].
      * apply part003_isPositiveInt_nonneg.
      * apply rewards_well_formed.
      * apply points_well_formed.
  - apply check_then_Passed in H as (d1 & H1 & H).
    apply check_then_Passed in H as (d2 & H2 & H).
    apply check_then_Passed in H as (d3 & H3 & H).
    eapply extends_trans; [exact Htext|].
    eapply extends_trans;
      [eapply part003_patch_type_extends; [|exact H1]; auto|].
    eapply extends_trans;
      [eapply part003_patch_startTime_extends; [|exact H2]; intros; exact I|].
    eapply extends_trans;
      [eapply part003_patch_endTime_extends; [|exact H3]; intros; exact I|].
    eapply patch_rewards_extends; [| | |exact H].
    + apply part003_isPositiveInt_nonneg.
    + apply rewards_well_formed.
    + apply points_well_formed.
Qed.

Lemma part003_patch_data_started now p body data :
  p_startTime p <= now ->
  Part003_Promotions.patch_data now p body = Passed data ->
  Forall keeps_type_and_start data.
Proof.
  intros Hst H. apply extends_nil. unfold Part003_Promotions.patch_data in H.
  assert (Htext : extends keeps_type_and_start []
            (Part003_Promotions.patch_text (pb_description body) Description
               (Part003_Promotions.patch_text (pb_name body) Name []))).
  { eapply extends_trans; apply part003_patch_text_extends; intros; exact I. }
  destruct (p_endTime p <? now); [simplify_eq; exact Htext|].
  apply Z.leb_le in Hst. rewrite Hst in H.
  destruct (pb_type body); try discriminate.
  destruct (pb_startTime body); try discriminate.
  apply check_then_Passed in H as (d1 & H1 & H).
  eapply extends_trans; [exact Htext|]. eapply extends_trans.
  - eapply patch_endTime_started_extends; [|exact H1]. intros; exact I.
  - eapply patch_rewards_extends; [| | |exact H].
    + apply part003_isPositiveInt_nonneg.
    + intros; split; exact I.
    + intros; exact I.
Qed.

Lemma part003_patch_data_ended now p body data :
  p_endTime p < now ->
  Part003_Promotions.patch_data now p body = Passed data ->
  Forall text_field data.
Proof.
  intros Hend H. apply extends_nil. unfold Part003_Promotions.patch_data in H.
  apply Z.ltb_lt in Hend. rewrite Hend in H. simplify_eq.
  eapply extends_trans; apply part003_patch_text_extends; intros; exact I.
Qed.

Lemma backend_patch_data_well_formed now p body data :
  Backend_Promotions.patch_data now p body = Passed data ->
  Forall field_well_formed data.
Proof.
  intros H. apply extends_nil. unfold Backend_Promotions.patch_data in H.
  apply check_then_Passed in H as (t1 & Ht1 & H).
  apply check_then_Passed in H as (t2 & Ht2 & H).
  assert (Htext : extends field_well_formed [] t2).
  { eapply extends_trans; eapply backend_patch_text_extends;
      try eassumption; intros; exact I. }
  destruct (p_endTime p <? now); [simplify_eq; exact Htext|].
  destruct (p_startTime p <=? now).
  - destruct (pb_type body); try discriminate.
    destruct (pb_startTime body); try discriminate.
    apply check_then_Passed in H as (d1 & H1 & H).
    eapply extends_trans; [exact Htext|]. eapply extends_trans.
    + eapply patch_endTime_started_extends; [|exact H1]. intros; exact I.
    + eapply patch_rewards_extends; [| | |exact H].
      * apply backend_isPositiveInt_nonneg.
      * apply rewards_well_formed.
      * apply points_well_formed.
  - apply check_then_Passed in H as (d1 & H1 & H).
    apply check_then_Passed in H as (d2 & H2 & H).
    apply check_then_Passed in H as (d3 & H3 & H).
    eapply extends_trans; [exact Htext|].
    eapply extends_trans;
      [eapply backend_patch_type_extends; [|exact H1]; auto|].
    eapply extends_trans;
      [eapply backend_patch_startTime_extends; [|exact H2]; intros; exact I|].
    eapply extends_trans;
      [eapply backend_patch_endTime_extends; [|exact H3]; intros; exact I|].
    eapply patch_rewards_extends; [| | |exact H].
    + apply backend_isPositiveInt_nonneg.
    + apply rewards_well_formed.
    + apply points_well_formed.
Qed.

Lemma backend_patch_data_started now p body data :
  p_startTime p <= now ->
  Backend_Promotions.patch_data now p body = Passed data ->
  Forall keeps_type_and_start data.
Proof.
  intros Hst H. apply extends_nil. unfold Backend_Promotions.patch_data in H.
  apply check_then_Passed in H as (t1 & Ht1 & H).
  apply check_then_Passed in H as (t2 & Ht2 & H).
  assert (Htext : extends keeps_type_and_start [] t2).
  { eapply extends_trans; eapply backend_patch_text_extends;
      try eassumption; intros; exact I. }
  destruct (p_endTime p <? now); [simplify_eq; exact Htext|].
  apply Z.leb_le in Hst. rewrite Hst in H.
  destruct (pb_type body); try discriminate.
  destruct (pb_startTime body); try discriminate.
  apply check_then_Passed in H as (d1 & H1 & H).
  eapply extends_trans; [exact Htext|]. eapply extends_trans.
  - eapply patch_endTime_started_extends; [|exact H1]. intros; exact I.
  - eapply patch_rewards_extends; [| | |exact H].
    + apply backend_isPositiveInt_nonneg.
    + intros; split; exact I.
    + intros; exact I.
Qed.

Lemma backend_patch_data_ended now p body data :
  p_endTime p < now ->
  Backend_Promotions.patch_data now p body = Passed data ->
  Forall text_field data.
Proof.
  intros Hend H. apply extends_nil. unfold Backend_Promotions.patch_data in H.
  apply check_then_Passed in H as (t1 & Ht1 & H).
  apply check_then_Passed in H as (t2 & Ht2 & H).
  apply Z.ltb_lt in Hend. rewrite Hend in H. simplify_eq.
  eapply extends_trans; eapply backend_patch_text_extends;
    try eassumption; intros; exact I.
Qed.

(** What the update makes of the row. *)
Lemma fold_set_field_well_formed data p :
  Forall field_well_formed data -> promotion_well_formed p ->
  promotion_well_formed (fold_left set_field data p).
Proof.
  intros Hdata. revert p.
  induction Hdata as [|f data Hf _ IH]; intros p Hp; simpl; [exact Hp|].
  apply IH. destruct Hp as (Ht & Hm & Hr & Hn).
  destruct f as [[x|]|x|x|x|x|[x|]|[x|]|[x|]]; simpl in *;
    repeat split; simpl; auto; intros ? [=]; subst; auto.
Qed.

Lemma fold_set_field_started data p :
  Forall keeps_type_and_start data ->
  p_type (fold_left set_field data p) = p_type p
  /\ p_startTime (fold_left set_field data p) = p_startTime p.
Proof.
  intros Hdata. revert p.
  induction Hdata as [|f data Hf _ IH]; intros p; simpl; [auto|].
  destruct (IH (set_field p f)) as [-> ->].
  destruct f as [[x|]|x|x|x|x|x|x|x]; simpl in *; try contradiction; auto.
Qed.

Lemma same_but_name_refl p : same_but_name p p.
Proof. repeat split. Qed.

Lemma fold_set_field_ended data p :
  Forall text_field data -> same_but_name p (fold_left set_field data p).
Proof.
  intros Hdata. revert p.
  induction Hdata as [|f data Hf _ IH]; intros p; simpl;
    [apply same_but_name_refl|].
  destruct (IH (set_field p f)) as (E1 & E2 & E3 & E4 & E5 & E6).
  unfold same_but_name. rewrite E1, E2, E3, E4, E5, E6.
  destruct f as [[x|]|x|x|x|x|x|x|x]; simpl in *; try contradiction;
    repeat split.
Qed.

(** ** Promotions through a sequence of requests *)

(** A fact that reads the promotions only is kept by the ledger requests. *)
Lemma part003_ledger_keeps_promotions (P : gmap Z Promotion -> Prop) q s :
  P (promotions s) -> P (promotions (snd (Part003.handle q s))).
Proof.
  apply (part003_ledger_keeps (fun s => P (promotions s))).
  - split; [|split]; intros f s0 H; exact H.
  - intros f n s0 H; exact H.
  - intros f s0 H; exact H.
Qed.

Lemma backend_ledger_keeps_promotions (P : gmap Z Promotion -> Prop) q s :
  P (promotions s) -> P (promotions (snd (Backend.handle q s))).
Proof.
  apply (backend_ledger_keeps (fun s => P (promotions s))).
  - split; [|split]; intros f s0 H; exact H.
  - intros f n s0 H; exact H.
  - intros f s0 H; exact H.
Qed.

Lemma promotions_well_formed_insert id p s :
  promotion_well_formed p -> promotions_well_formed s ->
  promotions_well_formed (set_promotions <[id := p]> s).
Proof.
  intros Hp Hs id' p'. simpl. rewrite lookup_insert.
  case_decide; [intros [= <-]; exact Hp | apply Hs].
Qed.

Lemma promotions_well_formed_delete id s :
  promotions_well_formed s ->
  promotions_well_formed (set_promotions (delete id) s).
Proof.
  intros Hs id' p'. simpl. intros H.
  apply lookup_delete_Some in H as [_ H]. exact (Hs _ _ H).
Qed.

Lemma post_number_positive check post raw x :
  (post = Part003_Promotions.post_number
   \/ post = Backend_Promotions.post_number) ->
  post check raw = Passed x -> x = None \/ check x = true.
Proof.
  intros [->| ->]; unfold Part003_Promotions.post_number,
    Backend_Promotions.post_number;
    destruct raw as [| |y]; intros H; simplify_eq; auto;
    destruct (check y) eqn:E; simplify_eq; auto.
Qed.

Lemma created_promotion_well_formed post isPositiveInt body t st et p :
  (post = Part003_Promotions.post_number
   \/ post = Backend_Promotions.post_number) ->
  (forall x, isPositiveInt x = true ->
     forall n, Math_trunc <$> x = Some n -> 0 <= n) ->
  type_is_normal t ->
  check_then (post isPositiveNum (pb_minSpending body)) (fun minSpending =>
  check_then (post isPositiveNum (pb_rate body)) (fun rate =>
  check_then (post isPositiveInt (pb_points body)) (fun points =>
  Passed (mkPromotion (text_of (pb_name body)) t st et minSpending rate
            (Math_trunc <$> points))))) = Passed p ->
  promotion_well_formed p.
Proof.
  intros Hpost Hint Ht H.
  apply check_then_Passed in H as (m & Hm & H).
  apply check_then_Passed in H as (r & Hr & H).
  apply check_then_Passed in H as (n & Hn & H).
  simplify_eq.
  apply (post_number_positive _ _ _ _ Hpost) in Hm, Hr, Hn.
  repeat split; simpl.
  - exact Ht.
  - intros m' ->. destruct Hm as [[=]|Hm].
    apply isPositiveNum_pos in Hm as (q & [= <-] & Hq). exact Hq.
  - intros r' ->. destruct Hr as [[=]|Hr].
    apply isPositiveNum_pos in Hr as (q & [= <-] & Hq). exact Hq.
  - intros n' Hn'. destruct Hn as [->|Hn]; [discriminate|].
    exact (Hint _ Hn _ Hn').
Qed.

(** The outcomes of the three writes: the store as it was, or the one row
    created, updated from [data], or removed. *)
Lemma patch_commit_inv id data s r s' :
  Shared_Promotions.patch_commit id data s = (r, s') ->
  s' = s
  \/ exists d p,
       data = Passed d /\ promotions s !! id = Some p
       /\ s' = set_promotions <[id := fold_left set_field d p]> s.
Proof.
  unfold Shared_Promotions.patch_commit, commit, promotion_update.
  intros H. destruct data as [st|d]; [simplify_eq; auto|].
  destruct d as [|f d]; [simplify_eq; auto|].
  destruct (promotions s !! id) as [p|] eqn:Hp; [|simplify_eq; auto].
  destruct (forallb field_is_valid (f :: d)); simplify_eq; eauto 6.
Qed.

Lemma part003_patch_promotions_inv now auth id body s r s' :
  Part003_Promotions.patch_promotions_id now auth id body s = (r, s') ->
  s' = s
  \/ exists d p,
       Part003_Promotions.patch_data now p body = Passed d
       /\ promotions s !! id = Some p
       /\ s' = set_promotions <[id := fold_left set_field d p]> s.
Proof.
  unfold Part003_Promotions.patch_promotions_id. intros H.
  destruct (negb (needRole manager auth)); [simplify_eq; auto|].
  destruct (promotions s !! id) as [p|] eqn:Hp; [|simplify_eq; auto].
  apply patch_commit_inv in H as [->|(d & p' & Hd & Hp' & ->)]; [auto|].
  right. exists d, p. split; [exact Hd|]. split; [reflexivity|].
  congruence.
Qed.

Lemma backend_patch_promotions_inv now auth id body s r s' :
  Backend_Promotions.patch_promotions_id now auth id body s = (r, s') ->
  s' = s
  \/ exists d p,
       Backend_Promotions.patch_data now p body = Passed d
       /\ promotions s !! id = Some p
       /\ s' = set_promotions <[id := fold_left set_field d p]> s.
Proof.
  unfold Backend_Promotions.patch_promotions_id. intros H.
  destruct (negb (needRole manager auth)); [simplify_eq; auto|].
  destruct (promotions s !! id) as [p|] eqn:Hp; [|simplify_eq; auto].
  apply patch_commit_inv in H as [->|(d & p' & Hd & Hp' & ->)]; [auto|].
  right. exists d, p. split; [exact Hd|]. split; [reflexivity|].
  congruence.
Qed.

Lemma delete_promotions_inv now auth id s r s' :
  Shared_Promotions.delete_promotions_id now auth id s = (r, s') ->
  s' = s
  \/ exists p,
       promotions s !! id = Some p /\ now < p_startTime p
       /\ s' = set_promotions (delete id) s.
Proof.
  unfold Shared_Promotions.delete_promotions_id, commit, promotion_delete.
  intros H.
  destruct (negb (needRole manager auth)); [simplify_eq; auto|].
  destruct (promotions s !! id) as [p|] eqn:Hp; [|simplify_eq; auto].
  destruct (p_startTime p <=? now) eqn:Hst; [simplify_eq; auto|].
  apply Z.leb_gt in Hst.
  destruct (existsb _ _ || existsb _ _); simplify_eq; eauto.
Qed.

Lemma part003_post_promotions_inv now auth id body s r s' :
  Part003_Promotions.post_promotions now auth id body s = (r, s') ->
  s' = s
  \/ exists p,
       promotions s !! id = None /\ promotion_well_formed p
       /\ s' = set_promotions <[id := p]> s.
Proof.
  unfold Part003_Promotions.post_promotions, commit, promotion_create.
  intros H.
  repeat case_match; simplify_eq/=; auto.
  right. eexists. split; [first [assumption|reflexivity]|].
  split; [|reflexivity].
  eapply (created_promotion_well_formed Part003_Promotions.post_number);
    [now left | apply part003_isPositiveInt_nonneg | | eassumption].
  eapply part003_normPromoTypeIn_normal; eassumption.
Qed.

Lemma backend_post_promotions_inv now auth id body s r s' :
  Backend_Promotions.post_promotions now auth id body s = (r, s') ->
  s' = s
  \/ exists p,
       promotions s !! id = None /\ promotion_well_formed p
       /\ s' = set_promotions <[id := p]> s.
Proof.
  unfold Backend_Promotions.post_promotions, commit, promotion_create.
  intros H.
  repeat case_match; simplify_eq/=; auto.
  right. eexists. split; [first [assumption|reflexivity]|].
  split; [|reflexivity].
  eapply (created_promotion_well_formed Backend_Promotions.post_number);
    [now right | apply backend_isPositiveInt_nonneg | | eassumption].
  eapply backend_normPromoTypeIn_normal; eassumption.
Qed.


Lemma part003_promotions_run_keeps (P : Store -> Prop) qs s :
  (forall q s, In q qs -> P s -> P (Part003_Promotions.handle q s)) ->
  P s -> P (Part003_Promotions.run qs s).
Proof.
  unfold Part003_Promotions.run. revert s.
  induction qs as [|q qs IH]; intros s Hstep Hs; simpl; [assumption|].
  apply IH.
  - intros q' s' Hin. apply Hstep. now right.
  - apply Hstep; [now left | exact Hs].
Qed.

Lemma backend_promotions_run_keeps (P : Store -> Prop) qs s :
  (forall q s, In q qs -> P s -> P (Backend_Promotions.handle q s)) ->
  P s -> P (Backend_Promotions.run qs s).
Proof.
  unfold Backend_Promotions.run. revert s.
  induction qs as [|q qs IH]; intros s Hstep Hs; simpl; [assumption|].
  apply IH.
  - intros q' s' Hin. apply Hstep. now right.
  - apply Hstep; [now left | exact Hs].
Qed.

(** The promotion [id] as one write of the table leaves it. *)
Lemma promotion_started_as_insert id t st id' p' s :
  (id' = id -> forall p, promotions s !! id = Some p ->
     p_type p' = p_type p /\ p_startTime p' = p_startTime p) ->
  promotion_started_as id t st s ->
  promotion_started_as id t st (set_promotions <[id' := p']> s).
Proof.
  intros Hsame (p & Hp & Ht & Hst). unfold promotion_started_as. simpl.
  destruct (decide (id' = id)) as [->|Hne].
  - rewrite lookup_insert_eq. exists p'.
    destruct (Hsame eq_refl p Hp) as [E1 E2].
    split; [reflexivity|]. split; congruence.
  - rewrite lookup_insert_ne by exact Hne. eauto.
Qed.

Lemma promotion_frozen_as_insert id p0 id' p' s :
  (id' = id -> forall p, promotions s !! id = Some p -> same_but_name p p') ->
  promotion_frozen_as id p0 s ->
  promotion_frozen_as id p0 (set_promotions <[id' := p']> s).
Proof.
  intros Hsame (p & Hp & Hfrozen). unfold promotion_frozen_as. simpl.
  destruct (decide (id' = id)) as [->|Hne].
  - rewrite lookup_insert_eq. exists p'. split; [reflexivity|].
    specialize (Hsame eq_refl p Hp).
    unfold same_but_name in *.
    destruct Hfrozen as (F1 & F2 & F3 & F4 & F5 & F6).
    destruct Hsame as (S1 & S2 & S3 & S4 & S5 & S6).
    repeat split; congruence.
  - rewrite lookup_insert_ne by exact Hne. eauto.
Qed.

Lemma part003_promotions_handle_keeps_well_formed q s :
  promotions_well_formed s ->
  promotions_well_formed (Part003_Promotions.handle q s).
Proof.
  intros Hs. destruct q; simpl.
  - exact (part003_ledger_keeps_promotions
             (fun m => forall id p, m !! id = Some p ->
                         promotion_well_formed p) q s Hs).
  - destruct (Part003_Promotions.post_promotions now auth id body s)
      as [r s'] eqn:H. simpl.
    apply part003_post_promotions_inv in H as [->|(p & _ & Hp & ->)];
      [assumption|].
    apply promotions_well_formed_insert; assumption.
  - destruct (Part003_Promotions.patch_promotions_id now auth id body s)
      as [r s'] eqn:H. simpl.
    apply part003_patch_promotions_inv in H as [->|(d & p & Hd & Hp & ->)];
      [assumption|].
    apply promotions_well_formed_insert; [|assumption].
    apply fold_set_field_well_formed; [|exact (Hs _ _ Hp)].
    eapply part003_patch_data_well_formed; eassumption.
  - destruct (Shared_Promotions.delete_promotions_id now auth id s)
      as [r s'] eqn:H. simpl.
    apply delete_promotions_inv in H as [->|(p & _ & _ & ->)];
      [assumption|].
    apply promotions_well_formed_delete, Hs.
Qed.

Lemma part003_promotions_handle_keeps_started t0 id t st q s :
  st <= t0 -> Part003_Promotions.not_before t0 q ->
  promotion_started_as id t st s ->
  promotion_started_as id t st (Part003_Promotions.handle q s).
Proof.
  intros Hst Hq Hs. destruct q; simpl in *.
  - exact (part003_ledger_keeps_promotions
             (fun m => exists p, m !! id = Some p
                         /\ p_type p = t /\ p_startTime p = st) q s Hs).
  - destruct (Part003_Promotions.post_promotions now auth id0 body s)
      as [r s'] eqn:H. simpl.
    apply part003_post_promotions_inv in H as [->|(p & Hnew & _ & ->)];
      [assumption|].
    apply promotion_started_as_insert; [|assumption].
    intros -> p' Hp'. congruence.
  - destruct (Part003_Promotions.patch_promotions_id now auth id0 body s)
      as [r s'] eqn:H. simpl.
    apply part003_patch_promotions_inv in H as [->|(d & p & Hd & Hp & ->)];
      [assumption|].
    apply promotion_started_as_insert; [|assumption].
    intros -> p' Hp'. assert (p' = p) by congruence. subst p'.
    apply fold_set_field_started.
    eapply part003_patch_data_started; [|eassumption].
    destruct Hs as (p' & Hp'' & _ & Hst'). assert (p' = p) by congruence.
    subst p'. lia.
  - destruct (Shared_Promotions.delete_promotions_id now auth id0 s)
      as [r s'] eqn:H. simpl.
    apply delete_promotions_inv in H as [->|(p & Hp & Hlt & ->)];
      [assumption|].
    destruct Hs as (p' & Hp' & Ht' & Hst'). exists p'. simpl.
    rewrite lookup_delete_ne; [auto|].
    intros ->. assert (p' = p) by congruence. subst p'. lia.
Qed.

Lemma part003_promotions_handle_keeps_frozen t0 id p0 q s :
  p_startTime p0 <= p_endTime p0 -> p_endTime p0 < t0 ->
  Part003_Promotions.not_before t0 q ->
  promotion_frozen_as id p0 s ->
  promotion_frozen_as id p0 (Part003_Promotions.handle q s).
Proof.
  intros Hwin Hend Hq Hs. destruct q; simpl in *.
  - exact (part003_ledger_keeps_promotions
             (fun m => exists q, m !! id = Some q /\ same_but_name p0 q)
             q s Hs).
  - destruct (Part003_Promotions.post_promotions now auth id0 body s)
      as [r s'] eqn:H. simpl.
    apply part003_post_promotions_inv in H as [->|(p & Hnew & _ & ->)];
      [assumption|].
    apply promotion_frozen_as_insert; [|assumption].
    intros -> p' Hp'. congruence.
  - destruct (Part003_Promotions.patch_promotions_id now auth id0 body s)
      as [r s'] eqn:H. simpl.
    apply part003_patch_promotions_inv in H as [->|(d & p & Hd & Hp & ->)];
      [assumption|].
    apply promotion_frozen_as_insert; [|assumption].
    intros -> p' Hp'. assert (p' = p) by congruence. subst p'.
    apply fold_set_field_ended.
    eapply part003_patch_data_ended; [|eassumption].
    destruct Hs as (p' & Hp'' & _ & _ & Hend' & _).
    assert (p' = p) by congruence. subst p'. lia.
  - destruct (Shared_Promotions.delete_promotions_id now auth id0 s)
      as [r s'] eqn:H. simpl.
    apply delete_promotions_inv in H as [->|(p & Hp & Hlt & ->)];
      [assumption|].
    destruct Hs as (p' & Hp' & Hsame). exists p'. simpl.
    rewrite lookup_delete_ne; [auto|].
    intros ->. assert (p' = p) by congruence. subst p'.
    destruct Hsame as (_ & Hst' & _). lia.
Qed.

Lemma backend_promotions_handle_keeps_well_formed q s :
  promotions_well_formed s ->
  promotions_well_formed (Backend_Promotions.handle q s).
Proof.
  intros Hs. destruct q; simpl.
  - exact (backend_ledger_keeps_promotions
             (fun m => forall id p, m !! id = Some p ->
                         promotion_well_formed p) q s Hs).
  - destruct (Backend_Promotions.post_promotions now auth id body s)
      as [r s'] eqn:H. simpl.
    apply backend_post_promotions_inv in H as [->|(p & _ & Hp & ->)];
      [assumption|].
    apply promotions_well_formed_insert; assumption.
  - destruct (Backend_Promotions.patch_promotions_id now auth id body s)
      as [r s'] eqn:H. simpl.
    apply backend_patch_promotions_inv in H as [->|(d & p & Hd & Hp & ->)];
      [assumption|].
    apply promotions_well_formed_insert; [|assumption].
    apply fold_set_field_well_formed; [|exact (Hs _ _ Hp)].
    eapply backend_patch_data_well_formed; eassumption.
  - destruct (Shared_Promotions.delete_promotions_id now auth id s)
      as [r s'] eqn:H. simpl.
    apply delete_promotions_inv in H as [->|(p & _ & _ & ->)];
      [assumption|].
    apply promotions_well_formed_delete, Hs.
Qed.

Lemma backend_promotions_handle_keeps_started t0 id t st q s :
  st <= t0 -> Backend_Promotions.not_before t0 q ->
  promotion_started_as id t st s ->
  promotion_started_as id t st (Backend_Promotions.handle q s).
Proof.
  intros Hst Hq Hs. destruct q; simpl in *.
  - exact (backend_ledger_keeps_promotions
             (fun m => exists p, m !! id = Some p
                         /\ p_type p = t /\ p_startTime p = st) q s Hs).
  - destruct (Backend_Promotions.post_promotions now auth id0 body s)
      as [r s'] eqn:H. simpl.
    apply backend_post_promotions_inv in H as [->|(p & Hnew & _ & ->)];
      [assumption|].
    apply promotion_started_as_insert; [|assumption].
    intros -> p' Hp'. congruence.
  - destruct (Backend_Promotions.patch_promotions_id now auth id0 body s)
      as [r s'] eqn:H. simpl.
    apply backend_patch_promotions_inv in H as [->|(d & p & Hd & Hp & ->)];
      [assumption|].
    apply promotion_started_as_insert; [|assumption].
    intros -> p' Hp'. assert (p' = p) by congruence. subst p'.
    apply fold_set_field_started.
    eapply backend_patch_data_started; [|eassumption].
    destruct Hs as (p' & Hp'' & _ & Hst'). assert (p' = p) by congruence.
    subst p'. lia.
  - destruct (Shared_Promotions.delete_promotions_id now auth id0 s)
      as [r s'] eqn:H. simpl.
    apply delete_promotions_inv in H as [->|(p & Hp & Hlt & ->)];
      [assumption|].
    destruct Hs as (p' & Hp' & Ht' & Hst'). exists p'. simpl.
    rewrite lookup_delete_ne; [auto|].
    intros ->. assert (p' = p) by congruence. subst p'. lia.
Qed.

Lemma backend_promotions_handle_keeps_frozen t0 id p0 q s :
  p_startTime p0 <= p_endTime p0 -> p_endTime p0 < t0 ->
  Backend_Promotions.not_before t0 q ->
  promotion_frozen_as id p0 s ->
  promotion_frozen_as id p0 (Backend_Promotions.handle q s).
Proof.
  intros Hwin Hend Hq Hs. destruct q; simpl in *.
  - exact (backend_ledger_keeps_promotions
             (fun m => exists q, m !! id = Some q /\ same_but_name p0 q)
             q s Hs).
  - destruct (Backend_Promotions.post_promotions now auth id0 body s)
      as [r s'] eqn:H. simpl.
    apply backend_post_promotions_inv in H as [->|(p & Hnew & _ & ->)];
      [assumption|].
    apply promotion_frozen_as_insert; [|assumption].
    intros -> p' Hp'. congruence.
  - destruct (Backend_Promotions.patch_promotions_id now auth id0 body s)
      as [r s'] eqn:H. simpl.
    apply backend_patch_promotions_inv in H as [->|(d & p & Hd & Hp & ->)];
      [assumption|].
    apply promotion_frozen_as_insert; [|assumption].
    intros -> p' Hp'. assert (p' = p) by congruence. subst p'.
    apply fold_set_field_ended.
    eapply backend_patch_data_ended; [|eassumption].
    destruct Hs as (p' & Hp'' & _ & _ & Hend' & _).
    assert (p' = p) by congruence. subst p'. lia.
  - destruct (Shared_Promotions.delete_promotions_id now auth id0 s)
      as [r s'] eqn:H. simpl.
    apply delete_promotions_inv in H as [->|(p & Hp & Hlt & ->)];
      [assumption|].
    destruct Hs as (p' & Hp' & Hsame). exists p'. simpl.
    rewrite lookup_delete_ne; [auto|].
    intros ->. assert (p' = p) by congruence. subst p'.
    destruct Hsame as (_ & Hst' & _). lia.
Qed.

Lemma promotions_well_formed_demo : promotions_well_formed demo.
Proof.
  intros id p H. unfold demo, demo_promotions in H. simpl in H.
  apply lookup_insert_Some in H as [[_ <-]|[_ H]].
  - repeat split; simpl; try discriminate; [now right|].
    intros r [= <-]. reflexivity.
  - apply lookup_insert_Some in H as [[_ <-]|[_ H]].
    + repeat split; simpl; try discriminate; [now left| |].
      * intros m [= <-]. reflexivity.
      * intros n [= <-]. lia.
    + rewrite lookup_empty in H. discriminate.
Qed.

(** X13.  In both listings, through every sequence of ledger requests and
    of creations, updates and deletions of promotions, every promotion of
    the store has the type [onetime] or [automatic], a positive minimum
    spend and a positive rate where it has them, and points that are not
    negative, when that holds of the store the sequence starts from. *)
Theorem promotions_stay_well_formed :
  (forall qs s,
     promotions_well_formed s ->
     promotions_well_formed (Part003_Promotions.run qs s))
  /\ (forall qs s,
        promotions_well_formed s ->
        promotions_well_formed (Backend_Promotions.run qs s)).
Proof.
  split; intros qs s.
  - apply part003_promotions_run_keeps. intros q s' _.
    apply part003_promotions_handle_keeps_well_formed.
  - apply backend_promotions_run_keeps. intros q s' _.
    apply backend_promotions_handle_keeps_well_formed.
Qed.

Lemma promotions_stay_well_formed_witness :
  promotions_well_formed demo
  /\ (let s := Part003_Promotions.run (firstn 3 part003_promotion_requests)
                 demo in
      promotions_well_formed s
      /\ promotions s !! 1
         = Some (mkPromotion "spring" "automatic" 0 2000 None
                   (Some (1 # 10)) None)
      /\ promotions s !! 3
         = Some (mkPromotion "summer" "onetime" 600 700 None None (Some 10)))
  /\ (let s := Backend_Promotions.run (firstn 3 backend_promotion_requests)
                 demo in
      promotions_well_formed s
      /\ promotions s !! 1
         = Some (mkPromotion "spring" "automatic" 0 2000 None
                   (Some (1 # 10)) None)
      /\ promotions s !! 3
         = Some (mkPromotion "summer" "onetime" 600 700 None None (Some 10))).
Proof.
  destruct promotions_stay_well_formed as [Hp Hb].
  split; [exact promotions_well_formed_demo|]. split; intros s.
  - split; [apply Hp, promotions_well_formed_demo|].
    split; vm_compute; reflexivity.
  - split; [apply Hb, promotions_well_formed_demo|].
    split; vm_compute; reflexivity.
Defined.

(** X14.  In both listings, a promotion that has started by [t0] stays in
    the store with the type and the start it has, through every sequence
    of ledger requests and of creations, updates and deletions of
    promotions served at [t0] or later. *)
Theorem started_promotion_keeps_type_and_start :
  (forall t0 id t st qs s,
     st <= t0 -> Forall (Part003_Promotions.not_before t0) qs ->
     promotion_started_as id t st s ->
     promotion_started_as id t st (Part003_Promotions.run qs s))
  /\ (forall t0 id t st qs s,
        st <= t0 -> Forall (Backend_Promotions.not_before t0) qs ->
        promotion_started_as id t st s ->
        promotion_started_as id t st (Backend_Promotions.run qs s)).
Proof.
  split; intros t0 id t st qs s Hst Hqs.
  - apply part003_promotions_run_keeps. intros q s' Hin.
    apply (part003_promotions_handle_keeps_started t0); [exact Hst|].
    rewrite Forall_forall in Hqs. apply Hqs, list_elem_of_In, Hin.
  - apply backend_promotions_run_keeps. intros q s' Hin.
    apply (backend_promotions_handle_keeps_started t0); [exact Hst|].
    rewrite Forall_forall in Hqs. apply Hqs, list_elem_of_In, Hin.
Qed.

Lemma started_promotion_keeps_type_and_start_witness :
  promotion_started_as 1 "automatic" 0
    (Part003_Promotions.run part003_promotion_requests demo)
  /\ promotion_started_as 1 "automatic" 0
       (Backend_Promotions.run backend_promotion_requests demo).
Proof.
  destruct started_promotion_keeps_type_and_start as [Hp Hb].
  assert (Hs : promotion_started_as 1 "automatic" 0 demo).
  { eexists. split; [vm_compute; reflexivity|]. split; reflexivity. }
  split.
  - apply (Hp 500); [lia | | exact Hs].
    repeat constructor; simpl; lia.
  - apply (Hb 500); [lia | | exact Hs].
    repeat constructor; simpl; lia.
Defined.

(** X15.  In both listings, a promotion whose window is in order and has
    ended before [t0] stays in the store with everything but its name as
    it is, through every sequence of ledger requests and of creations,
    updates and deletions of promotions served at [t0] or later. *)
Theorem ended_promotion_is_frozen :
  (forall t0 id p qs s,
     p_startTime p <= p_endTime p -> p_endTime p < t0 ->
     Forall (Part003_Promotions.not_before t0) qs ->
     promotion_frozen_as id p s ->
     promotion_frozen_as id p (Part003_Promotions.run qs s))
  /\ (forall t0 id p qs s,
        p_startTime p <= p_endTime p -> p_endTime p < t0 ->
        Forall (Backend_Promotions.not_before t0) qs ->
        promotion_frozen_as id p s ->
        promotion_frozen_as id p (Backend_Promotions.run qs s)).
Proof.
  split; intros t0 id p qs s Hwin Hend Hqs.
  - apply part003_promotions_run_keeps. intros q s' Hin.
    apply (part003_promotions_handle_keeps_frozen t0); try assumption.
    rewrite Forall_forall in Hqs. apply Hqs, list_elem_of_In, Hin.
  - apply backend_promotions_run_keeps. intros q s' Hin.
    apply (backend_promotions_handle_keeps_frozen t0); try assumption.
    rewrite Forall_forall in Hqs. apply Hqs, list_elem_of_In, Hin.
Qed.

Lemma ended_promotion_is_frozen_witness :
  let welcome := mkPromotion "welcome" "onetime" 0 1000 (Some (50 # 1)) None
                   (Some 30) in
  promotion_frozen_as 2 welcome
    (Part003_Promotions.run part003_late_requests demo)
  /\ promotion_frozen_as 2 welcome
       (Backend_Promotions.run backend_late_requests demo)
  /\ promotions (Part003_Promotions.run part003_late_requests demo) !! 2
     = Some (mkPromotion "goodbye" "onetime" 0 1000 (Some (50 # 1)) None
               (Some 30)).
Proof.
  intros welcome.
  destruct ended_promotion_is_frozen as [Hp Hb].
  assert (Hs : promotion_frozen_as 2 welcome demo).
  { exists welcome. split; [vm_compute; reflexivity|]. repeat split. }
  split; [|split].
  - apply (Hp 1001); [simpl; lia | simpl; lia | | exact Hs].
    repeat constructor; simpl; lia.
  - apply (Hb 1001); [simpl; lia | simpl; lia | | exact Hs].
    repeat constructor; simpl; lia.
  - vm_compute. reflexivity.
Defined.

(** X16.  The type that a view shows for a stored promotion is taken back
    by [normPromoTypeIn] as the stored type, in both listings: whatever
    [normPromoTypeIn] accepts it maps to a word [t] whose shown form it maps
    to [t] again.  In part_003 the stored word itself is accepted too. *)
Theorem promotion_type_round_trip :
  (forall s t,
     Part003_Promotions.normPromoTypeIn s = Some t ->
     Part003_Promotions.normPromoTypeIn (present_type t) = Some t
     /\ Part003_Promotions.normPromoTypeIn t = Some t)
  /\ (forall s t,
        Backend_Promotions.normPromoTypeIn s = Some t ->
        Backend_Promotions.normPromoTypeIn (present_type t) = Some t)
  /\ (forall t,
        type_is_normal t ->
        Part003_Promotions.normPromoTypeIn (present_type t) = Some t
        /\ Backend_Promotions.normPromoTypeIn (present_type t) = Some t).
Proof.
  assert (Hn : forall t,
            type_is_normal t ->
            (Part003_Promotions.normPromoTypeIn (present_type t) = Some t
             /\ Part003_Promotions.normPromoTypeIn t = Some t)
            /\ Backend_Promotions.normPromoTypeIn (present_type t) = Some t).
  { intros t [->| ->]; repeat split; reflexivity. }
  split; [|split].
  - intros s t H. apply Hn. eapply part003_normPromoTypeIn_normal, H.
  - intros s t H. apply Hn. eapply backend_normPromoTypeIn_normal, H.
  - intros t H. destruct (Hn t H) as [[H1 _] H2]. auto.
Qed.

Lemma promotion_type_round_trip_witness :
  Part003_Promotions.normPromoTypeIn "One-Time" = Some "onetime"%string
  /\ Part003_Promotions.normPromoTypeIn (present_type "onetime")
     = Some "onetime"%string
  /\ Backend_Promotions.normPromoTypeIn (present_type "onetime")
     = Some "onetime"%string.
Proof.
  destruct promotion_type_round_trip as (Hp & Hb & _).
  assert (H : Part003_Promotions.normPromoTypeIn "One-Time"
              = Some "onetime"%string) by reflexivity.
  split; [exact H|]. split.
  - apply (Hp _ _ H).
  - apply (Hb "one-time"%string). reflexivity.
Defined.

Lemma existsb_usage_false (m : gmap (Z * Z) (option Z)) id userId :
  existsb (fun r => snd (fst r) =? id) (map_to_list m) = false ->
  m !! (userId, id) = None.
Proof.
  intros H. destruct (m !! (userId, id)) as [x|] eqn:E; [|reflexivity].
  assert (Ht : existsb (fun r => snd (fst r) =? id) (map_to_list m) = true);
    [|congruence].
  apply existsb_exists. exists ((userId, id), x). split.
  - apply list_elem_of_In, elem_of_map_to_list, E.
  - apply Z.eqb_refl.
Qed.

Lemma existsb_link_false (g : gset (Z * Z)) id txId :
  existsb (fun r => snd r =? id) (elements g) = false -> (txId, id) ∉ g.
Proof.
  intros H Hin.
  assert (E : existsb (fun r => snd r =? id) (elements g) = true);
    [|congruence].
  apply existsb_exists. exists (txId, id). split.
  - apply list_elem_of_In, elem_of_elements, Hin.
  - apply Z.eqb_refl.
Qed.

(** X17.  [DELETE /promotions/:id], the same in both listings, answers 204
    only to a manager, for a promotion that has not started, that no user
    has a usage row for and that no transaction is linked to, and then
    removes that promotion and nothing else; with any other answer the
    store is as it was. *)
Theorem delete_promotion_effect now auth id s :
  let out := Shared_Promotions.delete_promotions_id now auth id s in
  (fst out = NoContent ->
     needRole manager auth = true
     /\ (exists p, promotions s !! id = Some p /\ now < p_startTime p)
     /\ (forall userId, userPromotionUsage s !! (userId, id) = None)
     /\ (forall txId, (txId, id) ∉ transactionPromotions s)
     /\ snd out = set_promotions (delete id) s)
  /\ (fst out <> NoContent -> snd out = s).
Proof.
  simpl. unfold Shared_Promotions.delete_promotions_id, commit,
    promotion_delete.
  destruct (needRole manager auth); simpl;
    [|split; [discriminate|reflexivity]].
  destruct (promotions s !! id) as [p|] eqn:Hp;
    [|split; [discriminate|reflexivity]].
  destruct (p_startTime p <=? now) eqn:Hst;
    [split; [discriminate|reflexivity]|].
  apply Z.leb_gt in Hst.
  destruct (existsb _ _ || existsb _ _) eqn:Href; simpl;
    [split; [discriminate|reflexivity]|].
  apply orb_false_elim in Href as [Hlinks Husage].
  split; [|congruence]. intros _. repeat split; eauto.
  - intros userId. eapply existsb_usage_false, Husage.
  - intros txId. eapply existsb_link_false, Hlinks.
Qed.

(** ** The promotions a user is shown *)

Lemma Array_slice_In {A} (start stop : Z) (l : list A) x :
  In x (Array_slice start stop l) -> In x l.
Proof.
  unfold Array_slice. intros H.
  apply list_elem_of_In in H. apply list_elem_of_In.
  eapply elem_of_sublist; [exact H|].
  etransitivity; [apply sublist_take | apply sublist_drop].
Qed.

Lemma Array_slice_all {A} (stop : Z) (l : list A) :
  Z.of_nat (length l) <= stop -> Array_slice 0 stop l = l.
Proof.
  intros H. unfold Array_slice. simpl.
  replace (Z.min 0 (Z.of_nat (length l))) with 0 by lia.
  destruct (stop <? 0) eqn:E; [apply Z.ltb_lt in E; lia|].
  replace (Z.min stop (Z.of_nat (length l))) with (Z.of_nat (length l))
    by lia.
  rewrite Z.sub_0_r, Nat2Z.id. simpl. apply firstn_all.
Qed.

Lemma promotions_by_id_lookup s pid p :
  In (pid, p) (promotions_by_id s) <-> promotions s !! pid = Some p.
Proof.
  unfold promotions_by_id. rewrite <- list_elem_of_In.
  rewrite merge_sort_Permutation. apply elem_of_map_to_list.
Qed.

(** The regular user's list, before it is cut into pages. *)
Lemma usable_lookup s now userId pid p :
  In (pid, p)
    (List.filter (Part003_Promotions.usable_by s userId)
       (List.filter (fun r => isActivePromo now (snd r))
          (promotions_by_id s)))
  <-> promotions s !! pid = Some p /\ isActivePromo now p = true
      /\ (p_type p = "automatic"%string
          \/ (p_type p = "onetime"%string
              /\ usedSet_has s userId pid = false)).
Proof.
  rewrite !filter_In, promotions_by_id_lookup.
  unfold Part003_Promotions.usable_by. simpl.
  rewrite orb_true_iff, andb_true_iff, negb_true_iff, !String.eqb_eq.
  tauto.
Qed.

Lemma find_by_id_unique s now pid p :
  In (pid, p) (onetime_of (active_promotions s now)) ->
  List.find (fun r => fst r =? pid) (onetime_of (active_promotions s now))
  = Some (pid, p).
Proof.
  intros Hin.
  destruct (List.find (fun r => fst r =? pid)
              (onetime_of (active_promotions s now))) as [[pid' p']|] eqn:E.
  - apply List.find_some in E as [Hin' Hid]. simpl in Hid.
    apply Z.eqb_eq in Hid. subst pid'.
    apply onetime_of_lookup in Hin as (Hp & _).
    apply onetime_of_lookup in Hin' as (Hp' & _).
    congruence.
  - exfalso. apply (List.find_none _ _ E) in Hin. simpl in Hin.
    rewrite Z.eqb_refl in Hin. discriminate.
Qed.

Lemma chooseOneTime_single s now userId pid p :
  chooseOneTime s userId (onetime_of (active_promotions s now)) [Some pid]
  = Some [(pid, p)]
  <-> 0 < pid
      /\ In (pid, p) (onetime_of (active_promotions s now))
      /\ usedSet_has s userId pid = false.
Proof.
  simpl. split.
  - intros H. destruct (pid <=? 0) eqn:Hpos; [discriminate|].
    apply Z.leb_gt in Hpos.
    destruct (List.find _ _) as [q|] eqn:Hfind; [|discriminate].
    destruct (usedSet_has s userId pid); [discriminate|].
    injection H as ->. apply List.find_some in Hfind as [Hin _]. auto.
  - intros (Hpos & Hin & Hfree). apply Z.leb_gt in Hpos.
    rewrite Hpos, (find_by_id_unique _ _ _ _ Hin), Hfree. reflexivity.
Qed.

(** X18.  What [GET /promotions] of part_003 shows a regular user is what
    a purchase for that user at the same instant takes: every promotion
    listed is in the store and active, and is either one that the purchase
    applies by itself or, when its id is positive, one that the purchase
    accepts in [promotionIds].  The first page with a limit that covers
    the count shows every promotion that a purchase applies or accepts. *)
Theorem part003_listed_promotions_are_taken now auth page limit active
    started ended s count results :
  a_role auth = regular ->
  Part003_Promotions.get_promotions now auth page limit active started ended
    s = (OK, Some (count, results)) ->
  (forall pid p,
     In (pid, p) results ->
     promotions s !! pid = Some p /\ isActivePromo now p = true
     /\ (In (pid, p) (automatic_of (active_promotions s now))
         \/ (0 < pid ->
             chooseOneTime s (a_id auth)
               (onetime_of (active_promotions s now)) [Some pid]
             = Some [(pid, p)])))
  /\ (forall L,
        page = Some (Number 1) -> limit = Some (Number L) -> count <= L ->
        forall pid p,
          In (pid, p) (automatic_of (active_promotions s now))
          \/ chooseOneTime s (a_id auth)
               (onetime_of (active_promotions s now)) [Some pid]
             = Some [(pid, p)] ->
          In (pid, p) results).
Proof.
  intros Hrole H. unfold Part003_Promotions.get_promotions in H.
  destruct (negb (Part003_Promotions.isPositiveInt page)
            || negb (Part003_Promotions.isPositiveInt limit));
    [discriminate|].
  rewrite Hrole in H. simpl in H. injection H as <- <-. split.
  - intros pid p Hin. apply Array_slice_In in Hin.
    apply usable_lookup in Hin as (Hp & Hact & Htype).
    split; [exact Hp|]. split; [exact Hact|].
    destruct Htype as [Hauto|[Hone Hfree]].
    + left. apply automatic_of_lookup. auto.
    + right. intros Hpos. apply chooseOneTime_single.
      split; [exact Hpos|]. split; [|exact Hfree].
      apply onetime_of_lookup. auto.
  - intros L -> -> Hcount pid p Hin. simpl.
    replace (Math_trunc (Number 1)) with 1 by reflexivity.
    replace (Math_trunc (Number L)) with L
      by (unfold Math_trunc, Number; simpl; now rewrite Z.quot_1_r).
    simpl. rewrite Array_slice_all by exact Hcount.
    apply usable_lookup. destruct Hin as [Hin|Hin].
    + apply automatic_of_lookup in Hin as (Hp & Hact & Hauto). auto.
    + apply chooseOneTime_single in Hin as (_ & Hin & Hfree).
      apply onetime_of_lookup in Hin as (Hp & Hact & Hone). auto.
Qed.

Lemma part003_listed_promotions_are_taken_witness :
  Part003_Promotions.get_promotions 500 alice (Some (Number 1))
    (Some (Number 10)) false false false demo
  = (OK, Some (2, [(1, mkPromotion "spring" "automatic" 0 1000 None
                        (Some (1 # 20)) None);
                   (2, mkPromotion "welcome" "onetime" 0 1000
                        (Some (50 # 1)) None (Some 30))]))
  /\ chooseOneTime demo 2 (onetime_of (active_promotions demo 500)) [Some 2]
     = Some [(2, mkPromotion "welcome" "onetime" 0 1000 (Some (50 # 1)) None
                   (Some 30))].
Proof.
  assert (H : Part003_Promotions.get_promotions 500 alice (Some (Number 1))
                (Some (Number 10)) false false false demo
              = (OK, Some (2, [(1, mkPromotion "spring" "automatic" 0 1000
                                     None (Some (1 # 20)) None);
                               (2, mkPromotion "welcome" "onetime" 0 1000
                                     (Some (50 # 1)) None (Some 30))])))
    by (vm_compute; reflexivity).
  split; [exact H|].
  destruct (part003_listed_promotions_are_taken 500 alice _ _ _ _ _ demo _ _
              eq_refl H) as [Hlisted _].
  destruct (Hlisted 2 (mkPromotion "welcome" "onetime" 0 1000 (Some (50 # 1))
                         None (Some 30))) as (_ & _ & [Hauto|Hone]).
  - right. left. reflexivity.
  - apply automatic_of_lookup in Hauto as (_ & _ & Hauto). discriminate.
  - apply Hone. lia.
Defined.

(** ** Promotions only add to a purchase *)

Lemma Math_round_nonneg (x : Q) : (0 <= x)%Q -> 0 <= Math_round x.
Proof.
  intros H. unfold Math_round.
  change 0 with (Qfloor 0). apply Qfloor_resp_le.
  apply Qle_trans with x; [exact H|].
  rewrite <- (Qplus_0_r x) at 1. apply Qplus_le_r. discriminate.
Qed.

Lemma nearest_even_nonneg (n d : Z) : 0 <= n -> 0 < d -> 0 <= nearest_even n d.
Proof.
  intros Hn Hd. unfold nearest_even.
  pose proof (Z.div_pos n d Hn Hd). repeat case_match; lia.
Qed.

(** The double of a number that is not negative is not negative. *)
Lemma double_of_nonneg (x : Q) : (0 <= x)%Q -> (0 <= double_of x)%Q.
Proof.
  intros Hx. unfold double_of.
  destruct x as [a b]. unfold Qle in Hx. simpl in *.
  assert (Ha : 0 <= a) by lia.
  destruct (Z.abs a =? 0); [apply Qle_refl|].
  destruct (a <? 0) eqn:Hneg; [apply Z.ltb_lt in Hneg; lia|].
  rewrite Z.abs_eq by exact Ha.
  set (e := Z.max (exponent a (Z.pos b) - 52) (- 1074)).
  destruct (0 <=? e) eqn:He.
  - apply Z.leb_le in He.
    change 0%Q with (inject_Z 0). rewrite <- Zle_Qle.
    apply Z.mul_nonneg_nonneg; [|apply Z.pow_nonneg; lia].
    apply nearest_even_nonneg; [exact Ha|].
    apply Z.mul_pos_pos; [lia|]. apply Z.pow_pos_nonneg; lia.
  - unfold Qle. simpl. rewrite Z.mul_1_r.
    apply nearest_even_nonneg; [|lia].
    apply Z.mul_nonneg_nonneg; [exact Ha|]. apply Z.pow_nonneg. lia.
Qed.

Lemma times_nonneg (x y : Q) : (0 <= x)%Q -> (0 <= y)%Q -> (0 <= times x y)%Q.
Proof.
  intros Hx Hy. unfold times.
  apply double_of_nonneg, Qmult_le_0_compat; apply double_of_nonneg; assumption.
Qed.

Lemma spent_is_nonneg (spent : Q) : num_lt spent 0 = false -> (0 <= spent)%Q.
Proof.
  intros H. destruct (Qlt_le_dec spent 0) as [Hlt|Hle]; [|exact Hle].
  apply num_lt_spec in Hlt. congruence.
Qed.

Lemma basePoints_nonneg (spent : Q) : (0 <= spent)%Q -> 0 <= basePoints spent.
Proof.
  intros H. unfold basePoints. apply Math_round_nonneg.
  unfold Qdiv. apply Qmult_le_0_compat; [exact H|discriminate].
Qed.

Lemma part003_add_bonus_grows spent extra p :
  (0 <= spent)%Q -> promotion_well_formed (snd p) ->
  extra <= Part003.add_bonus (basePoints spent) spent extra p.
Proof.
  intros Hs (_ & _ & Hr & Hn). unfold Part003.add_bonus.
  destruct (below_minSpending spent (snd p)); [lia|].
  assert (0 <= match p_rate (snd p) with
               | Some rate => Math_round (times (Number (basePoints spent)) rate)
               | None => 0
               end).
  { destruct (p_rate (snd p)) as [rate|] eqn:E; [|lia].
    apply Math_round_nonneg, times_nonneg.
    - unfold Number. change 0%Q with (inject_Z 0). rewrite <- Zle_Qle.
      apply basePoints_nonneg, Hs.
    - apply Qlt_le_weak, Hr. reflexivity. }
  assert (0 <= match p_points (snd p) with Some n => n | None => 0 end).
  { destruct (p_points (snd p)) as [n|] eqn:E; [|lia]. apply Hn. reflexivity. }
  destruct (p_rate (snd p)), (p_points (snd p)); lia.
Qed.

Lemma backend_add_bonus_grows spent extra p :
  (0 <= spent)%Q -> promotion_well_formed (snd p) ->
  extra <= Backend.add_bonus spent extra p.
Proof.
  intros Hs (_ & _ & Hr & Hn). unfold Backend.add_bonus.
  destruct (below_minSpending spent (snd p)); [lia|].
  assert (0 <= match p_rate (snd p) with
               | Some rate => Math_round (times (times spent 100) rate)
               | None => 0
               end).
  { destruct (p_rate (snd p)) as [rate|] eqn:E; [|lia].
    apply Math_round_nonneg, times_nonneg.
    - apply times_nonneg; [exact Hs|discriminate].
    - apply Qlt_le_weak, Hr. reflexivity. }
  assert (0 <= match p_points (snd p) with Some n => n | None => 0 end).
  { destruct (p_points (snd p)) as [n|] eqn:E; [|lia]. apply Hn. reflexivity. }
  destruct (p_rate (snd p)), (p_points (snd p)); lia.
Qed.

Lemma fold_bonus_grows (add : Z -> Z * Promotion -> Z) l extra :
  (forall extra p, In p l -> extra <= add extra p) ->
  extra <= fold_left add l extra.
Proof.
  revert extra. induction l as [|p l IH]; intros extra Hadd; simpl; [lia|].
  etransitivity; [apply (Hadd extra p); now left|].
  apply IH. intros extra' p' Hin. apply Hadd. now right.
Qed.

Lemma applied_promotions_are_stored s now userId ids chosen p :
  chooseOneTime s userId (onetime_of (active_promotions s now)) ids
  = Some chosen ->
  In p (automatic_of (active_promotions s now) ++ chosen) ->
  promotions s !! fst p = Some (snd p).
Proof.
  intros Hch Hin. destruct p as [pid p]. simpl.
  apply in_app_or in Hin as [Hin|Hin].
  - apply automatic_of_lookup in Hin as (Hp & _). exact Hp.
  - apply (chooseOneTime_In_chosen _ _ _ _ _ _ Hch) in Hin as [Hfind _].
    apply List.find_some in Hfind as [Hin _].
    apply onetime_of_lookup in Hin as (Hp & _). exact Hp.
Qed.

Lemma backend_purchase_spent now auth body s r s' :
  Backend.purchase now auth body s = (r, s') -> status r = Created ->
  exists spent, tb_spent body = Some spent /\ (0 <= spent)%Q.
Proof.
  intros H Hst. unfold Backend.purchase, reply in H.
  destruct (ORDER (a_role auth) <? ORDER cashier); [by simplify_eq/=|].
  destruct (tb_spent body) as [spent|]; [|by simplify_eq/=].
  destruct (String.eqb (tb_utorid body) ""); [by simplify_eq/=|].
  destruct (num_lt spent 0) eqn:Hs; [by simplify_eq/=|].
  exists spent. split; [reflexivity|]. apply spent_is_nonneg, Hs.
Qed.

(** X19.  While the promotions of the store are well formed, which the
    promotion handlers see to, a purchase that goes through never earns
    less than the base points of the amount spent: in part_003 the
    [earned] of the row it appends and the points it adds to the balance,
    in the second listing the [amount] of the row it appends.  As no
    purchase goes through in part_003 ([part003_purchase_fails]), the
    purchases this speaks of are those of the second listing. *)
Theorem purchase_earns_at_least_base :
  (forall now auth body s r s',
     promotions_well_formed s ->
     Part003.purchase now auth body s = (r, s') -> succeeded r = true ->
     exists spent t earned uid u,
       tb_spent body = Some spent
       /\ transactions s' = transactions s ++ [t]
       /\ t_earned t = Some earned
       /\ basePoints spent <= earned
       /\ users s !! uid = Some u
       /\ users s' !! uid = Some (increment_points earned u))
  /\ (forall now auth body s r s',
        promotions_well_formed s ->
        Backend.purchase now auth body s = (r, s') -> status r = Created ->
        exists spent t,
          tb_spent body = Some spent
          /\ transactions s' = transactions s ++ [t]
          /\ basePoints spent <= t_amount t).
Proof.
  split; intros now auth body s r s' Hwf H Hst.
  - destruct (part003_purchase_fails _ _ _ _ _ _ H) as [Hfails _].
    congruence.
  - destruct (backend_purchase_spent _ _ _ _ _ _ H Hst) as (spent0 & E0 & Hs).
    destruct (backend_purchase_Created _ _ _ _ _ _ H Hst)
      as (spent & uid & u & chosen & E & Hu & Hch & _ & Ht & _).
    assert (spent0 = spent) by congruence. subst spent0.
    eexists spent, _.
    split; [exact E|]. split; [exact Ht|]. simpl.
    unfold Backend.earned_points.
    assert (0 <= fold_left (Backend.add_bonus spent) chosen
                   (fold_left (Backend.add_bonus spent)
                      (automatic_of (active_promotions s now)) 0));
      [|lia].
    etransitivity; [|apply fold_bonus_grows].
    + apply fold_bonus_grows. intros extra p Hin.
      apply backend_add_bonus_grows; [exact Hs|].
      eapply Hwf, (applied_promotions_are_stored _ _ _ _ _ _ Hch).
      apply in_or_app. now left.
    + intros extra p Hin.
      apply backend_add_bonus_grows; [exact Hs|].
      eapply Hwf, (applied_promotions_are_stored _ _ _ _ _ _ Hch).
      apply in_or_app. now right.
Qed.

Lemma purchase_earns_at_least_base_witness :
  exists t,
    transactions (snd (Backend.purchase 500 trent scenario_B demo)) = [t]
    /\ basePoints (100 # 1) <= t_amount t.
Proof.
  destruct purchase_earns_at_least_base as [_ Hb].
  destruct (Hb 500 trent scenario_B demo
              (fst (Backend.purchase 500 trent scenario_B demo))
              (snd (Backend.purchase 500 trent scenario_B demo))
              promotions_well_formed_demo)
    as (spent & t & E & Ht & Hle);
    [symmetry; apply surjective_pairing | vm_compute; reflexivity |].
  injection E as <-. exists t. auto.
Defined.

(** ** The roles and flags of a user *)

Lemma part003_patch_user_refusal auth target body st :
  Part003_Users.patch_data auth target body = Refused st -> st <> OK.
Proof.
  unfold Part003_Users.patch_data, Part003_Users.patch_role,
    Part003_Users.patch_email, check_then.
  intros H. repeat case_match; simplify_eq; discriminate.
Qed.

Lemma backend_patch_user_refusal auth target body st :
  Backend_Users.patch_data auth target body = Refused st -> st <> OK.
Proof.
  unfold Backend_Users.patch_data, Backend_Users.patch_role,
    Backend_Users.patch_email, Backend_Users.patch_verified,
    Backend_Users.patch_suspicious, check_then.
  intros H. repeat case_match; simplify_eq; discriminate.
Qed.

Lemma patch_user_commit_inv email_is_free id data s r s' u :
  users s !! id = Some u ->
  (forall st, data = Refused st -> st <> OK) ->
  patch_user_commit email_is_free id data s = (r, s') ->
  (s' = s /\ r <> Json OK)
  \/ exists d,
       data = Passed d /\ r = Json OK
       /\ s' = set_users <[id := apply_user_data d u]> s.
Proof.
  unfold patch_user_commit, commit, user_update. intros Hu Hst H.
  destruct data as [st|d].
  - simplify_eq. left. split; [reflexivity|].
    intros [= ->]. exact (Hst OK eq_refl eq_refl).
  - rewrite Hu in H.
    destruct (no_keys d); [simplify_eq; left; split; [auto|discriminate]|].
    destruct (ud_email d && negb email_is_free);
      [simplify_eq; left; split; [auto|discriminate]|].
    simplify_eq. right. eauto.
Qed.

(** The outcomes of the handler: the store as it was, under an answer
    other than 200, or the target's row updated from [data], under 200. *)
Lemma part003_patch_user_inv email_is_free auth id body s r s' :
  Part003_Users.patch_users_userId email_is_free auth id body s = (r, s') ->
  (s' = s /\ r <> Json OK)
  \/ exists d u,
       Part003_Users.patch_data auth u body = Passed d
       /\ users s !! id = Some u /\ r = Json OK
       /\ s' = set_users <[id := apply_user_data d u]> s.
Proof.
  unfold Part003_Users.patch_users_userId. intros H.
  destruct (negb (needRole manager auth));
    [simplify_eq; left; split; [auto|discriminate]|].
  destruct (id <=? 0); [simplify_eq; left; split; [auto|discriminate]|].
  destruct (users s !! id) as [u|] eqn:Hu;
    [|simplify_eq; left; split; [auto|discriminate]].
  apply (patch_user_commit_inv _ _ _ _ _ _ u Hu) in H
    as [H|(d & Hd & -> & ->)]; [auto| |].
  - right. exists d, u. auto.
  - intros st. apply part003_patch_user_refusal.
Qed.

Lemma backend_patch_user_inv email_is_free auth id body s r s' :
  Backend_Users.patch_users_userId email_is_free auth id body s = (r, s') ->
  (s' = s /\ r <> Json OK)
  \/ exists d u,
       Backend_Users.patch_data auth u body = Passed d
       /\ users s !! id = Some u /\ r = Json OK
       /\ s' = set_users <[id := apply_user_data d u]> s.
Proof.
  unfold Backend_Users.patch_users_userId. intros H.
  destruct (negb (needRole manager auth));
    [simplify_eq; left; split; [auto|discriminate]|].
  destruct (id <=? 0); [simplify_eq; left; split; [auto|discriminate]|].
  destruct (users s !! id) as [u|] eqn:Hu;
    [|simplify_eq; left; split; [auto|discriminate]].
  apply (patch_user_commit_inv _ _ _ _ _ _ u Hu) in H
    as [H|(d & Hd & -> & ->)]; [auto| |].
  - right. exists d, u. auto.
  - intros st. apply backend_patch_user_refusal.
Qed.

(** The role that [data] carries, when the caller is not a superuser. *)
Lemma part003_patch_data_role auth target body d to :
  Part003_Users.patch_data auth target body = Passed d ->
  ud_role d = Some to ->
  (amSuperuser auth = false -> above_cashier to = false)
  /\ (is_cashier to = true ->
      default (u_suspicious target) (ud_suspicious d) = false).
Proof.
  unfold Part003_Users.patch_data, Part003_Users.patch_role,
    Part003_Users.patch_email, Part003_Users.patch_suspicious, check_then.
  intros H Hto.
  repeat case_match; simplify_eq/=; split; intros; simplify_eq/=;
    repeat match goal with
           | H : _ && _ = false |- _ => apply andb_false_iff in H as [H|H]
           | H : negb _ = false |- _ => apply negb_false_iff in H
           end;
    congruence.
Qed.

Lemma backend_patch_data_role auth target body d to :
  Backend_Users.patch_data auth target body = Passed d ->
  ud_role d = Some to ->
  (amSuperuser auth = false -> above_cashier to = false)
  /\ (is_cashier to = true -> u_suspicious target = false).
Proof.
  unfold Backend_Users.patch_data, Backend_Users.patch_role,
    Backend_Users.patch_email, Backend_Users.patch_verified,
    Backend_Users.patch_suspicious, check_then.
  intros H Hto.
  repeat case_match; simplify_eq/=; split; intros; simplify_eq/=;
    repeat match goal with
           | H : _ && _ = false |- _ => apply andb_false_iff in H as [H|H]
           | H : negb _ = false |- _ => apply negb_false_iff in H
           end;
    congruence.
Qed.

Lemma above_cashier_ORDER to :
  above_cashier to = false -> ORDER to <= ORDER cashier.
Proof. destruct to; simpl; intros; try discriminate; lia. Qed.

Lemma role_after_update d u to :
  u_role (apply_user_data d u) = to ->
  ud_role d = Some to \/ (ud_role d = None /\ u_role u = to).
Proof.
  unfold apply_user_data. simpl.
  destruct (ud_role d) as [r|]; simpl; intros <-; auto.
Qed.

(** X20.  In both listings a [PATCH /users/:userId] sent by a caller who is
    not superuser raises nobody above cashier: a user who is manager or
    superuser after the request had that role before it. *)
Theorem patch_user_grants_no_role_above_cashier :
  (forall email_is_free auth id body s id' u',
     amSuperuser auth = false ->
     users (snd (Part003_Users.patch_users_userId email_is_free auth id body
                   s)) !! id' = Some u' ->
     ORDER cashier < ORDER (u_role u') ->
     exists u, users s !! id' = Some u /\ u_role u = u_role u')
  /\ (forall email_is_free auth id body s id' u',
        amSuperuser auth = false ->
        users (snd (Backend_Users.patch_users_userId email_is_free auth id
                      body s)) !! id' = Some u' ->
        ORDER cashier < ORDER (u_role u') ->
        exists u, users s !! id' = Some u /\ u_role u = u_role u').
Proof.
  split; intros email_is_free auth id body s id' u' Hcaller Hu' Hrole.
  - destruct (Part003_Users.patch_users_userId email_is_free auth id body s)
      as [r s'] eqn:H. simpl in Hu'.
    apply part003_patch_user_inv in H
      as [[-> _]|(d & u & Hd & Hu & _ & ->)]; [eauto|].
    simpl in Hu'. rewrite lookup_insert in Hu'.
    case_decide; [|eauto]. subst id'. injection Hu' as <-.
    exists u. split; [exact Hu|].
    destruct (role_after_update d u _ eq_refl) as [Hto|[_ Hsame]];
      [|exact Hsame].
    exfalso.
    destruct (part003_patch_data_role _ _ _ _ _ Hd Hto) as [Hlow _].
    apply above_cashier_ORDER in Hlow; [lia|exact Hcaller].
  - destruct (Backend_Users.patch_users_userId email_is_free auth id body s)
      as [r s'] eqn:H. simpl in Hu'.
    apply backend_patch_user_inv in H
      as [[-> _]|(d & u & Hd & Hu & _ & ->)]; [eauto|].
    simpl in Hu'. rewrite lookup_insert in Hu'.
    case_decide; [|eauto]. subst id'. injection Hu' as <-.
    exists u. split; [exact Hu|].
    destruct (role_after_update d u _ eq_refl) as [Hto|[_ Hsame]];
      [|exact Hsame].
    exfalso.
    destruct (backend_patch_data_role _ _ _ _ _ Hd Hto) as [Hlow _].
    apply above_cashier_ORDER in Hlow; [lia|exact Hcaller].
Qed.

Lemma patch_user_grants_no_role_above_cashier_witness :
  Part003_Users.patch_users_userId true boss 3 crown_bob demo
  = (Json Forbidden, demo)
  /\ Backend_Users.patch_users_userId true boss 3 crown_bob demo
     = (Json Forbidden, demo)
  /\ (forall u', users (snd (Part003_Users.patch_users_userId true boss 3
                               promote_bob demo)) !! 1 = Some u' ->
                 u_role u' = manager).
Proof.
  destruct patch_user_grants_no_role_above_cashier as [Hp _].
  split; [vm_compute; reflexivity|]. split; [vm_compute; reflexivity|].
  intros u' Hu'.
  assert (Hm : u_role u' = manager)
    by (vm_compute in Hu'; injection Hu' as <-; reflexivity).
  destruct (Hp true boss 3 promote_bob demo 1 u' eq_refl Hu')
    as (u & Hu & <-).
  - rewrite Hm. vm_compute. reflexivity.
  - vm_compute in Hu. injection Hu as <-. reflexivity.
Defined.

(** X21.  In part_003 a [PATCH /users/:userId] that makes a user cashier
    and is answered 200 leaves that user unflagged: the request is refused
    when the user is, or is being, marked suspicious.  In the second
    listing a user whose stored flag is set cannot be made cashier,
    whatever else the request says: the store stays as it was. *)
Theorem new_cashier_is_not_suspicious :
  (forall email_is_free auth id body s,
     up_role body = Val (Some cashier) ->
     fst (Part003_Users.patch_users_userId email_is_free auth id body s)
     = Json OK ->
     exists u',
       users (snd (Part003_Users.patch_users_userId email_is_free auth id
                     body s)) !! id = Some u'
       /\ u_role u' = cashier /\ u_suspicious u' = false)
  /\ (forall email_is_free auth id body s target,
        up_role body = Val (Some cashier) ->
        users s !! id = Some target -> u_suspicious target = true ->
        fst (Backend_Users.patch_users_userId email_is_free auth id body s)
        <> Json OK
        /\ snd (Backend_Users.patch_users_userId email_is_free auth id body
                  s) = s).
Proof.
  split.
  - intros email_is_free auth id body s Hrole Hok.
    destruct (Part003_Users.patch_users_userId email_is_free auth id body s)
      as [r s'] eqn:H. simpl in *. subst r.
    apply part003_patch_user_inv in H
      as [[_ Hno]|(d & u & Hd & Hu & _ & ->)]; [contradiction|].
    exists (apply_user_data d u). simpl. rewrite lookup_insert_eq.
    split; [reflexivity|].
    assert (Hto : ud_role d = Some cashier).
    { revert Hd. unfold Part003_Users.patch_data,
        Part003_Users.patch_role, check_then. rewrite Hrole.
      intros Hd. repeat case_match; simplify_eq/=; reflexivity. }
    destruct (part003_patch_data_role _ _ _ _ _ Hd Hto) as [_ Hclean].
    unfold apply_user_data. simpl. rewrite Hto. simpl.
    split; [reflexivity|]. apply Hclean. reflexivity.
  - intros email_is_free auth id body s target Hrole Hu Hflag.
    destruct (Backend_Users.patch_users_userId email_is_free auth id body s)
      as [r s'] eqn:H. simpl.
    apply backend_patch_user_inv in H
      as [[-> Hno]|(d & u & Hd & Hu' & _ & ->)]; [auto|].
    exfalso. assert (u = target) by congruence. subst u.
    assert (Hto : ud_role d = Some cashier).
    { revert Hd. unfold Backend_Users.patch_data,
        Backend_Users.patch_role, check_then. rewrite Hrole.
      intros Hd. repeat case_match; simplify_eq/=; reflexivity. }
    destruct (backend_patch_data_role _ _ _ _ _ Hd Hto) as [_ Hclean].
    rewrite Hclean in Hflag; [discriminate|reflexivity].
Qed.

Lemma new_cashier_is_not_suspicious_witness :
  (exists u',
     users (snd (Part003_Users.patch_users_userId true boss 3 promote_bob
                   demo)) !! 3 = Some u'
     /\ u_role u' = cashier /\ u_suspicious u' = false)
  /\ Part003_Users.patch_users_userId true boss 3 promote_and_flag_bob demo
     = (Json BadRequest, demo)
  /\ snd (Backend_Users.patch_users_userId true boss 5 promote_bob demo)
     = demo.
Proof.
  destruct new_cashier_is_not_suspicious as [Hp Hb].
  split; [|split].
  - apply (Hp true boss 3 promote_bob demo eq_refl).
    vm_compute. reflexivity.
  - vm_compute. reflexivity.
  - apply (Hb true boss 5 promote_bob demo
             (mkUser "mallory1" cashier 0 true true));
      [reflexivity | vm_compute; reflexivity | reflexivity].
Defined.

(** X22.  In the second listing the check reads the stored flag only: a
    request that makes a user cashier and marks the user suspicious at
    once, when it is answered 200, found the user unflagged and leaves a
    suspicious cashier; and a manager's request of that kind for an
    unflagged user is answered 200. *)
Theorem backend_cashier_check_reads_stored_flag :
  (forall email_is_free auth id body s,
     up_role body = Val (Some cashier) ->
     up_suspicious body = Val (Some true) ->
     fst (Backend_Users.patch_users_userId email_is_free auth id body s)
     = Json OK ->
     exists u u',
       users s !! id = Some u /\ u_suspicious u = false
       /\ users (snd (Backend_Users.patch_users_userId email_is_free auth id
                        body s)) !! id = Some u'
       /\ u_role u' = cashier /\ u_suspicious u' = true)
  /\ (forall email_is_free auth id s target,
        needRole manager auth = true -> 0 < id ->
        users s !! id = Some target -> u_suspicious target = false ->
        Backend_Users.patch_users_userId email_is_free auth id
          promote_and_flag_bob s
        = (Json OK,
           set_users
             <[id := mkUser (u_utorid target) cashier (u_points target)
                       (u_verified target) true]> s)).
Proof.
  split.
  - intros email_is_free auth id body s Hrole Hflag Hok.
    destruct (Backend_Users.patch_users_userId email_is_free auth id body s)
      as [r s'] eqn:H. simpl in *. subst r.
    apply backend_patch_user_inv in H
      as [[_ Hno]|(d & u & Hd & Hu & _ & ->)]; [contradiction|].
    assert (Hto : ud_role d = Some cashier /\ ud_suspicious d = Some true).
    { revert Hd. unfold Backend_Users.patch_data,
        Backend_Users.patch_role, Backend_Users.patch_suspicious,
        check_then. rewrite Hrole, Hflag.
      intros Hd. repeat case_match; simplify_eq/=; auto. }
    destruct Hto as [Hto Hsus].
    destruct (backend_patch_data_role _ _ _ _ _ Hd Hto) as [_ Hclean].
    exists u, (apply_user_data d u). simpl. rewrite lookup_insert_eq.
    split; [exact Hu|]. split; [apply Hclean; reflexivity|].
    split; [reflexivity|].
    unfold apply_user_data. simpl. rewrite Hto, Hsus. auto.
  - intros email_is_free auth id s target Hm Hid Hu Hclean.
    apply Z.leb_gt in Hid.
    unfold Backend_Users.patch_users_userId. rewrite Hm, Hid. simpl.
    rewrite Hu. unfold Backend_Users.patch_data, Backend_Users.patch_role.
    simpl. rewrite Hclean. simpl.
    destruct (negb (amSuperuser auth)); simpl;
      unfold commit, user_update; rewrite Hu; reflexivity.
Qed.

Lemma backend_cashier_check_reads_stored_flag_witness :
  users (snd (Backend_Users.patch_users_userId true boss 3
                promote_and_flag_bob demo)) !! 3
  = Some (mkUser "bob00001" cashier 10 true true).
Proof.
  destruct backend_cashier_check_reads_stored_flag as [_ Hgoes].
  rewrite (Hgoes true boss 3 demo (mkUser "bob00001" regular 10 true false));
    [|reflexivity | lia | vm_compute; reflexivity | reflexivity].
  simpl. apply lookup_insert_eq.
Defined.

Lemma only_user_changed_refl id s : only_user_changed id s s.
Proof.
  repeat split; try tauto. destruct s; reflexivity.
Qed.

Lemma only_user_changed_update id u' s :
  is_Some (users s !! id) ->
  only_user_changed id s (set_users <[id := u']> s).
Proof.
  intros Hu. repeat split; simpl.
  - intros id' Hne. apply lookup_insert_ne. auto.
  - intros _. exact Hu.
  - intros _. rewrite lookup_insert_eq. eauto.
Qed.

(** X23.  In both listings a [PATCH /users/:userId] writes at most the row
    of the user it names: every other user and every other table stay as
    they are, the user keeps the utorid and the points, and a verified
    user stays verified. *)
Theorem patch_user_touches_one_account :
  (forall email_is_free auth id body s,
     let s' := snd (Part003_Users.patch_users_userId email_is_free auth id
                      body s) in
     only_user_changed id s s'
     /\ forall u, users s !! id = Some u ->
          exists u', users s' !! id = Some u' /\ same_account u u')
  /\ (forall email_is_free auth id body s,
        let s' := snd (Backend_Users.patch_users_userId email_is_free auth id
                         body s) in
        only_user_changed id s s'
        /\ forall u, users s !! id = Some u ->
             exists u', users s' !! id = Some u' /\ same_account u u').
Proof.
  assert (Hsame : forall d u, same_account u (apply_user_data d u)).
  { intros d u. repeat split. simpl. intros ->. apply orb_true_r. }
  assert (Hrefl : forall u, same_account u u) by (intros u; repeat split; auto).
  split; intros email_is_free auth id body s; simpl.
  - destruct (Part003_Users.patch_users_userId email_is_free auth id body s)
      as [r s'] eqn:H. simpl.
    apply part003_patch_user_inv in H
      as [[-> _]|(d & u & Hd & Hu & _ & ->)].
    + split; [apply only_user_changed_refl|eauto].
    + split; [apply only_user_changed_update; eauto|].
      intros u0 Hu0. assert (u0 = u) by congruence. subst u0.
      eexists. simpl. rewrite lookup_insert_eq. eauto.
  - destruct (Backend_Users.patch_users_userId email_is_free auth id body s)
      as [r s'] eqn:H. simpl.
    apply backend_patch_user_inv in H
      as [[-> _]|(d & u & Hd & Hu & _ & ->)].
    + split; [apply only_user_changed_refl|eauto].
    + split; [apply only_user_changed_update; eauto|].
      intros u0 Hu0. assert (u0 = u) by congruence. subst u0.
      eexists. simpl. rewrite lookup_insert_eq. eauto.
Qed.

(** ** Reset tokens *)

(** X24.  A reset token works once, and only with the utorid of its own
    user: [POST /auth/resets/:resetToken] answers 200 only for a token that
    is in the table and has not expired, with the utorid of the token's user
    and a password that [passwordRegex] accepts; it then sets the hash of
    that user, leaves every other hash alone and removes the token, so that
    any later request with the same token is answered 404 and changes
    nothing.  With any other answer nothing changes. *)
Theorem reset_token_works_once now resetToken utorid password passwordHash
    s a :
  let out := Shared_Auth.post_auth_resets_resetToken now resetToken utorid
               password passwordHash s a in
  (fst out = Json OK ->
     (exists t u,
        resetTokens a !! resetToken = Some t /\ now < rt_expiresAt t
        /\ users s !! rt_userId t = Some u /\ u_utorid u = utorid
        /\ password = Some true
        /\ passwordHashes (snd out)
           = <[rt_userId t := passwordHash]> (passwordHashes a)
        /\ resetTokens (snd out) = delete resetToken (resetTokens a))
     /\ forall now' utorid' password' passwordHash' s',
          Shared_Auth.post_auth_resets_resetToken now' resetToken utorid'
            password' passwordHash' s' (snd out)
          = (Json NotFound, snd out))
  /\ (fst out <> Json OK -> snd out = a).
Proof.
  simpl. unfold Shared_Auth.post_auth_resets_resetToken.
  destruct (resetTokens a !! resetToken) as [t|] eqn:Ht;
    [|split; [discriminate|reflexivity]].
  destruct (rt_consumed t); [split; [discriminate|reflexivity]|].
  destruct (rt_expiresAt t <=? now) eqn:Hexp;
    [split; [discriminate|reflexivity]|].
  apply Z.leb_gt in Hexp.
  destruct (users s !! rt_userId t) as [u|] eqn:Hu;
    [|split; [discriminate|reflexivity]].
  destruct (String.eqb utorid ""); [split; [discriminate|reflexivity]|].
  destruct password as [ok|]; simpl; [|split; [discriminate|reflexivity]].
  destruct (String.eqb (u_utorid u) utorid) eqn:Hname; simpl;
    [|split; [discriminate|reflexivity]].
  apply String.eqb_eq in Hname.
  destruct ok; simpl; [|split; [discriminate|reflexivity]].
  split; [|congruence]. intros _. split.
  - exists t, u. repeat split; auto.
  - intros now' utorid' password' passwordHash' s'.
    rewrite lookup_delete_eq. reflexivity.
Qed.

Lemma reset_token_works_once_witness :
  let out := Shared_Auth.post_auth_resets_resetToken 3000 "old-token"
               "alice001" (Some true) "hash-1" demo demo_accounts in
  fst out = Json OK
  /\ passwordHashes (snd out) !! 2 = Some "hash-1"%string
  /\ Shared_Auth.post_auth_resets_resetToken 3001 "old-token" "alice001"
       (Some true) "hash-2" demo (snd out)
     = (Json NotFound, snd out).
Proof.
  intros out.
  assert (Hok : fst out = Json OK) by (vm_compute; reflexivity).
  destruct (reset_token_works_once 3000 "old-token" "alice001" (Some true)
              "hash-1" demo demo_accounts) as [Hdone _].
  destruct (Hdone Hok) as ((t & u & Ht & _ & _ & _ & _ & Hhash & _) & Hagain).
  split; [exact Hok|]. split; [|apply Hagain].
  fold out in Hhash. rewrite Hhash.
  vm_compute in Ht. injection Ht as <-. apply lookup_insert_eq.
Defined.

(** X25.  Asking for a reset revokes the tokens the user held: a
    [POST /auth/resets] answered 202 leaves the user with the new token
    alone, good for one hour, takes no token from any other user and sets
    no password; a later reset with one of the user's older tokens is
    answered 404 and changes nothing. *)
Theorem reset_request_revokes_older_tokens now resetToken utorid s a :
  let out := Shared_Auth.post_auth_resets now resetToken utorid s a in
  fst out = Accepted ->
  exists uid u,
    find_user_by_utorid s utorid = Some (uid, u)
    /\ resetTokens (snd out) !! resetToken
       = Some (mkResetToken uid (now + 3600000) false)
    /\ passwordHashes (snd out) = passwordHashes a
    /\ (forall key t,
          key <> resetToken ->
          (resetTokens (snd out) !! key = Some t
           <-> resetTokens a !! key = Some t /\ rt_userId t <> uid))
    /\ (forall key t,
          key <> resetToken ->
          resetTokens a !! key = Some t -> rt_userId t = uid ->
          forall now' utorid' password' passwordHash' s',
            Shared_Auth.post_auth_resets_resetToken now' key utorid'
              password' passwordHash' s' (snd out)
            = (Json NotFound, snd out)).
Proof.
  cbv zeta. unfold Shared_Auth.post_auth_resets, resetToken_create.
  destruct (String.eqb utorid ""); [discriminate|].
  destruct (find_user_by_utorid s utorid) as [[uid u]|]; [|discriminate].
  destruct (resetTokens (resetToken_deleteMany uid a) !! resetToken)
    eqn:Hnew; [discriminate|].
  cbn [fst snd]. intros _. exists uid, u.
  assert (Hkeys : forall key t,
            key <> resetToken ->
            (<[resetToken := mkResetToken uid (now + 3600000) false]>
               (resetTokens (resetToken_deleteMany uid a)) !! key = Some t
             <-> resetTokens a !! key = Some t /\ rt_userId t <> uid)).
  { intros key t Hne. rewrite lookup_insert_ne by auto.
    unfold resetToken_deleteMany. simpl.
    rewrite map_lookup_filter_Some. simpl. tauto. }
  split; [reflexivity|]. split; [apply lookup_insert_eq|].
  split; [reflexivity|]. split; [exact Hkeys|].
  intros key t Hne Ht Huid now' utorid' password' passwordHash' s'.
  assert (E : <[resetToken := mkResetToken uid (now + 3600000) false]>
                (resetTokens (resetToken_deleteMany uid a)) !! key = None).
  { destruct (<[resetToken := mkResetToken uid (now + 3600000) false]>
                (resetTokens (resetToken_deleteMany uid a)) !! key)
      as [t'|] eqn:E; [|reflexivity].
    apply Hkeys in E as [E Hother]; [|exact Hne].
    exfalso. apply Hother. congruence. }
  unfold Shared_Auth.post_auth_resets_resetToken.
  change (resetTokens
            (mkAccounts
               (<[resetToken := mkResetToken uid (now + 3600000) false]>
                  (resetTokens (resetToken_deleteMany uid a)))
               (passwordHashes (resetToken_deleteMany uid a))) !! key)
    with (<[resetToken := mkResetToken uid (now + 3600000) false]>
            (resetTokens (resetToken_deleteMany uid a)) !! key).
  rewrite E. reflexivity.
Qed.

Lemma reset_request_revokes_older_tokens_witness :
  let out := Shared_Auth.post_auth_resets 3000 "new-token" "alice001" demo
               demo_accounts in
  fst out = Accepted
  /\ resetTokens (snd out) !! "new-token"%string
     = Some (mkResetToken 2 3603000 false)
  /\ Shared_Auth.post_auth_resets_resetToken 3001 "old-token" "alice001"
       (Some true) "hash-1" demo (snd out)
     = (Json NotFound, snd out).
Proof.
  intros out.
  assert (Hok : fst out = Accepted) by (vm_compute; reflexivity).
  destruct (reset_request_revokes_older_tokens 3000 "new-token" "alice001"
              demo demo_accounts Hok)
    as (uid & u & Hu & Hnew & _ & _ & Hold).
  vm_compute in Hu. injection Hu as <- <-.
  split; [exact Hok|]. split; [exact Hnew|].
  apply (Hold "old-token"%string (mkResetToken 2 4000 false));
    [discriminate | vm_compute; reflexivity | reflexivity].
Defined.

(** ** The promotions a cashier is shown *)

(** X26.  What [GET /users/:userId] shows a cashier for a customer is what
    a purchase for that customer at the same instant accepts: a promotion
    with a positive id is among the promotions of the answer exactly when
    the [promotionIds] loop of [POST /transactions] accepts its id for
    that customer; a promotion that the customer has used is not shown. *)
Theorem cashier_is_shown_what_a_purchase_accepts now auth id s u shown :
  Shared_Users.get_users_userId now auth id s = (OK, Some (u, shown)) ->
  users s !! id = Some u
  /\ (forall pid p,
        0 < pid ->
        (In (pid, p) shown
         <-> chooseOneTime s id (onetime_of (active_promotions s now))
               [Some pid] = Some [(pid, p)]))
  /\ (forall pid p, used id pid s -> ~ In (pid, p) shown).
Proof.
  unfold Shared_Users.get_users_userId. intros H.
  destruct (negb (needRole cashier auth)); [discriminate|].
  destruct (id <=? 0); [discriminate|].
  destruct (users s !! id) as [u'|] eqn:Hu; [|discriminate].
  injection H as -> <-. split; [reflexivity|].
  unfold Shared_Users.pickAvailableOneTimePromos. split.
  - intros pid p Hpos. rewrite filter_In, chooseOneTime_single. simpl.
    rewrite negb_true_iff. tauto.
  - intros pid p Hused Hin. apply filter_In in Hin as [_ Hfree].
    simpl in Hfree. unfold used in Hused. rewrite Hused in Hfree.
    discriminate.
Qed.

Lemma cashier_is_shown_what_a_purchase_accepts_witness :
  let welcome := mkPromotion "welcome" "onetime" 0 1000 (Some (50 # 1)) None
                   (Some 30) in
  Shared_Users.get_users_userId 500 trent 2 demo
  = (OK, Some (mkUser "alice001" regular 100 true false, [(2, welcome)]))
  /\ chooseOneTime demo 2 (onetime_of (active_promotions demo 500)) [Some 2]
     = Some [(2, welcome)]
  /\ snd (Shared_Users.get_users_userId 501 trent 2
            (snd (Backend.purchase 500 trent second_purchase demo)))
     = Some (mkUser "alice001" regular 670 true false, []).
Proof.
  intros welcome.
  assert (H : Shared_Users.get_users_userId 500 trent 2 demo
              = (OK, Some (mkUser "alice001" regular 100 true false,
                           [(2, welcome)]))) by (vm_compute; reflexivity).
  split; [exact H|].
  destruct (cashier_is_shown_what_a_purchase_accepts _ _ _ _ _ _ H)
    as (_ & Hshown & _).
  split; [|vm_compute; reflexivity].
  apply Hshown; [lia | now left].
Defined.
